(** * Vedawave backend: message lifecycle, reactions, friendships and the
      connection registry

    A shallow embedding of [src/models.py], [src/websocket_manager.py] and
    the request handlers of [src/main.py], followed by the properties of the
    specification that concern them.

    Conventions of the embedding.
    - Python integers are [Z]; strings are [string]; [None]-able columns are
      [option].
    - A table is the list of its rows in rowid order; [db.query(T).first()]
      is the first row that passes the filter.
    - [db] always denotes the committed database, the state other requests
      observe.  Rows changed or added in the SQLAlchemy session reach it at
      the [db.commit()] of the source, never earlier (the session factory is
      created with [autoflush=False]).
    - [datetime.utcnow()] is the argument [now] of a handler; a column with
      [onupdate=datetime.utcnow] takes that value whenever its row is
      changed, and keeps its value when a commit finds every assigned
      column equal to what is stored.
    - The engine is SQLite as [src/database.py] opens it, without
      [PRAGMA foreign_keys]: a foreign key column takes any integer that
      fits 64 bits, signed.  The integers a socket frame gives for such
      columns are checked where the client chooses them freely: the commit
      that binds one that does not fit raises [OverflowError].
    - An exception is a value [Raise e]; the state reached when it is raised
      is kept, as the committed database and the registry survive a failed
      request. *)

From stdpp Require Import gmap strings list fin_maps.
From Stdlib Require Import Sorted.

Local Open Scope Z_scope.

(** ** Exceptions and results *)

Inductive exn : Type :=
| HTTPException (status_code : Z) (detail : string)
| AttributeError (attr : string)
| KeyError (key : string)
| ValidationError (field : string)
| OverflowError
| WebSocketDisconnect
| SendFailure.

Inductive result (A : Type) : Type :=
| Ok (a : A)
| Raise (e : exn).
Arguments Ok {A} a.
Arguments Raise {A} e.

(** ** models.py *)

Module User.
Record t : Type := mk {
    id : Z;
    name : string;
    email : string;
    password : string;
    avatar : option string;
    status_message : option string;
    is_active : bool;
    last_seen : Z;
    created_at : Z;
    updated_at : Z }.

(** [user.is_active = b; user.last_seen = now], written at the commit. *)
Definition set_presence (b : bool) (now : Z) (u : t) : t :=
  mk (id u) (name u) (email u) (password u) (avatar u) (status_message u)
       b now (created_at u) now.
End User.

Module Chat.
Record t : Type := mk {
    id : Z;
    user1_id : Z;
    user2_id : Z;
    created_at : Z;
    updated_at : Z }.
End Chat.

Module Message.
Record t : Type := mk {
    id : Z;
    content : option string;
    is_edited : bool;
    is_deleted : bool;
    sender_id : Z;
    chat_id : Z;
    message_type : string;
    reply_to_message_id : option Z;
    status : string;
    delivered_at : option Z;
    seen_at : option Z;
    created_at : Z;
    updated_at : Z }.

(** [message.status = 'seen'; message.seen_at = now] *)
Definition mark_seen (now : Z) (m : t) : t :=
  mk (id m) (content m) (is_edited m) (is_deleted m) (sender_id m)
       (chat_id m) (message_type m) (reply_to_message_id m)
       "seen" (delivered_at m) (Some now) (created_at m) now.

(** [message.content = c; message.is_edited = True]; when both columns
    already hold these values the commit emits no UPDATE and [updated_at]
    stays. *)
Definition edit (c : option string) (now : Z) (m : t) : t :=
  mk (id m) c true (is_deleted m) (sender_id m)
       (chat_id m) (message_type m) (reply_to_message_id m)
       (status m) (delivered_at m) (seen_at m) (created_at m)
       (if bool_decide (content m = c ∧ is_edited m = true)
        then updated_at m else now).

(** [message.is_deleted = True; message.content = "This message was deleted"];
    [updated_at] moves when one of the two columns changes. *)
Definition soft_delete (now : Z) (m : t) : t :=
  mk (id m) (Some "This message was deleted") (is_edited m) true (sender_id m)
       (chat_id m) (message_type m) (reply_to_message_id m)
       (status m) (delivered_at m) (seen_at m) (created_at m)
       (if bool_decide (content m = Some "This message was deleted"%string
                        ∧ is_deleted m = true)
        then updated_at m else now).

(** [message.delivered_at = now] *)
Definition stamp_delivered (now : Z) (m : t) : t :=
  mk (id m) (content m) (is_edited m) (is_deleted m) (sender_id m)
       (chat_id m) (message_type m) (reply_to_message_id m)
       (status m) (Some now) (seen_at m) (created_at m) now.
End Message.

Module Attachment.
Record t : Type := mk {
    id : Z;
    message_id : Z;
    filename : string;
    file_url : string;
    file_type : string;
    file_size : Z;
    created_at : Z }.
End Attachment.

Module FriendRequest.
Record t : Type := mk {
    id : Z;
    sender_id : Z;
    receiver_id : Z;
    status : string;
    created_at : Z;
    updated_at : Z }.

(** [request.status = s]; [updated_at] moves when the status changes. *)
Definition set_status (s : string) (now : Z) (r : t) : t :=
  mk (id r) (sender_id r) (receiver_id r) s (created_at r)
     (if bool_decide (status r = s) then updated_at r else now).
End FriendRequest.

Module Friendship.
Record t : Type := mk {
    id : Z;
    user1_id : Z;
    user2_id : Z;
    created_at : Z }.
End Friendship.

Module MessageReaction.
Record t : Type := mk {
    id : Z;
    message_id : Z;
    user_id : Z;
    emoji : string;
    created_at : Z }.
End MessageReaction.

(** ** The database *)

Record DB : Type := mkDB {
  users : list User.t;
  chats : list Chat.t;
  messages : list Message.t;
  attachments : list Attachment.t;
  friend_requests : list FriendRequest.t;
  friendships : list Friendship.t;
  message_reactions : list MessageReaction.t }.

Definition empty_db : DB := mkDB [] [] [] [] [] [] [].

(** The primary key an INSERT receives: one more than the largest in use. *)
Definition next_id {A : Type} (key : A → Z) (rows : list A) : Z :=
  1 + foldr (λ r acc, Z.max (key r) acc) 0 rows.

(** [query.filter(...).first()] *)
Definition first {A : Type} (p : A → bool) (rows : list A) : option A :=
  List.find p rows.

(** UPDATE of the row carrying the primary key of [new]. *)
Definition update_row {A : Type} (key : A → Z) (new : A) (rows : list A) : list A :=
  map (λ r, if key r =? key new then new else r) rows.

(** DELETE of the row carrying the primary key [k]. *)
Definition delete_row {A : Type} (key : A → Z) (k : Z) (rows : list A) : list A :=
  List.filter (λ r, negb (key r =? k)) rows.

Definition set_users (v : list User.t) (d : DB) : DB :=
  mkDB v (chats d) (messages d) (attachments d) (friend_requests d)
       (friendships d) (message_reactions d).
Definition set_messages (v : list Message.t) (d : DB) : DB :=
  mkDB (users d) (chats d) v (attachments d) (friend_requests d)
       (friendships d) (message_reactions d).
Definition set_attachments (v : list Attachment.t) (d : DB) : DB :=
  mkDB (users d) (chats d) (messages d) v (friend_requests d)
       (friendships d) (message_reactions d).
Definition set_friend_requests (v : list FriendRequest.t) (d : DB) : DB :=
  mkDB (users d) (chats d) (messages d) (attachments d) v
       (friendships d) (message_reactions d).
Definition set_friendships (v : list Friendship.t) (d : DB) : DB :=
  mkDB (users d) (chats d) (messages d) (attachments d) (friend_requests d)
       v (message_reactions d).
Definition set_message_reactions (v : list MessageReaction.t) (d : DB) : DB :=
  mkDB (users d) (chats d) (messages d) (attachments d) (friend_requests d)
       (friendships d) v.

(** [db.query(User).filter(User.id == uid).first()] and its siblings. *)
Definition user_by_id (uid : Z) (d : DB) : option User.t :=
  first (λ u, User.id u =? uid) (users d).
Definition chat_by_id (cid : Z) (d : DB) : option Chat.t :=
  first (λ c, Chat.id c =? cid) (chats d).
Definition message_by_id (mid : Z) (d : DB) : option Message.t :=
  first (λ m, Message.id m =? mid) (messages d).

(** ** Frames pushed to a session *)

(** [MessageReactionSummary] of schemas.py, also the dictionaries
    [{"emoji", "count", "users"}] built by the handlers. *)
Module MessageReactionSummary.
Record t : Type := mk {
    emoji : string;
    count : Z;
    users : list Z }.
End MessageReactionSummary.

(** The [reply_to_message] dictionary. *)
Module ReplyPreview.
Record t : Type := mk {
    id : Z;
    content : option string;
    sender_id : Z;
    created_at : Z;
    message_type : string;
    is_deleted : bool }.
End ReplyPreview.

(** An attachment dictionary: of a pushed [message] frame ([id = None]) or
    of a [MessageResponse] ([id] set). *)
Module AttachmentInfo.
Record t : Type := mk {
    id : option Z;
    filename : string;
    file_url : string;
    file_type : string;
    file_size : Z }.
End AttachmentInfo.

(** The ["message"] dictionary of an outbound [message] frame. *)
Module MessagePayload.
Record t : Type := mk {
    id : Z;
    content : option string;
    sender_id : Z;
    chat_id : Z;
    created_at : Z;
    message_type : string;
    reply_to_message_id : option Z;
    reply_to_message : option ReplyPreview.t;
    attachments : list AttachmentInfo.t }.
End MessagePayload.

(** What a handler hands to [send_text] (the dictionary that is passed
    through [json.dumps]), and the close of a session. *)
Inductive Event : Type :=
| EvMessage (message : MessagePayload.t)
| EvMessageEdited (message_id chat_id : Z) (content : option string)
                  (is_edited : bool) (edited_by : Z)
| EvMessageDeleted (message_id chat_id deleted_by : Z)
| EvReaction (action : string) (message_id chat_id user_id : Z)
             (emoji : string) (reactions : list MessageReactionSummary.t)
| EvTyping (user_id chat_id : Z) (is_typing : bool)
| EvPong
| EvUserStatus (user_id : Z) (is_online : bool)
| EvClose (code : Z).

(** ** The world a handler runs in *)

(** A WebSocket object, by identity. *)
Definition WebSocket : Type := nat.

(** [ConnectionManager.__init__]: [active_connections], user_id -> websocket. *)
Record ConnectionManager : Type := mkManager {
  active_connections : gmap Z WebSocket }.

(** The transport: the sockets on which [send_text] raises, and the frames
    pushed so far, oldest first. *)
Record Net : Type := mkNet {
  broken : gset WebSocket;
  outbox : list (WebSocket * Event) }.

Record World : Type := mkWorld {
  db : DB;
  manager : ConnectionManager;
  net : Net }.

Definition set_db (d : DB) (w : World) : World := mkWorld d (manager w) (net w).
Definition set_manager (m : ConnectionManager) (w : World) : World :=
  mkWorld (db w) m (net w).
Definition set_net (n : Net) (w : World) : World := mkWorld (db w) (manager w) n.

(** A handler: from the world it starts in to the world it leaves and what
    it returns or raises. *)
Definition M (A : Type) : Type := World → World * result A.

Definition ret {A : Type} (a : A) : M A := λ w, (w, Ok a).
Definition raise {A : Type} (e : exn) : M A := λ w, (w, Raise e).
Definition bind {A B : Type} (c : M A) (k : A → M B) : M B :=
  λ w, match c w with
       | (w', Ok a) => k a w'
       | (w', Raise e) => (w', Raise e)
       end.

Notation "'do' x <- c ; k" := (bind c (λ x, k))
  (at level 10, x name, c at level 100, k at level 200).
Notation "c ;; k" := (bind c (λ _, k))
  (at level 100, k at level 200, right associativity).

(** [db.commit()] of the changes [f] the session holds. *)
Definition commit (f : DB → DB) : M unit := λ w, (set_db (f (db w)) w, Ok tt).

(** A read of the committed database. *)
Definition query {A : Type} (q : DB → A) : M A := λ w, (w, Ok (q (db w))).

(** An INTEGER of SQLite is a signed 64-bit integer. *)
Definition sqlite_integer (n : Z) : bool := (- 2 ^ 63 <=? n) && (n <? 2 ^ 63).

(** [db.commit()] of rows whose columns take the integers [bound] from the
    client: the driver refuses to bind an integer that does not fit, with
    [OverflowError], the transaction is rolled back and nothing of it is
    written. *)
Definition commit_binding (bound : list Z) (f : DB → DB) : M unit :=
  if forallb sqlite_integer bound then commit f else raise OverflowError.

(** [for x in xs: body(x)] *)
Fixpoint for_each {A : Type} (body : A → M unit) (xs : list A) : M unit :=
  match xs with
  | [] => ret tt
  | x :: rest => body x ;; for_each body rest
  end.

(** A list built by a loop whose body may raise. *)
Fixpoint map_M {A B : Type} (f : A → M B) (xs : list A) : M (list B) :=
  match xs with
  | [] => ret []
  | x :: rest => do y <- f x; do ys <- map_M f rest; ret (y :: ys)
  end.

(** ** websocket_manager.py *)

(** [websocket.send_text(message)] *)
Definition send_text (websocket : WebSocket) (message : Event) : M unit :=
  λ w, if bool_decide (websocket ∈ broken (net w))
       then (w, Raise SendFailure)
       else (set_net (mkNet (broken (net w))
                            (outbox (net w) ++ [(websocket, message)])) w,
             Ok tt).

(** [connect]: the accepted socket replaces whatever was registered. *)
Definition connect (websocket : WebSocket) (user_id : Z) : M unit :=
  λ w, (set_manager
          (mkManager (<[user_id := websocket]> (active_connections (manager w)))) w,
        Ok tt).

(** [disconnect] *)
Definition disconnect (user_id : Z) : M unit :=
  λ w, match active_connections (manager w) !! user_id with
       | Some _ =>
           (set_manager
              (mkManager (delete user_id (active_connections (manager w)))) w,
            Ok tt)
       | None => (w, Ok tt)
       end.

(** [try: body except Exception: handler] *)
Definition try_except {A : Type} (body : M A) (handler : exn → M A) : M A :=
  λ w, match body w with
       | (w', Ok a) => (w', Ok a)
       | (w', Raise e) => handler e w'
       end.

(** [send_personal_message]: a failed send is printed and dropped. *)
Definition send_personal_message (message : Event) (websocket : WebSocket) : M unit :=
  try_except (send_text websocket message) (λ _, ret tt).

(** [send_to_user]: a failed send unregisters the user. *)
Definition send_to_user (user_id : Z) (message : Event) : M unit :=
  λ w, match active_connections (manager w) !! user_id with
       | Some websocket =>
           try_except (send_text websocket message)
                      (λ _, disconnect user_id) w
       | None => (w, Ok tt)
       end.

(** [asyncio.gather] with [return_exceptions=True]: the coroutines are
    run in the order given; each of them has one suspension point, its
    [send_text], which is atomic here.  What a task raises is returned, not
    raised. *)
Fixpoint gather (tasks : list (M unit)) : M unit :=
  match tasks with
  | [] => ret tt
  | t :: rest => λ w, gather rest (fst (t w))
  end.

(** [send_to_users]: a task per listed user that is registered when the
    list is walked. *)
Definition send_to_users (user_ids : list Z) (message : Event) : M unit :=
  λ w, gather
         (map (λ u, send_to_user u message)
              (List.filter
                 (λ u, bool_decide (is_Some (active_connections (manager w) !! u)))
                 user_ids)) w.

(** [broadcast] *)
Definition broadcast (message : Event) : M unit :=
  λ w, gather
         (map (λ kv, send_personal_message message (snd kv))
              (map_to_list (active_connections (manager w)))) w.

(** [get_active_users] *)
Definition get_active_users (w : World) : list Z :=
  map fst (map_to_list (active_connections (manager w))).

(** [is_user_online] *)
Definition is_user_online (user_id : Z) (w : World) : bool :=
  bool_decide (is_Some (active_connections (manager w) !! user_id)).

(** [send_typing_indicator] *)
Definition send_typing_indicator (chat_id user_id : Z) (is_typing : bool)
    (recipient_id : Z) : M unit :=
  send_to_user recipient_id (EvTyping user_id chat_id is_typing).

(** [send_user_status_update] *)
Definition send_user_status_update (user_id : Z) (is_online : bool) : M unit :=
  broadcast (EvUserStatus user_id is_online).

(** The names [ConnectionManager] binds: the instance attribute set by
    [__init__] and the methods of the class body, in source order. *)
Definition ConnectionManager_attributes : list string :=
  ["active_connections"; "connect"; "disconnect"; "send_personal_message";
   "send_to_user"; "send_to_users"; "broadcast"; "get_active_users";
   "is_user_online"; "send_typing_indicator"; "send_user_status_update"]%string.

(** [manager.<name>]: the attribute reference, which raises for a name the
    class does not bind. *)
Definition manager_getattr (name : string) : M unit :=
  if bool_decide (name ∈ ConnectionManager_attributes)
  then ret tt
  else raise (AttributeError name).

(** [await manager.update_message_status(message_id, status, chat_id, user_id)]
    as main.py writes it.  websocket_manager.py defines no method of that
    name, so the attribute reference raises and no call takes place. *)
Definition update_message_status (message_id : Z) (status : string)
    (chat_id user_id : Z) : M unit :=
  manager_getattr "update_message_status".

(** ** schemas.py *)

Module UserResponse.
Record t : Type := mk {
    id : Z;
    name : string;
    email : string;
    avatar : option string;
    is_active : bool;
    last_seen : option Z;
    access_token : option string }.

(** [UserResponse(id=u.id, name=u.name, email=u.email, avatar=u.avatar,
    is_active=u.is_active)], the other fields at their default. *)
Definition of_user (u : User.t) : t :=
  mk (User.id u) (User.name u) (User.email u) (User.avatar u) (User.is_active u)
     None None.
End UserResponse.

(** An element of an ["attachments"] list as a client sends it, a
    dictionary; [None] is an absent key. *)
Module AttData.
Record t : Type := mk {
    filename : option string;
    file_url : option string;
    file_type : option string;
    file_size : option Z }.
End AttData.

Module MessageCreate.
Record t : Type := mk {
    content : option string;
    chat_id : Z;
    message_type : string;
    reply_to_message_id : option Z;
    attachments : option (list AttData.t) }.
End MessageCreate.

Module MessageResponse.
Record t : Type := mk {
    id : Z;
    content : string;
    sender_id : Z;
    created_at : Z;
    message_type : string;
    is_edited : bool;
    is_deleted : bool;
    status : string;
    reply_to_message_id : option Z;
    reply_to_message : option ReplyPreview.t;
    attachments : list AttachmentInfo.t;
    reactions : list MessageReactionSummary.t }.

(** [MessageResponse(...)]: the field [content: str] refuses [None]. *)
Definition validate (id : Z) (content : option string) (sender_id created_at : Z)
      (message_type : string) (is_edited is_deleted : bool) (status : string)
      (reply_to_message_id : option Z) (reply_to_message : option ReplyPreview.t)
      (attachments : list AttachmentInfo.t)
      (reactions : list MessageReactionSummary.t) : M t :=
    match content with
    | Some c =>
        ret (mk id c sender_id created_at message_type is_edited is_deleted
                status reply_to_message_id reply_to_message attachments reactions)
    | None => raise (ValidationError "content")
    end.
End MessageResponse.

Module FriendRequestResponse.
Record t : Type := mk {
    id : Z;
    sender : UserResponse.t;
    receiver : UserResponse.t;
    status : string;
    created_at : Z }.
End FriendRequestResponse.

Module FriendRequestUpdate.
Record t : Type := mk { status : string }.
End FriendRequestUpdate.

Module ReactionRequest.
Record t : Type := mk { emoji : string }.
End ReactionRequest.

(** ** main.py: what the message handlers share *)

(** [reaction_groups]: a dictionary from emoji to the list of user ids, in
    order of first insertion.  One step of
    [if r.emoji not in reaction_groups: reaction_groups[r.emoji] = []]
    followed by [reaction_groups[r.emoji].append(r.user_id)]. *)
Fixpoint group_append (emoji : string) (user_id : Z)
    (groups : list (string * list Z)) : list (string * list Z) :=
  match groups with
  | [] => [(emoji, [user_id])]
  | (e, us) :: rest =>
      if String.eqb e emoji then (e, us ++ [user_id]) :: rest
      else (e, us) :: group_append emoji user_id rest
  end.

Definition reaction_groups (reactions : list MessageReaction.t)
    : list (string * list Z) :=
  fold_left (λ groups r,
               group_append (MessageReaction.emoji r) (MessageReaction.user_id r) groups)
            reactions [].

(** [formatted_reactions] *)
Definition formatted_reactions (reactions : list MessageReaction.t)
    : list MessageReactionSummary.t :=
  map (λ g, MessageReactionSummary.mk (fst g) (Z.of_nat (length (snd g))) (snd g))
      (reaction_groups reactions).

(** [db.query(MessageReaction).filter(MessageReaction.message_id == mid).all()] *)
Definition reactions_of (message_id : Z) (d : DB) : list MessageReaction.t :=
  List.filter (λ r, MessageReaction.message_id r =? message_id) (message_reactions d).

(** [db.query(Attachment).filter(Attachment.message_id == mid).all()] *)
Definition attachments_of (message_id : Z) (d : DB) : list Attachment.t :=
  List.filter (λ a, Attachment.message_id a =? message_id) (attachments d).

(** The reply preview: [None] unless [reply_to_message_id] is truthy and
    names a stored message. *)
Definition reply_preview (reply_to_message_id : option Z) (d : DB)
    : option ReplyPreview.t :=
  match reply_to_message_id with
  | Some rid =>
      if rid =? 0 then None
      else match message_by_id rid d with
           | Some r =>
               Some (ReplyPreview.mk (Message.id r) (Message.content r)
                       (Message.sender_id r) (Message.created_at r)
                       (Message.message_type r) (Message.is_deleted r))
           | None => None
           end
  | None => None
  end.

(** [participants = [chat.user1_id, chat.user2_id]] after
    [chat = db.query(Chat).filter(Chat.id == chat_id).first()]; on [None]
    the attribute access raises. *)
Definition participants_of (chat_id : Z) : M (list Z) :=
  do chat <- query (chat_by_id chat_id);
  match chat with
  | Some c => ret [Chat.user1_id c; Chat.user2_id c]
  | None => raise (AttributeError "user1_id")
  end.

(** [order_by(Message.created_at.asc())], rows of equal time in rowid order. *)
Fixpoint insert_by_created_at (m : Message.t) (sorted : list Message.t)
    : list Message.t :=
  match sorted with
  | [] => [m]
  | x :: rest =>
      if Message.created_at m <=? Message.created_at x then m :: sorted
      else x :: insert_by_created_at m rest
  end.

Definition order_by_created_at (rows : list Message.t) : list Message.t :=
  foldr insert_by_created_at [] rows.

(** ** main.py: [get_messages] *)

(** The test of the marking loop:
    [message.sender_id != current_user.id and message.status != 'seen']. *)
Definition unseen_by (viewer : Z) (m : Message.t) : bool :=
  negb (Message.sender_id m =? viewer) && negb (String.eqb (Message.status m) "seen").

(** The UPDATEs a commit issues for the message objects [dirty]. *)
Definition write_messages (dirty : list Message.t) (d : DB) : DB :=
  set_messages (foldr (update_row Message.id) (messages d) dirty) d.

Definition attachment_info (a : Attachment.t) : AttachmentInfo.t :=
  AttachmentInfo.mk (Some (Attachment.id a)) (Attachment.filename a)
    (Attachment.file_url a) (Attachment.file_type a) (Attachment.file_size a).

(** The body of the loop that fills [message_responses]. *)
Definition message_response (message : Message.t) : M MessageResponse.t :=
  do atts <- query (attachments_of (Message.id message));
  do reply_to_message <- query (reply_preview (Message.reply_to_message_id message));
  do reactions <- query (reactions_of (Message.id message));
  MessageResponse.validate (Message.id message) (Message.content message)
    (Message.sender_id message) (Message.created_at message)
    (Message.message_type message) (Message.is_edited message)
    (Message.is_deleted message) (Message.status message)
    (Message.reply_to_message_id message) reply_to_message
    (map attachment_info atts) (formatted_reactions reactions).

Definition get_messages (chat_id : Z) (current_user : User.t) (now : Z)
    : M (list MessageResponse.t) :=
  do chat <- query (λ d,
    first (λ c, (Chat.id c =? chat_id)
                && ((Chat.user1_id c =? User.id current_user)
                    || (Chat.user2_id c =? User.id current_user)))
          (chats d));
  match chat with
  | None => raise (HTTPException 404 "Chat not found")
  | Some _ =>
      do rows <- query (λ d,
        order_by_created_at
          (List.filter (λ m, Message.chat_id m =? chat_id) (messages d)));
      let messages :=
        map (λ m, if unseen_by (User.id current_user) m
                  then Message.mark_seen now m else m) rows in
      let seen_messages :=
        map (Message.mark_seen now)
            (List.filter (unseen_by (User.id current_user)) rows) in
      match seen_messages with
      | [] => ret tt
      | _ :: _ =>
          commit (write_messages seen_messages) ;;
          for_each (λ m, update_message_status (Message.id m) "seen"
                           (Message.chat_id m) (Message.sender_id m))
                   seen_messages
      end ;;
      map_M message_response messages
  end.

(** ** main.py: [edit_message] *)

Definition edit_message (message_id : Z) (message_data : MessageCreate.t)
    (current_user : User.t) (now : Z) : M MessageResponse.t :=
  do found <- query (message_by_id message_id);
  match found with
  | None => raise (HTTPException 404 "Message not found")
  | Some message =>
      if negb (Message.sender_id message =? User.id current_user)
      then raise (HTTPException 403 "You can only edit your own messages")
      else
        let message := Message.edit (MessageCreate.content message_data) now message in
        commit (write_messages [message]) ;;
        do participants <- participants_of (Message.chat_id message);
        send_to_users participants
          (EvMessageEdited message_id (Message.chat_id message)
             (Message.content message) true (User.id current_user)) ;;
        MessageResponse.validate (Message.id message) (Message.content message)
          (Message.sender_id message) (Message.created_at message)
          (Message.message_type message) true (Message.is_deleted message)
          "sent" None None [] []
  end.

(** ** main.py: [add_reaction] *)

(** The dictionary [add_reaction] returns. *)
Module ReactionResult.
Record t : Type := mk {
    message : string;
    action : string;
    reactions : list MessageReactionSummary.t }.
End ReactionResult.

(** [filter_by(message_id=..., user_id=..., emoji=...)] *)
Definition same_reaction (message_id user_id : Z) (emoji : string)
    (r : MessageReaction.t) : bool :=
  (MessageReaction.message_id r =? message_id)
  && (MessageReaction.user_id r =? user_id)
  && String.eqb (MessageReaction.emoji r) emoji.

Definition add_reaction (message_id : Z) (reaction_data : ReactionRequest.t)
    (current_user : User.t) (now : Z) : M ReactionResult.t :=
  do found <- query (message_by_id message_id);
  match found with
  | None => raise (HTTPException 404 "Message not found")
  | Some message =>
      do existing_reaction <- query (λ d,
        first (same_reaction message_id (User.id current_user)
                 (ReactionRequest.emoji reaction_data))
              (message_reactions d));
      do action <-
        match existing_reaction with
        | Some r =>
            commit (λ d, set_message_reactions
                           (delete_row MessageReaction.id (MessageReaction.id r)
                              (message_reactions d)) d) ;;
            ret "removed"%string
        | None =>
            commit (λ d, set_message_reactions
                           (message_reactions d ++
                            [MessageReaction.mk
                               (next_id MessageReaction.id (message_reactions d))
                               message_id (User.id current_user)
                               (ReactionRequest.emoji reaction_data) now]) d) ;;
            ret "added"%string
        end;
      do participants <- participants_of (Message.chat_id message);
      do reactions <- query (reactions_of message_id);
      send_to_users participants
        (EvReaction action message_id (Message.chat_id message)
           (User.id current_user) (ReactionRequest.emoji reaction_data)
           (formatted_reactions reactions)) ;;
      ret (ReactionResult.mk ("Reaction " +:+ action +:+ " successfully")
             action (formatted_reactions reactions))
  end.

(** ** main.py: [delete_message] *)

Definition delete_message (message_id : Z) (current_user : User.t) (now : Z)
    : M string :=
  do found <- query (message_by_id message_id);
  match found with
  | None => raise (HTTPException 404 "Message not found")
  | Some message =>
      if negb (Message.sender_id message =? User.id current_user)
      then raise (HTTPException 403 "You can only delete your own messages")
      else
        do participants <- participants_of (Message.chat_id message);
        commit (write_messages [Message.soft_delete now message]) ;;
        send_to_users participants
          (EvMessageDeleted message_id (Message.chat_id message)
             (User.id current_user)) ;;
        ret "Message deleted successfully"%string
  end.

(** ** main.py: [update_friend_request] *)

Definition update_friend_request (request_id : Z)
    (request_update : FriendRequestUpdate.t) (current_user : User.t) (now : Z)
    : M FriendRequestResponse.t :=
  do found <- query (λ d,
    first (λ r, (FriendRequest.id r =? request_id)
                && (FriendRequest.receiver_id r =? User.id current_user))
          (friend_requests d));
  match found with
  | None => raise (HTTPException 404 "Friend request not found")
  | Some request =>
      let request :=
        FriendRequest.set_status (FriendRequestUpdate.status request_update)
          now request in
      commit (λ d, set_friend_requests
                     (update_row FriendRequest.id request (friend_requests d)) d) ;;
      (if String.eqb (FriendRequest.status request) "accepted"
       then commit (λ d, set_friendships
                           (friendships d ++
                            [Friendship.mk (next_id Friendship.id (friendships d))
                               (FriendRequest.sender_id request)
                               (FriendRequest.receiver_id request) now]) d)
       else ret tt) ;;
      do sender <- query (user_by_id (FriendRequest.sender_id request));
      do receiver <- query (user_by_id (FriendRequest.receiver_id request));
      match sender, receiver with
      | Some s, Some r =>
          ret (FriendRequestResponse.mk (FriendRequest.id request)
                 (UserResponse.of_user s) (UserResponse.of_user r)
                 (FriendRequest.status request) (FriendRequest.created_at request))
      | _, _ => raise (AttributeError "id")
      end
  end.

(** ** main.py: [websocket_endpoint] *)

(** The decoded [message] frame.  For [content] and [chat_id], which the
    handler subscripts, the outer [None] is an absent key; the other keys are
    read with [.get]. *)
Module MessageFrame.
Record t : Type := mk {
    content : option (option string);
    chat_id : option Z;
    message_type : option string;
    reply_to_message_id : option Z;
    attachments : option (list AttData.t) }.
End MessageFrame.

(** [message_data], by its ["type"]. *)
Inductive Frame : Type :=
| FrameMessage (message_data : MessageFrame.t)
| FrameTyping (chat_id : option Z) (is_typing : option bool)
| FramePing
| FrameOther.

(** What [websocket.receive_text()] does next: return a frame at the time
    given, or raise [WebSocketDisconnect]. *)
Inductive Inbound : Type :=
| Text (now : Z) (frame : Frame)
| Disconnect.

(** [message_data[key]] *)
Definition item {A : Type} (key : string) (v : option A) : M A :=
  match v with
  | Some a => ret a
  | None => raise (KeyError key)
  end.

(** [Attachment(message_id=..., filename=att_data["filename"], ...)], held by
    the session without a primary key until the commit. *)
Definition new_attachment (att_data : AttData.t) : M AttachmentInfo.t :=
  do filename <- item "filename" (AttData.filename att_data);
  do file_url <- item "file_url" (AttData.file_url att_data);
  do file_type <- item "file_type" (AttData.file_type att_data);
  do file_size <- item "file_size" (AttData.file_size att_data);
  ret (AttachmentInfo.mk None filename file_url file_type file_size).

(** The INSERTs of a commit for the attachments the session holds. *)
Fixpoint insert_attachments (message_id now : Z) (pending : list AttachmentInfo.t)
    (rows : list Attachment.t) : list Attachment.t :=
  match pending with
  | [] => rows
  | p :: rest =>
      insert_attachments message_id now rest
        (rows ++ [Attachment.mk (next_id Attachment.id rows) message_id
                    (AttachmentInfo.filename p) (AttachmentInfo.file_url p)
                    (AttachmentInfo.file_type p) (AttachmentInfo.file_size p) now])
  end.

(** The loop under [# Send delivery status]; the result tells whether
    [message.delivered_at] was assigned. *)
Fixpoint delivery_loop (user_id : Z) (message : Message.t)
    (participants : list Z) (stamped : bool) : M bool :=
  match participants with
  | [] => ret stamped
  | participant_id :: rest =>
      if negb (participant_id =? user_id)
      then
        update_message_status (Message.id message) "delivered"
          (Message.chat_id message) participant_id ;;
        delivery_loop user_id message rest true
      else delivery_loop user_id message rest stamped
  end.

(** The branch [message_data["type"] == "message"], first half: the message
    is added and committed, then its attachments are built, added and
    committed.  Returns the refreshed message and the [attachments] list of
    dictionaries. *)
Definition persist_message (user_id : Z) (message_data : MessageFrame.t) (now : Z)
    : M (Message.t * list AttachmentInfo.t) :=
  do content <- item "content" (MessageFrame.content message_data);
  do chat_id <- item "chat_id" (MessageFrame.chat_id message_data);
  do message <- query (λ d,
    Message.mk (next_id Message.id (messages d)) content false false user_id
      chat_id (default "text"%string (MessageFrame.message_type message_data))
      (MessageFrame.reply_to_message_id message_data)
      "sent" None None now now);
  commit_binding
    (user_id :: chat_id :: option_list (MessageFrame.reply_to_message_id message_data))
    (λ d, set_messages (messages d ++ [message]) d) ;;
  do attachments <-
    match MessageFrame.attachments message_data with
    | Some (a :: more) =>
        do pending <- map_M new_attachment (a :: more);
        commit_binding (map AttachmentInfo.file_size pending)
          (λ d, set_attachments
                  (insert_attachments (Message.id message) now pending
                     (attachments d)) d) ;;
        ret pending
    | _ => ret []
    end;
  ret (message, attachments).

(** Second half: the push to the participants and the delivery status. *)
Definition announce_message (user_id : Z) (message : Message.t)
    (attachments : list AttachmentInfo.t) (now : Z) : M unit :=
  do participants <- participants_of (Message.chat_id message);
  do reply_to_message <- query (reply_preview (Message.reply_to_message_id message));
  send_to_users participants
    (EvMessage (MessagePayload.mk (Message.id message) (Message.content message)
                  (Message.sender_id message) (Message.chat_id message)
                  (Message.created_at message) (Message.message_type message)
                  (Message.reply_to_message_id message) reply_to_message
                  attachments)) ;;
  do stamped <- delivery_loop user_id message participants false;
  if stamped
  then commit (write_messages [Message.stamp_delivered now message])
  else ret tt.

Definition on_message (user_id : Z) (message_data : MessageFrame.t) (now : Z)
    : M unit :=
  do stored <- persist_message user_id message_data now;
  announce_message user_id (fst stored) (snd stored) now.

(** The branch [message_data["type"] == "typing"]. *)
Definition on_typing (user_id : Z) (chat_id : option Z) (is_typing : option bool)
    : M unit :=
  do cid <- item "chat_id" chat_id;
  do chat <- query (chat_by_id cid);
  match chat with
  | None => raise (AttributeError "user1_id")
  | Some c =>
      let other_user_id :=
        if Chat.user1_id c =? user_id then Chat.user2_id c else Chat.user1_id c in
      do typing <- item "is_typing" is_typing;
      send_to_user other_user_id (EvTyping user_id cid typing)
  end.

(** One turn of the [while True] loop after [receive_text] has returned. *)
Definition on_frame (websocket : WebSocket) (user_id now : Z) (frame : Frame)
    : M unit :=
  match frame with
  | FrameMessage message_data => on_message user_id message_data now
  | FrameTyping chat_id is_typing => on_typing user_id chat_id is_typing
  | FramePing => send_text websocket EvPong
  | FrameOther => ret tt
  end.

(** The [while True] loop, run on what the client sends; an exhausted
    [inbox] is a client that stays connected and silent. *)
Fixpoint receive_loop (websocket : WebSocket) (user_id : Z) (inbox : list Inbound)
    : M unit :=
  match inbox with
  | [] => ret tt
  | Text now frame :: rest =>
      on_frame websocket user_id now frame ;;
      receive_loop websocket user_id rest
  | Disconnect :: _ => raise WebSocketDisconnect
  end.

(** [user.is_active = b; user.last_seen = now; db.commit()] *)
Definition commit_presence (user_id : Z) (b : bool) (now : Z) : M unit :=
  commit (λ d, set_users
                 (map (λ u, if User.id u =? user_id
                            then User.set_presence b now u else u)
                      (users d)) d).

(** The clause [except WebSocketDisconnect]. *)
Definition on_disconnect (user_id closed_at : Z) : M unit :=
  disconnect user_id ;;
  commit_presence user_id false closed_at.

(** [websocket_endpoint].  [verified] is what [verify_token(token)] returns,
    [connected_at] and [closed_at] are [utcnow()] after the registration and
    in the [except] clause. *)
Definition websocket_endpoint (websocket : WebSocket) (verified : option Z)
    (connected_at : Z) (inbox : list Inbound) (closed_at : Z) : M unit :=
  match verified with
  | None => send_text websocket (EvClose 4001)
  | Some user_id =>
      if user_id =? 0 then send_text websocket (EvClose 4001)
      else
        do user <- query (user_by_id user_id);
        match user with
        | None => send_text websocket (EvClose 4001)
        | Some _ =>
            connect websocket user_id ;;
            commit_presence user_id true connected_at ;;
            try_except (receive_loop websocket user_id inbox)
              (λ e, match e with
                    | WebSocketDisconnect => on_disconnect user_id closed_at
                    | _ => raise e
                    end)
        end
  end.

(** ** schemas.py: the account, chat and friendship schemas *)

Module UserCreate.
Record t : Type := mk {
    name : string;
    email : string;
    password : string;
    avatar : option string }.
End UserCreate.

Module UserLogin.
Record t : Type := mk {
    email : string;
    password : string }.
End UserLogin.

Module UserUpdate.
Record t : Type := mk {
    name : option string;
    email : option string;
    avatar : option string }.
End UserUpdate.

Module ChatCreate.
Record t : Type := mk { user_id : Z }.
End ChatCreate.

Module ChatResponse.
Record t : Type := mk {
    id : Z;
    other_user : UserResponse.t;
    last_message : option MessageResponse.t;
    created_at : Z;
    unread_count : Z }.

(** [ChatResponse(...)]: [unread_count: int] has no default, so a call that
    does not pass it ([None] here) is refused. *)
Definition validate (id : Z) (other_user : UserResponse.t)
    (last_message : option MessageResponse.t) (created_at : Z)
    (unread_count : option Z) : M t :=
  match unread_count with
  | Some n => ret (mk id other_user last_message created_at n)
  | None => raise (ValidationError "unread_count")
  end.
End ChatResponse.

Module FriendshipResponse.
Record t : Type := mk {
    id : Z;
    friend : UserResponse.t;
    created_at : Z }.
End FriendshipResponse.

(** ** main.py: the chat routes *)

Definition set_chats (v : list Chat.t) (d : DB) : DB :=
  mkDB (users d) v (messages d) (attachments d) (friend_requests d)
       (friendships d) (message_reactions d).

(** [UserResponse(id=user.id, ...)] for the result of a [first()]: on [None]
    the first attribute access raises. *)
Definition user_response (user : option User.t) : M UserResponse.t :=
  match user with
  | Some u => ret (UserResponse.of_user u)
  | None => raise (AttributeError "id")
  end.

(** [chat.user2_id if chat.user1_id == user_id else chat.user1_id] *)
Definition other_participant (user_id : Z) (c : Chat.t) : Z :=
  if Chat.user1_id c =? user_id then Chat.user2_id c else Chat.user1_id c.

(** [order_by(Message.created_at.desc())], rows of equal time in rowid order. *)
Fixpoint insert_by_created_at_desc (m : Message.t) (sorted : list Message.t)
    : list Message.t :=
  match sorted with
  | [] => [m]
  | x :: rest =>
      if Message.created_at x <=? Message.created_at m then m :: sorted
      else x :: insert_by_created_at_desc m rest
  end.

(** [db.query(Message).filter(Message.chat_id == chat_id)
       .order_by(Message.created_at.desc()).first()] *)
Definition last_message_of (chat_id : Z) (d : DB) : option Message.t :=
  head (foldr insert_by_created_at_desc []
          (List.filter (λ m, Message.chat_id m =? chat_id) (messages d))).

(** The unread count of [get_chats]:
    [filter(Message.chat_id == chat_id, Message.sender_id != user_id,
            Message.status != 'seen').count()] *)
Definition unread_count (chat_id user_id : Z) (d : DB) : Z :=
  Z.of_nat
    (length
       (List.filter
          (λ m, (Message.chat_id m =? chat_id)
                && negb (Message.sender_id m =? user_id)
                && negb (String.eqb (Message.status m) "seen"))
          (messages d))).

(** The [MessageResponse] of a chat's last message: no attachments, the
    other fields at their default. *)
Definition last_message_response (m : option Message.t)
    : M (option MessageResponse.t) :=
  match m with
  | Some m =>
      do r <- MessageResponse.validate (Message.id m) (Message.content m)
                (Message.sender_id m) (Message.created_at m)
                (Message.message_type m) (Message.is_edited m)
                (Message.is_deleted m) "sent" None None [] [];
      ret (Some r)
  | None => ret None
  end.

(** The body of the loop of [get_chats]. *)
Definition chat_response (user_id : Z) (chat : Chat.t) : M ChatResponse.t :=
  do other_user <- query (user_by_id (other_participant user_id chat));
  do last_message <- query (last_message_of (Chat.id chat));
  do unread <- query (unread_count (Chat.id chat) user_id);
  do other <- user_response other_user;
  do last <- last_message_response last_message;
  ChatResponse.validate (Chat.id chat) other last (Chat.created_at chat) (Some unread).

(** The sort key of [get_chats]:
    [x.last_message.created_at if x.last_message else x.created_at]. *)
Definition chat_sort_key (r : ChatResponse.t) : Z :=
  match ChatResponse.last_message r with
  | Some m => MessageResponse.created_at m
  | None => ChatResponse.created_at r
  end.

(** [sorted(chat_responses, key=..., reverse=True)]; the sort is stable. *)
Fixpoint insert_by_key_desc (r : ChatResponse.t) (sorted : list ChatResponse.t)
    : list ChatResponse.t :=
  match sorted with
  | [] => [r]
  | x :: rest =>
      if chat_sort_key x <=? chat_sort_key r then r :: sorted
      else x :: insert_by_key_desc r rest
  end.

Definition sorted_latest_first (rs : list ChatResponse.t) : list ChatResponse.t :=
  foldr insert_by_key_desc [] rs.

Definition get_chats (current_user : User.t) : M (list ChatResponse.t) :=
  do chats <- query (λ d,
    List.filter (λ c, (Chat.user1_id c =? User.id current_user)
                      || (Chat.user2_id c =? User.id current_user))
                (chats d));
  do chat_responses <- map_M (chat_response (User.id current_user)) chats;
  ret (sorted_latest_first chat_responses).

(** The filter of [create_chat]: a chat of the two users, either way round. *)
Definition chat_between (a b : Z) (c : Chat.t) : bool :=
  ((Chat.user1_id c =? a) && (Chat.user2_id c =? b))
  || ((Chat.user1_id c =? b) && (Chat.user2_id c =? a)).

Definition create_chat (chat_data : ChatCreate.t) (current_user : User.t) (now : Z)
    : M ChatResponse.t :=
  do existing_chat <- query (λ d,
    first (chat_between (User.id current_user) (ChatCreate.user_id chat_data))
          (chats d));
  match existing_chat with
  | Some existing =>
      do other_user <- query (user_by_id (ChatCreate.user_id chat_data));
      do other <- user_response other_user;
      ChatResponse.validate (Chat.id existing) other None
        (Chat.created_at existing) None
  | None =>
      do chat <- query (λ d,
        Chat.mk (next_id Chat.id (chats d)) (User.id current_user)
          (ChatCreate.user_id chat_data) now now);
      commit (λ d, set_chats (chats d ++ [chat]) d) ;;
      do other_user <- query (user_by_id (ChatCreate.user_id chat_data));
      do other <- user_response other_user;
      ChatResponse.validate (Chat.id chat) other None (Chat.created_at chat) None
  end.

(** ** main.py: the friend routes that read *)

(** The body of the comprehension of [get_friend_requests]. *)
Definition friend_request_response (req : FriendRequest.t)
    : M FriendRequestResponse.t :=
  do sender <- query (user_by_id (FriendRequest.sender_id req));
  do receiver <- query (user_by_id (FriendRequest.receiver_id req));
  do s <- user_response sender;
  do r <- user_response receiver;
  ret (FriendRequestResponse.mk (FriendRequest.id req) s r
         (FriendRequest.status req) (FriendRequest.created_at req)).

Definition get_friend_requests (current_user : User.t)
    : M (list FriendRequestResponse.t) :=
  do requests <- query (λ d,
    List.filter (λ r, (FriendRequest.sender_id r =? User.id current_user)
                      || (FriendRequest.receiver_id r =? User.id current_user))
                (friend_requests d));
  map_M friend_request_response requests.

(** [friendship.user2_id if friendship.user1_id == user_id else friendship.user1_id] *)
Definition friend_of (user_id : Z) (f : Friendship.t) : Z :=
  if Friendship.user1_id f =? user_id then Friendship.user2_id f
  else Friendship.user1_id f.

(** The friendships [user_id] is part of:
    [or_(Friendship.user1_id == user_id, Friendship.user2_id == user_id)]. *)
Definition friendships_of (user_id : Z) (d : DB) : list Friendship.t :=
  List.filter (λ f, (Friendship.user1_id f =? user_id)
                    || (Friendship.user2_id f =? user_id))
              (friendships d).

(** The body of the loop of [get_friends]. *)
Definition friendship_response (user_id : Z) (f : Friendship.t)
    : M FriendshipResponse.t :=
  do friend <- query (user_by_id (friend_of user_id f));
  do r <- user_response friend;
  ret (FriendshipResponse.mk (Friendship.id f) r (Friendship.created_at f)).

Definition get_friends (current_user : User.t) : M (list FriendshipResponse.t) :=
  do friendships <- query (friendships_of (User.id current_user));
  map_M (friendship_response (User.id current_user)) friendships.

(** ** main.py: the user routes *)

(** [get_users] *)
Definition get_users (current_user : User.t) : M (list UserResponse.t) :=
  do users <- query (λ d,
    List.filter (λ u, negb (User.id u =? User.id current_user)) (users d));
  ret (map UserResponse.of_user users).

(** [get_current_user_info] *)
Definition get_current_user_info (current_user : User.t) : M UserResponse.t :=
  ret (UserResponse.of_user current_user).

(** A string option that is truthy: set and not empty. *)
Definition truthy (s : option string) : option string :=
  match s with
  | Some EmptyString => None
  | other => other
  end.

(** The assignments of [update_current_user] to the user object, for the
    fields that are truthy; [updated_at] moves when a column changed. *)
Definition updated_profile (user_data : UserUpdate.t) (now : Z) (u : User.t) : User.t :=
  let name := default (User.name u) (truthy (UserUpdate.name user_data)) in
  let email := default (User.email u) (truthy (UserUpdate.email user_data)) in
  let avatar :=
    match truthy (UserUpdate.avatar user_data) with
    | Some a => Some a
    | None => User.avatar u
    end in
  User.mk (User.id u) name email (User.password u) avatar (User.status_message u)
    (User.is_active u) (User.last_seen u) (User.created_at u)
    (if bool_decide (name = User.name u ∧ email = User.email u
                     ∧ avatar = User.avatar u)
     then User.updated_at u else now).

Definition update_current_user (user_data : UserUpdate.t) (current_user : User.t)
    (now : Z) : M UserResponse.t :=
  match truthy (UserUpdate.email user_data) with
  | Some email =>
      do existing_user <- query (λ d,
        first (λ u, String.eqb (User.email u) email
                    && negb (User.id u =? User.id current_user))
              (users d));
      match existing_user with
      | Some _ => raise (HTTPException 400 "Email already registered")
      | None => ret tt
      end
  | None => ret tt
  end ;;
  commit (λ d, set_users
                 (map (λ u, if User.id u =? User.id current_user
                            then updated_profile user_data now u else u)
                      (users d)) d) ;;
  ret (UserResponse.of_user (updated_profile user_data now current_user)).

(** [logout] *)
Definition logout (current_user : User.t) (now : Z) : M string :=
  commit_presence (User.id current_user) false now ;;
  ret "Logged out successfully"%string.

(** ** main.py: the routes that go through auth.py and SQL pattern matching

    What passlib, jose and the SQL engine compute is taken as given:
    [get_password_hash] with the salt it draws, [verify_password],
    [create_access_token] for a user id at a time, and [ilike] for a value
    and a pattern. *)

Section Accounts.

Variable get_password_hash : string → string → string.
Variable verify_password : string → string → bool.
Variable create_access_token : Z → Z → string.
Variable ilike : string → string → bool.


(** [login] *)
Definition login (user_data : UserLogin.t) (now : Z) : M UserResponse.t :=
  do user <- query (λ d,
    first (λ u, String.eqb (User.email u) (UserLogin.email user_data)) (users d));
  match user with
  | Some u =>
      if verify_password (UserLogin.password user_data) (User.password u)
      then
        commit_presence (User.id u) true now ;;
        ret (UserResponse.mk (User.id u) (User.name u) (User.email u)
               (User.avatar u) true None
               (Some (create_access_token (User.id u) now)))
      else raise (HTTPException 400 "Invalid email or password")
  | None => raise (HTTPException 400 "Invalid email or password")
  end.

(** The ids [search_users] leaves out: the friends, the other side of every
    pending request, and the caller. *)
Definition exclude_ids (user_id : Z) (d : DB) : list Z :=
  map (friend_of user_id) (friendships_of user_id d)
  ++ map (λ r, if FriendRequest.sender_id r =? user_id
               then FriendRequest.receiver_id r else FriendRequest.sender_id r)
         (List.filter
            (λ r, ((FriendRequest.sender_id r =? user_id)
                   || (FriendRequest.receiver_id r =? user_id))
                  && String.eqb (FriendRequest.status r) "pending")
            (friend_requests d))
  ++ [user_id].

(** [search_users] *)
Definition search_users (q : string) (current_user : User.t)
    : M (list UserResponse.t) :=
  do found <- query (λ d,
    let candidates :=
      List.filter
        (λ u, negb (bool_decide (User.id u ∈ exclude_ids (User.id current_user) d)))
        (users d) in
    let matching :=
      match q with
      | EmptyString => candidates
      | _ =>
          List.filter
            (λ u, ilike (User.name u) ("%" +:+ q +:+ "%")
                  || ilike (User.email u) ("%" +:+ q +:+ "%"))
            candidates
      end in
    firstn 20 matching);
  ret (map UserResponse.of_user found).

End Accounts.

(** ** Running a handler *)

(** The world after [c] has run. *)
Definition after {A : Type} (c : M A) (w : World) : World := fst (c w).

(** What [c] returns or raises. *)
Definition outcome {A : Type} (c : M A) (w : World) : result A := snd (c w).

(** A computation that leaves the database alone. *)
Definition keeps_db {A : Type} (c : M A) : Prop := ∀ w, db (after c w) = db w.

(** ** Fan-out, stated without the registry's bookkeeping

    The frames a fan-out of [ev] to [user_ids] pushes from the world [w]:
    one per listed user that is registered on a socket that accepts it. *)
Definition pushed_to (w : World) (ev : Event) (user_id : Z)
    : option (WebSocket * Event) :=
  match active_connections (manager w) !! user_id with
  | Some websocket =>
      if bool_decide (websocket ∈ broken (net w)) then None
      else Some (websocket, ev)
  | None => None
  end.

Definition pushes (w : World) (user_ids : list Z) (ev : Event)
    : list (WebSocket * Event) :=
  omap (pushed_to w ev) user_ids.

(** ** The seen transition, stated on the table *)

(** What the marking loop of [get_messages] does to a row of the database. *)
Definition seen_by (chat_id viewer now : Z) (m : Message.t) : Message.t :=
  if (Message.chat_id m =? chat_id) && unseen_by viewer m
  then Message.mark_seen now m else m.

(** The chat exists and has [viewer] as a participant. *)
Definition participates (viewer chat_id : Z) (d : DB) : Prop :=
  ∃ c, c ∈ chats d ∧ Chat.id c = chat_id
       ∧ (Chat.user1_id c = viewer ∨ Chat.user2_id c = viewer).

(** Primary keys are unique. *)
Definition unique_ids {A : Type} (key : A → Z) (rows : list A) : Prop :=
  NoDup (map key rows).

(** The order of the delivery states. *)
Definition status_rank (status : string) : nat :=
  if String.eqb status "seen" then 2%nat
  else if String.eqb status "delivered" then 1%nat
  else 0%nat.

(** ** Attachments, stated on the table *)

(** An element of the attachment list has the four keys the handler
    subscripts. *)
Definition complete (a : AttData.t) : bool :=
  bool_decide (is_Some (AttData.filename a)) && bool_decide (is_Some (AttData.file_url a))
  && bool_decide (is_Some (AttData.file_type a)) && bool_decide (is_Some (AttData.file_size a)).

(** The attachment an element of the list describes. *)
Definition described (a : AttData.t) : option AttachmentInfo.t :=
  match AttData.filename a, AttData.file_url a, AttData.file_type a, AttData.file_size a with
  | Some filename, Some file_url, Some file_type, Some file_size =>
      Some (AttachmentInfo.mk None filename file_url file_type file_size)
  | _, _, _, _ => None
  end.

(** A stored attachment, less its primary key. *)
Definition stored (a : Attachment.t) : AttachmentInfo.t :=
  AttachmentInfo.mk None (Attachment.filename a) (Attachment.file_url a)
    (Attachment.file_type a) (Attachment.file_size a).

(** The list of attachments a [message] frame carries. *)
Definition carried (message_data : MessageFrame.t) : list AttData.t :=
  default [] (MessageFrame.attachments message_data).

(** The first of the four keys, in the order the handler reads them, that an
    element of the attachment list lacks. *)
Definition missing_key (a : AttData.t) : string :=
  match AttData.filename a, AttData.file_url a, AttData.file_type a with
  | None, _, _ => "filename"
  | Some _, None, _ => "file_url"
  | Some _, Some _, None => "file_type"
  | Some _, Some _, Some _ => "file_size"
  end.

(** The sender and the chat and reply ids a [message] frame gives fit the
    INTEGER columns of the message row. *)
Definition bindable (user_id : Z) (message_data : MessageFrame.t) : bool :=
  sqlite_integer user_id
  && from_option sqlite_integer true (MessageFrame.chat_id message_data)
  && from_option sqlite_integer true (MessageFrame.reply_to_message_id message_data).

(** The size an element of the attachment list gives fits the column. *)
Definition writable (a : AttData.t) : bool :=
  from_option sqlite_integer true (AttData.file_size a).


(** The row [persist_message] adds for a frame whose content and chat are
    [content] and [chat_id]. *)
Definition new_message (user_id : Z) (message_data : MessageFrame.t)
    (content : option string) (chat_id now : Z) (d : DB) : Message.t :=
  Message.mk (next_id Message.id (messages d)) content false false user_id
    chat_id (default "text"%string (MessageFrame.message_type message_data))
    (MessageFrame.reply_to_message_id message_data)
    "sent" None None now now.

(** ** Reactions, stated on the table *)

(** The triple a reaction row stands for. *)
Definition reaction_key (r : MessageReaction.t) : Z * Z * string :=
  (MessageReaction.message_id r, MessageReaction.user_id r, MessageReaction.emoji r).


(** The two invariants of the reaction table: primary keys are unique, and so
    are the triples. *)
Definition reactions_well_keyed (rows : list MessageReaction.t) : Prop :=
  unique_ids MessageReaction.id rows ∧ NoDup (map reaction_key rows).

(** The table after the commit of [add_reaction], either branch. *)
Definition toggle_reaction (message_id user_id : Z) (emoji : string) (now : Z)
    (rows : list MessageReaction.t) : list MessageReaction.t :=
  match first (same_reaction message_id user_id emoji) rows with
  | Some r => delete_row MessageReaction.id (MessageReaction.id r) rows
  | None =>
      rows ++ [MessageReaction.mk (next_id MessageReaction.id rows)
                 message_id user_id emoji now]
  end.

(** The [action] of [add_reaction]. *)
Definition toggle_action (message_id user_id : Z) (emoji : string)
    (rows : list MessageReaction.t) : string :=
  match first (same_reaction message_id user_id emoji) rows with
  | Some _ => "removed"
  | None => "added"
  end.

(** The users that reacted with [emoji], in row order. *)
Definition users_of (emoji : string) (reactions : list MessageReaction.t) : list Z :=
  map MessageReaction.user_id
      (List.filter (λ r, String.eqb (MessageReaction.emoji r) emoji) reactions).

(** [reaction_groups.get(emoji)] *)
Definition group_of (emoji : string) (groups : list (string * list Z))
    : option (list Z) :=
  snd <$> List.find (λ g, String.eqb (fst g) emoji) groups.

(** ** Sample data

    Three users, a chat between users 1 and 2, nobody connected. *)

Definition alice : User.t := User.mk 1 "alice" "alice@example.org" "x" None None false 0 0 0.
Definition bob : User.t := User.mk 2 "bob" "bob@example.org" "x" None None false 0 0 0.
Definition carol : User.t := User.mk 3 "carol" "carol@example.org" "x" None None false 0 0 0.
Definition chat_1_2 : Chat.t := Chat.mk 7 1 2 0 0.

Definition sample_db : DB := mkDB [alice; bob; carol] [chat_1_2] [] [] [] [] [].
Definition sample_world : World := mkWorld sample_db (mkManager ∅) (mkNet ∅ []).

(** The sockets of the sessions used below. *)
Definition alice_socket : WebSocket := 10%nat.
Definition alice_second_socket : WebSocket := 11%nat.
Definition bob_socket : WebSocket := 20%nat.

(** The frame [{"type": "message", "content": "hi", "chat_id": 7}]. *)
Definition hi_frame : MessageFrame.t :=
  MessageFrame.mk (Some (Some "hi"%string)) (Some 7) None None None.

(** The row that frame becomes when user 1 sends it at time 7 into the
    sample database. *)
Definition hi_message : Message.t :=
  Message.mk 1 (Some "hi"%string) false false 1 7 "text" None "sent" None None 7 7.

(** The push of that message. *)
Definition hi_event : Event :=
  EvMessage (MessagePayload.mk 1 (Some "hi"%string) 1 7 7 "text" None None []).

(** User 1 is online, and the chat holds one message of theirs that user 2
    has not fetched yet. *)
Definition unseen_world : World :=
  mkWorld (set_messages [hi_message] sample_db)
          (mkManager {[ 1 := alice_socket ]}) (mkNet ∅ []).

(** A [message] frame with two attachments, the second of which lacks
    ["file_url"]. *)
Definition photo : AttData.t :=
  AttData.mk (Some "a.png"%string) (Some "/uploads/a.png"%string)
    (Some "image/png"%string) (Some 100).

(** The body of a request that edits a message to read "hello". *)
Definition hello_edit : MessageCreate.t :=
  MessageCreate.mk (Some "hello"%string) 7 "text" None (Some []).

(** The world of [unseen_world] after user 1 has deleted their message. *)
Definition deleted_world : World := after (delete_message 1 alice 8) unseen_world.

(** The body of a request that reacts with "+1". *)
Definition plus_one : ReactionRequest.t := ReactionRequest.mk "+1".

(** User 1 has sent user 2 a friend request, which is pending. *)
Definition pending_request : FriendRequest.t := FriendRequest.mk 1 1 2 "pending" 0 0.
Definition pending_world : World :=
  mkWorld (set_friend_requests [pending_request] sample_db)
          (mkManager ∅) (mkNet ∅ []).

(** The body of a request that accepts a friend request. *)
Definition accept : FriendRequestUpdate.t := FriendRequestUpdate.mk "accepted".

(** ** Broadcasts, stated without the registry's bookkeeping

    The frame a broadcast of [ev] pushes for one registry entry. *)
Definition broadcast_to (w : World) (ev : Event) (entry : Z * WebSocket)
    : option (WebSocket * Event) :=
  if bool_decide (snd entry ∈ broken (net w)) then None else Some (snd entry, ev).

(** ** The [message] branch, stated on the tables *)

(** The database after [persist_message] has stored the frame with all its
    attachments. *)
Definition with_message (user_id : Z) (message_data : MessageFrame.t)
    (content : option string) (chat_id now : Z) (d : DB) : DB :=
  set_attachments
    (insert_attachments (next_id Message.id (messages d)) now
       (omap described (carried message_data)) (attachments d))
    (set_messages
       (messages d ++ [new_message user_id message_data content chat_id now d]) d).



(** User 2 is registered on a working socket, user 1 on none. *)
Definition bob_online : World :=
  mkWorld sample_db (mkManager {[ 2 := bob_socket ]}) (mkNet ∅ []).

(** ** The history and the chat list, stated on the tables *)

(** The [MessageResponse] [get_messages] builds for a row, when the row has
    a content. *)
Definition rendered (d : DB) (m : Message.t) : option MessageResponse.t :=
  match Message.content m with
  | Some text =>
      Some (MessageResponse.mk (Message.id m) text (Message.sender_id m)
              (Message.created_at m) (Message.message_type m)
              (Message.is_edited m) (Message.is_deleted m) (Message.status m)
              (Message.reply_to_message_id m)
              (reply_preview (Message.reply_to_message_id m) d)
              (map attachment_info (attachments_of (Message.id m) d))
              (formatted_reactions (reactions_of (Message.id m) d)))
  | None => None
  end.

(** The messages of a chat, in rowid order. *)
Definition messages_of (chat_id : Z) (d : DB) : list Message.t :=
  List.filter (λ m, Message.chat_id m =? chat_id) (messages d).

(** The chat [unseen_world] with a second message, an image without text. *)
Definition image_message : Message.t :=
  Message.mk 2 None false false 1 7 "image" None "sent" None None 8 8.
Definition image_world : World :=
  mkWorld (set_messages [hi_message; image_message] sample_db)
          (mkManager {[ 1 := alice_socket ]}) (mkNet ∅ []).


(** ** Sequences of reaction requests *)

(** A request as it reaches [add_reaction]. *)
Record ReactionCall : Type := mkReactionCall {
  call_message : Z;
  call_emoji : string;
  call_user : User.t;
  call_at : Z }.

(** The world after the requests [calls], served one after the other,
    whether they succeed or fail. *)
Definition add_reactions (calls : list ReactionCall) (w : World) : World :=
  fold_left (λ w c, after (add_reaction (call_message c)
                             (ReactionRequest.mk (call_emoji c))
                             (call_user c) (call_at c)) w)
            calls w.

(** The sum of the [count] fields of a summary. *)
Definition total_count (summary : list MessageReactionSummary.t) : Z :=
  foldr (λ s n, MessageReactionSummary.count s + n) 0 summary.

(** The friendship row an accepted request of [sender_id] to [receiver_id]
    adds to the table [rows]. *)
Definition new_friendship (sender_id receiver_id now : Z) (rows : list Friendship.t)
    : Friendship.t :=
  Friendship.mk (next_id Friendship.id rows) sender_id receiver_id now.



(** The request [update_friend_request] finds for [request_id] and the
    caller [receiver_id]. *)
Definition request_for (request_id receiver_id : Z) (d : DB)
    : option FriendRequest.t :=
  first (λ r, (FriendRequest.id r =? request_id)
              && (FriendRequest.receiver_id r =? receiver_id))
        (friend_requests d).

(** ** Loops that only read *)

(** What a loop [map_M] returns when its body only reads: the results in
    order, or the first exception. *)
Fixpoint collect {A B : Type} (g : A → result B) (xs : list A) : result (list B) :=
  match xs with
  | [] => Ok []
  | x :: rest =>
      match g x with
      | Ok y =>
          match collect g rest with
          | Ok ys => Ok (y :: ys)
          | Raise e => Raise e
          end
      | Raise e => Raise e
      end
  end.

(** The entry of [get_friends] for the friendship [f], seen by [user_id]. *)
Definition friend_entry (user_id : Z) (d : DB) (f : Friendship.t)
    : result FriendshipResponse.t :=
  match user_by_id (friend_of user_id f) d with
  | Some friend =>
      Ok (FriendshipResponse.mk (Friendship.id f) (UserResponse.of_user friend)
            (Friendship.created_at f))
  | None => Raise (AttributeError "id")
  end.

(** ** Chats, stated on the table *)

(** No two chats join the same two users. *)
Definition one_chat_per_pair (rows : list Chat.t) : Prop :=
  ∀ a b, (length (List.filter (chat_between a b) rows) ≤ 1)%nat.

(** The chats [user_id] takes part in, in rowid order. *)
Definition chats_of (user_id : Z) (d : DB) : list Chat.t :=
  List.filter (λ c, (Chat.user1_id c =? user_id) || (Chat.user2_id c =? user_id))
              (chats d).

(** The entry of [get_chats] for the chat [chat], seen by [user_id]. *)
Definition chat_entry (user_id : Z) (d : DB) (chat : Chat.t)
    : result ChatResponse.t :=
  match user_by_id (other_participant user_id chat) d with
  | None => Raise (AttributeError "id")
  | Some other =>
      match last_message_of (Chat.id chat) d with
      | None =>
          Ok (ChatResponse.mk (Chat.id chat) (UserResponse.of_user other) None
                (Chat.created_at chat) (unread_count (Chat.id chat) user_id d))
      | Some m =>
          match Message.content m with
          | Some text =>
              Ok (ChatResponse.mk (Chat.id chat) (UserResponse.of_user other)
                    (Some (MessageResponse.mk (Message.id m) text
                             (Message.sender_id m) (Message.created_at m)
                             (Message.message_type m) (Message.is_edited m)
                             (Message.is_deleted m) "sent" None None [] []))
                    (Chat.created_at chat) (unread_count (Chat.id chat) user_id d))
          | None => Raise (ValidationError "content")
          end
      end
  end.

(** ** Accounts, stated on the table *)


(** The row with the address [email], as [register] and [login] look it up. *)
Definition user_by_email (email : string) (d : DB) : option User.t :=
  first (λ u, String.eqb (User.email u) email) (users d).

(** A friendship joins [a] and [b], either way round. *)
Definition friends (a b : Z) (d : DB) : Prop :=
  ∃ f, f ∈ friendships d
       ∧ ((Friendship.user1_id f = a ∧ Friendship.user2_id f = b)
          ∨ (Friendship.user1_id f = b ∧ Friendship.user2_id f = a)).

(** A pending request joins [a] and [b], either way round. *)
Definition pending_between (a b : Z) (d : DB) : Prop :=
  ∃ r, r ∈ friend_requests d
       ∧ FriendRequest.status r = "pending"%string
       ∧ ((FriendRequest.sender_id r = a ∧ FriendRequest.receiver_id r = b)
          ∨ (FriendRequest.sender_id r = b ∧ FriendRequest.receiver_id r = a)).

Definition sample_ilike (value pattern : string) : bool := true.


(** A profile update that takes the address of user 2. *)
Definition take_bobs_email : UserUpdate.t :=
  UserUpdate.mk (Some "al"%string) (Some "bob@example.org"%string) None.

(** ** What a response shows, stated on the tables *)

(** The users that reacted to the message [message_id] with [emoji], in row
    order. *)
Definition reactors (message_id : Z) (emoji : string) (d : DB) : list Z :=
  map MessageReaction.user_id
    (List.filter (λ r, (MessageReaction.message_id r =? message_id)
                       && String.eqb (MessageReaction.emoji r) emoji)
       (message_reactions d)).

(** [summary] is the aggregation of the reactions to the message
    [message_id]: an entry per emoji in use on that message, no emoji twice,
    each with the users that reacted to that message with it and their
    number. *)
Definition summarises (message_id : Z) (d : DB)
    (summary : list MessageReactionSummary.t) : Prop :=
  NoDup (map MessageReactionSummary.emoji summary)
  ∧ ∀ e n us,
      MessageReactionSummary.mk e n us ∈ summary
      ↔ us = reactors message_id e d ∧ us ≠ [] ∧ n = Z.of_nat (length us).

(** The response [r] shows the row [m] as the tables of [d] have it: its
    columns, the attachments stored for it, the message it replies to, if
    that is stored, and the aggregation of its reactions. *)
Definition shows (d : DB) (m : Message.t) (r : MessageResponse.t) : Prop :=
  MessageResponse.id r = Message.id m
  ∧ Some (MessageResponse.content r) = Message.content m
  ∧ MessageResponse.sender_id r = Message.sender_id m
  ∧ MessageResponse.created_at r = Message.created_at m
  ∧ MessageResponse.message_type r = Message.message_type m
  ∧ MessageResponse.is_edited r = Message.is_edited m
  ∧ MessageResponse.is_deleted r = Message.is_deleted m
  ∧ MessageResponse.status r = Message.status m
  ∧ MessageResponse.reply_to_message_id r = Message.reply_to_message_id m
  ∧ MessageResponse.attachments r
    = map (λ a, AttachmentInfo.mk (Some (Attachment.id a)) (Attachment.filename a)
                  (Attachment.file_url a) (Attachment.file_type a)
                  (Attachment.file_size a))
          (List.filter (λ a, Attachment.message_id a =? Message.id m) (attachments d))
  ∧ MessageResponse.reply_to_message r
    = match Message.reply_to_message_id m with
      | Some replied =>
          if replied =? 0 then None
          else (λ t, ReplyPreview.mk (Message.id t) (Message.content t)
                       (Message.sender_id t) (Message.created_at t)
                       (Message.message_type t) (Message.is_deleted t))
               <$> message_by_id replied d
      | None => None
      end
  ∧ summarises (Message.id m) d (MessageResponse.reactions r).

(** Chat 7 with a thread: user 2 has answered the message of user 1 with a
    picture, and both messages carry reactions. *)
Definition reply_message : Message.t :=
  Message.mk 2 (Some "yo"%string) false false 2 7 "text" (Some 1) "seen" None (Some 9) 8 9.
Definition thread_db : DB :=
  mkDB [alice; bob; carol] [chat_1_2] [hi_message; reply_message]
    [Attachment.mk 1 2 "a.png" "/uploads/a.png" "image/png" 100 8]
    [] []
    [MessageReaction.mk 1 2 1 "+1" 9; MessageReaction.mk 2 1 2 "heart" 9;
     MessageReaction.mk 3 2 2 "+1" 9].
Definition thread_world : World := mkWorld thread_db (mkManager ∅) (mkNet ∅ []).

(** A [message] frame with two attachments, the second of a size that does
    not fit a 64-bit integer. *)
Definition huge_photo : AttData.t :=
  AttData.mk (Some "b.png"%string) (Some "/uploads/b.png"%string)
    (Some "image/png"%string) (Some (2 ^ 63)).
Definition huge_frame : MessageFrame.t :=
  MessageFrame.mk (Some (Some "look"%string)) (Some 7) None None
    (Some [photo; huge_photo]).


(** * Properties *)

(** ** The handlers on the sample data *)

(** The sender fetches the chat: nothing is marked, the history comes back. *)
Example sender_fetches_own_message :
  get_messages 7 alice 8 unseen_world
  = (unseen_world,
     Ok [MessageResponse.mk 1 "hi" 1 7 "text" false false "sent" None None [] []]).
Proof. reflexivity. Qed.

(** A ping is answered on the socket it came from. *)
Example ping_is_answered :
  outbox (net (after (websocket_endpoint alice_socket (Some 1) 5 [Text 6 FramePing] 0)
                 sample_world))
  = [(alice_socket, EvPong)].
Proof. vm_compute. reflexivity. Qed.

(** A typing indicator goes to the other participant only. *)
Example typing_goes_to_the_peer :
  let w1 := after (websocket_endpoint bob_socket (Some 2) 5 [] 0) sample_world in
  outbox (net (after (websocket_endpoint alice_socket (Some 1) 6
                        [Text 7 (FrameTyping (Some 7) (Some true))] 0) w1))
  = [(bob_socket, EvTyping 1 7 true)].
Proof. vm_compute. reflexivity. Qed.

(** A push to a socket that fails unregisters the user and is not raised. *)
Example failed_push_unregisters :
  let w := mkWorld sample_db (mkManager {[ 2 := bob_socket ]})
             (mkNet {[ bob_socket ]} []) in
  outcome (send_to_user 2 EvPong) w = Ok tt
  ∧ is_user_online 2 (after (send_to_user 2 EvPong) w) = false
  ∧ outbox (net (after (send_to_user 2 EvPong) w)) = [].
Proof. vm_compute. done. Qed.

(** Three reactions with two emoji, grouped in order of first use. *)
Example reactions_are_grouped :
  formatted_reactions
    [MessageReaction.mk 1 1 2 "+1" 0; MessageReaction.mk 2 1 1 "<3" 0;
     MessageReaction.mk 3 1 1 "+1" 0]
  = [MessageReactionSummary.mk "+1" 2 [2; 1]; MessageReactionSummary.mk "<3" 1 [1]].
Proof. reflexivity. Qed.

(** An invalid token closes the socket with code 4001 and registers nothing. *)
Example invalid_token_is_refused :
  after (websocket_endpoint alice_socket None 5 [Text 6 FramePing] 0) sample_world
  = mkWorld sample_db (mkManager ∅) (mkNet ∅ [(alice_socket, EvClose 4001)]).
Proof. vm_compute. reflexivity. Qed.

(** ** The monad *)

Lemma bind_ok {A B : Type} (c : M A) (k : A → M B) w w' a :
  c w = (w', Ok a) → bind c k w = k a w'.
Proof. intros H. unfold bind. by rewrite H. Qed.

Lemma bind_raise {A B : Type} (c : M A) (k : A → M B) w w' e :
  c w = (w', Raise e) → bind c k w = (w', Raise e).
Proof. intros H. unfold bind. by rewrite H. Qed.

Lemma bind_query {A B : Type} (q : DB → A) (k : A → M B) w :
  bind (query q) k w = k (q (db w)) w.
Proof. reflexivity. Qed.

Lemma bind_commit {B : Type} (f : DB → DB) (k : unit → M B) w :
  bind (commit f) k w = k tt (set_db (f (db w)) w).
Proof. reflexivity. Qed.

Lemma bind_ret {A B : Type} (a : A) (k : A → M B) w :
  bind (ret a) k w = k a w.
Proof. reflexivity. Qed.

(** ** The connection registry and the fan-out *)

Lemma send_text_keeps_db websocket ev : keeps_db (send_text websocket ev).
Proof. intros w. unfold after, send_text. by case_bool_decide. Qed.

Lemma disconnect_keeps_db user_id : keeps_db (disconnect user_id).
Proof.
  intros w. unfold after, disconnect.
  by destruct (active_connections (manager w) !! user_id).
Qed.

Lemma send_to_user_keeps_db user_id ev : keeps_db (send_to_user user_id ev).
Proof.
  intros w. unfold after, send_to_user.
  destruct (active_connections (manager w) !! user_id) as [ws|]; [|done].
  unfold try_except. pose proof (send_text_keeps_db ws ev w) as Hs.
  unfold after in Hs. destruct (send_text ws ev w) as [w1 [[]|e]]; simpl in *; [done|].
  rewrite <- Hs. apply (disconnect_keeps_db user_id w1).
Qed.

Lemma gather_keeps_db (tasks : list (M unit)) :
  Forall keeps_db tasks → keeps_db (gather tasks).
Proof.
  induction 1 as [|t rest Ht _ IH]; intros w; [done|].
  unfold keeps_db, after in *. simpl. by rewrite IH.
Qed.

Lemma gather_returns (tasks : list (M unit)) w : outcome (gather tasks) w = Ok tt.
Proof.
  revert w. induction tasks as [|t rest IH]; intros w; [done|].
  unfold outcome in *. simpl. apply IH.
Qed.

Lemma send_to_users_keeps_db user_ids ev : keeps_db (send_to_users user_ids ev).
Proof.
  intros w. unfold send_to_users, after.
  apply (gather_keeps_db
           (map (λ u, send_to_user u ev)
              (List.filter
                 (λ u, bool_decide (is_Some (active_connections (manager w) !! u)))
                 user_ids))).
  apply Forall_map, Forall_forall. intros u _. apply send_to_user_keeps_db.
Qed.

Lemma send_to_users_returns user_ids ev w :
  outcome (send_to_users user_ids ev) w = Ok tt.
Proof. unfold send_to_users, outcome. apply gather_returns. Qed.

Lemma send_to_user_net user_id ev w :
  net (after (send_to_user user_id ev) w)
  = mkNet (broken (net w))
          (outbox (net w) ++ option_list (pushed_to w ev user_id)).
Proof.
  unfold after, send_to_user, pushed_to.
  destruct (active_connections (manager w) !! user_id) as [ws|] eqn:Hu; simpl.
  - unfold try_except, send_text. case_bool_decide; simpl.
    + unfold disconnect. rewrite Hu. simpl. rewrite app_nil_r. by destruct (net w).
    + done.
  - rewrite app_nil_r. by destruct (net w).
Qed.

(** A send changes the registry only by dropping a user whose socket is
    broken, which a later push to that user would not have reached either. *)
Lemma send_to_user_pushed_to user_id ev w ev' u :
  pushed_to (after (send_to_user user_id ev) w) ev' u = pushed_to w ev' u.
Proof.
  unfold after, send_to_user.
  destruct (active_connections (manager w) !! user_id) as [ws|] eqn:Hu; [|done].
  unfold try_except, send_text. case_bool_decide as Hb; simpl; [|done].
  unfold disconnect. rewrite Hu. unfold pushed_to. simpl.
  destruct (decide (user_id = u)) as [->|Hne].
  - rewrite lookup_delete_eq, Hu. by rewrite bool_decide_eq_true_2.
  - by rewrite lookup_delete_ne.
Qed.

Lemma omap_pointwise {A B : Type} (f g : A → option B) (l : list A) :
  (∀ x, f x = g x) → omap f l = omap g l.
Proof.
  intros Hfg. induction l as [|x l IH]; [done|].
  cbn. rewrite Hfg. destruct (g x); cbn; by rewrite IH.
Qed.

Lemma gather_sends_net user_ids ev w :
  net (after (gather (map (λ u, send_to_user u ev) user_ids)) w)
  = mkNet (broken (net w)) (outbox (net w) ++ pushes w user_ids ev).
Proof.
  revert w. induction user_ids as [|u rest IH]; intros w.
  - unfold after, pushes. simpl. rewrite app_nil_r. by destruct (net w).
  - unfold after in *. simpl. rewrite IH.
    change (fst (send_to_user u ev w)) with (after (send_to_user u ev) w).
    rewrite send_to_user_net. simpl. f_equal.
    rewrite <- app_assoc. f_equal. unfold pushes. simpl.
    rewrite (omap_pointwise (pushed_to (after (send_to_user u ev) w) ev)
               (pushed_to w ev)).
    + by destruct (pushed_to w ev u).
    + intros x. apply send_to_user_pushed_to.
Qed.

Lemma pushes_registered w user_ids ev :
  pushes w
    (List.filter
       (λ u, bool_decide (is_Some (active_connections (manager w) !! u)))
       user_ids) ev
  = pushes w user_ids ev.
Proof.
  unfold pushes. induction user_ids as [|u rest IH]; [done|].
  cbn. destruct (active_connections (manager w) !! u) as [ws|] eqn:Hu.
  - rewrite bool_decide_eq_true_2 by eauto. cbn. by rewrite IH.
  - rewrite bool_decide_eq_false_2 by (by intros [? ?]).
    rewrite IH. unfold pushed_to at 2. by rewrite Hu.
Qed.

(** The frames [send_to_users] pushes, and nothing else on the wire. *)
Lemma send_to_users_net user_ids ev w :
  net (after (send_to_users user_ids ev) w)
  = mkNet (broken (net w)) (outbox (net w) ++ pushes w user_ids ev).
Proof.
  rewrite <- pushes_registered. rewrite <- gather_sends_net. reflexivity.
Qed.

(** Every listed participant that is online on a working socket gets the
    frame. *)
Lemma pushes_reach w user_ids ev u websocket :
  u ∈ user_ids →
  active_connections (manager w) !! u = Some websocket →
  websocket ∉ broken (net w) →
  (websocket, ev) ∈ pushes w user_ids ev.
Proof.
  intros Hin Hu Hb. unfold pushes. apply list_elem_of_omap.
  exists u. split; [done|]. unfold pushed_to. rewrite Hu.
  by rewrite bool_decide_eq_false_2.
Qed.

(** A fan-out pushes to listed users only, and only the frame given. *)
Lemma pushes_only w user_ids ev websocket ev' :
  (websocket, ev') ∈ pushes w user_ids ev →
  ev' = ev ∧ ∃ u, u ∈ user_ids ∧ active_connections (manager w) !! u = Some websocket.
Proof.
  unfold pushes. intros (u & Hin & Hp)%list_elem_of_omap.
  unfold pushed_to in Hp.
  destruct (active_connections (manager w) !! u) as [ws|] eqn:Hu; [|done].
  case_bool_decide; [done|]. injection Hp as -> ->. eauto.
Qed.

(** [send_to_users] in one statement. *)
Lemma send_to_users_spec user_ids ev w :
  ∃ w', send_to_users user_ids ev w = (w', Ok tt)
        ∧ db w' = db w
        ∧ net w' = mkNet (broken (net w)) (outbox (net w) ++ pushes w user_ids ev).
Proof.
  pose proof (send_to_users_keeps_db user_ids ev w) as Hdb.
  pose proof (send_to_users_net user_ids ev w) as Hnet.
  pose proof (send_to_users_returns user_ids ev w) as Hret.
  unfold after, outcome in *.
  destruct (send_to_users user_ids ev w) as [w' r]. simpl in *. subst r. eauto.
Qed.

(** ** Unregistering a session (C4) *)

(** C4, counterexample.  User 1 opens a session on one socket and then a
    second session on another socket, which takes over the registry entry.
    When the first session's handler then sees its socket close, its
    [except] clause calls [disconnect(1)]: the claim says the newer session
    stays registered, the code removes it (and marks the user inactive). *)
Lemma stale_disconnect_evicts_newer_session :
  let older := after (websocket_endpoint alice_socket (Some 1) 5 [] 0) sample_world in
  let newer := after (websocket_endpoint alice_second_socket (Some 1) 6 [] 0) older in
  let final := after (on_disconnect 1 9) newer in
  active_connections (manager newer) !! 1 = Some alice_second_socket
  ∧ active_connections (manager final) !! 1 = None
  ∧ User.is_active <$> user_by_id 1 (db final) = Some false.
Proof. vm_compute. done. Qed.

(** C4, as the code has it.  [disconnect(user_id)] takes no session: it
    removes whatever entry the user has, whichever session registered it,
    and touches nothing else. *)
Theorem disconnect_removes_any_session (user_id : Z) (w : World) :
  active_connections (manager (after (disconnect user_id) w))
  = delete user_id (active_connections (manager w))
  ∧ (∀ other, other ≠ user_id →
       active_connections (manager (after (disconnect user_id) w)) !! other
       = active_connections (manager w) !! other)
  ∧ db (after (disconnect user_id) w) = db w
  ∧ net (after (disconnect user_id) w) = net w.
Proof.
  unfold after, disconnect.
  destruct (active_connections (manager w) !! user_id) as [ws|] eqn:Hu; simpl.
  - split_and!; try done. intros other Hne. by rewrite lookup_delete_ne.
  - rewrite delete_id by done. done.
Qed.

(** ** Presence on connect and disconnect (C5) *)

(** C5, counterexample.  User 2 is registered on a working socket when
    user 1 connects and, later, disconnects.  The claim has a [user_status]
    frame pushed to user 2 each time; the code pushes nothing at all. *)
Lemma presence_change_is_not_broadcast :
  let w1 := after (websocket_endpoint bob_socket (Some 2) 5 [] 0) sample_world in
  let w2 := after (websocket_endpoint alice_socket (Some 1) 6 [] 0) w1 in
  let w3 := after (websocket_endpoint alice_socket (Some 1) 6 [Disconnect] 9) w1 in
  is_user_online 2 w2 = true ∧ is_user_online 1 w2 = true
  ∧ outbox (net w2) = []
  ∧ is_user_online 2 w3 = true ∧ is_user_online 1 w3 = false
  ∧ outbox (net w3) = [].
Proof. vm_compute. done. Qed.

(** Frames that were handled are behind the loop. *)
Lemma receive_loop_app websocket user_id inbox rest w w' :
  receive_loop websocket user_id inbox w = (w', Ok tt) →
  receive_loop websocket user_id (inbox ++ rest) w
  = receive_loop websocket user_id rest w'.
Proof.
  revert w. induction inbox as [|[now frame|] inbox IH]; intros w; simpl.
  - by intros [= ->].
  - unfold bind. destruct (on_frame websocket user_id now frame w) as [w1 [[]|e]];
      [apply IH|done].
  - done.
Qed.

(** C5, as the code has it.  Registration: the session is entered in the
    registry, the user row is marked active and [last_seen] stamped, and no
    frame is sent.  A [WebSocketDisconnect], after any frames that were
    handled: the entry is removed, the row is marked inactive and
    [last_seen] stamped, and no frame is sent. *)
Theorem session_presence_is_stored_not_broadcast
    (websocket : WebSocket) (user_id connected_at closed_at : Z) (u : User.t)
    (w : World) :
  user_id ≠ 0 →
  user_by_id user_id (db w) = Some u →
  let registered :=
    after (websocket_endpoint websocket (Some user_id) connected_at [] closed_at) w in
  (active_connections (manager registered)
   = <[user_id := websocket]> (active_connections (manager w))
   ∧ users (db registered)
     = map (λ x, if User.id x =? user_id
                 then User.set_presence true connected_at x else x) (users (db w))
   ∧ net registered = net w)
  ∧ ∀ inbox w',
      receive_loop websocket user_id inbox registered = (w', Ok tt) →
      let closed :=
        after (websocket_endpoint websocket (Some user_id) connected_at
                 (inbox ++ [Disconnect]) closed_at) w in
      active_connections (manager closed)
      = delete user_id (active_connections (manager w'))
      ∧ users (db closed)
        = map (λ x, if User.id x =? user_id
                    then User.set_presence false closed_at x else x) (users (db w'))
      ∧ net closed = net w'.
Proof.
  intros Hnz Hu. unfold after, websocket_endpoint.
  apply Z.eqb_neq in Hnz. rewrite Hnz. cbn. rewrite Hu. cbn.
  split; [done|]. intros inbox w' Hloop.
  unfold try_except. rewrite (receive_loop_app _ _ _ _ _ _ Hloop). cbn.
  unfold on_disconnect, bind, disconnect. cbn.
  destruct (active_connections (manager w') !! user_id) eqn:Hon; cbn.
  - done.
  - by rewrite delete_id.
Qed.

(** C5, witness: user 1 of the sample data connects, pings and leaves. *)
Lemma session_presence_is_stored_not_broadcast_witness :
  (1 : Z) ≠ 0
  ∧ user_by_id 1 (db sample_world) = Some alice
  ∧ net (after (websocket_endpoint alice_socket (Some 1) 5 [] 9) sample_world)
    = net sample_world
  ∧ users (db (after (websocket_endpoint alice_socket (Some 1) 5
                        ([Text 6 FramePing] ++ [Disconnect]) 9) sample_world))
    = [User.set_presence false 9 alice; bob; carol].
Proof.
  pose proof (session_presence_is_stored_not_broadcast alice_socket 1 5 9 alice
                sample_world ltac:(lia) eq_refl) as [(_ & _ & Hnet) Hclosed].
  split_and!; [lia|reflexivity|exact Hnet|].
  exact (proj1 (proj2 (Hclosed [Text 6 FramePing] _ eq_refl))).
Defined.

(** ** The delivered transition (C1) *)

(** [ConnectionManager] has no attribute [update_message_status]. *)
Lemma update_message_status_undefined :
  "update_message_status"%string ∉ ConnectionManager_attributes.
Proof. apply (bool_decide_eq_false_1 _). by vm_compute. Qed.

(** So the call raises, whatever its arguments, and changes nothing. *)
Lemma update_message_status_raises message_id status chat_id user_id w :
  update_message_status message_id status chat_id user_id w
  = (w, Raise (AttributeError "update_message_status")).
Proof. reflexivity. Qed.

(** The delivery loop stops at the first participant that is not the
    sender, before [delivered_at] is assigned. *)
Lemma delivery_loop_raises user_id message participants stamped w :
  (∃ p, p ∈ participants ∧ p ≠ user_id) →
  delivery_loop user_id message participants stamped w
  = (w, Raise (AttributeError "update_message_status")).
Proof.
  intros (p & Hin & Hne). induction participants as [|q rest IH]; [by inversion Hin|].
  simpl. destruct (q =? user_id) eqn:Hq; simpl.
  - apply IH. apply elem_of_cons in Hin as [->|Hin]; [|done].
    apply Z.eqb_eq in Hq. done.
  - reflexivity.
Qed.

(** A loop that returns has met the sender only and has stamped nothing. *)
Lemma delivery_loop_returns user_id message participants stamped w w' b :
  delivery_loop user_id message participants stamped w = (w', Ok b) →
  w' = w ∧ b = stamped ∧ Forall (λ p, p = user_id) participants.
Proof.
  induction participants as [|q rest IH]; simpl.
  - intros [= <- <-]. done.
  - destruct (q =? user_id) eqn:Hq; simpl; [|done].
    intros (-> & -> & Hall)%IH. apply Z.eqb_eq in Hq. by repeat constructor.
Qed.

(** C1, the code at the failing input.  User 2 is online; user 1 sends "hi"
    into their chat.  The message is stored and pushed to both participants,
    and the handler then fails on the undefined [update_message_status]: the
    message stays [sent], [delivered_at] stays empty, no further frame is
    sent, and user 1's session is left registered by a handler that is gone. *)
Theorem delivered_transition_is_never_issued :
  let w1 := after (websocket_endpoint bob_socket (Some 2) 5 [] 0) sample_world in
  let run :=
    websocket_endpoint alice_socket (Some 1) 6 [Text 7 (FrameMessage hi_frame)] 0 in
  is_user_online 2 w1 = true
  ∧ outcome run w1 = Raise (AttributeError "update_message_status")
  ∧ messages (db (after run w1)) = [hi_message]
  ∧ Message.status hi_message = "sent"%string
  ∧ Message.delivered_at hi_message = None
  ∧ outbox (net (after run w1)) = [(alice_socket, hi_event); (bob_socket, hi_event)]
  ∧ is_user_online 1 (after run w1) = true.
Proof. vm_compute. done. Qed.

(** ** The seen transition (C2) *)

(** A commit of dirty objects leaves in each row the first dirty object that
    carries its key. *)
Lemma foldr_update_row {A : Type} (key : A → Z) (dirty rows : list A) :
  foldr (update_row key) rows dirty
  = map (λ r, default r (List.find (λ n, key n =? key r) dirty)) rows.
Proof.
  induction dirty as [|n dirty IH]; simpl.
  - by rewrite map_id.
  - rewrite IH. unfold update_row. rewrite map_map. apply map_ext. intros r.
    assert (key (default r (List.find (λ n0, key n0 =? key r) dirty)) = key r) as ->.
    { destruct (List.find _ dirty) as [x|] eqn:Hf; [|done].
      apply find_some in Hf as [_ Hk]. simpl. by apply Z.eqb_eq in Hk. }
    rewrite (Z.eqb_sym (key r)). by destruct (key n =? key r).
Qed.

Lemma insert_by_created_at_elem m x sorted :
  x ∈ insert_by_created_at m sorted ↔ x = m ∨ x ∈ sorted.
Proof.
  induction sorted as [|y rest IH]; simpl.
  - rewrite elem_of_cons, elem_of_nil. tauto.
  - destruct (Message.created_at m <=? Message.created_at y).
    + rewrite elem_of_cons. tauto.
    + rewrite !elem_of_cons, IH. tauto.
Qed.

Lemma order_by_created_at_elem x rows :
  x ∈ order_by_created_at rows ↔ x ∈ rows.
Proof.
  induction rows as [|y rest IH]; simpl; [done|].
  rewrite insert_by_created_at_elem, elem_of_cons, IH. done.
Qed.

Lemma NoDup_map_inj {A K : Type} (key : A → K) (rows : list A) x y :
  NoDup (map key rows) → x ∈ rows → y ∈ rows → key x = key y → x = y.
Proof.
  induction rows as [|r rows IH]; [by inversion 2|].
  simpl. intros [Hr Hnd]%NoDup_cons Hx Hy Hk.
  apply elem_of_cons in Hx as [->|Hx]; apply elem_of_cons in Hy as [->|Hy].
  - done.
  - exfalso. apply Hr. rewrite Hk. apply list_elem_of_fmap. eauto.
  - exfalso. apply Hr. rewrite <- Hk. apply list_elem_of_fmap. eauto.
  - by apply IH.
Qed.

Lemma unique_ids_inj {A : Type} (key : A → Z) (rows : list A) x y :
  unique_ids key rows → x ∈ rows → y ∈ rows → key x = key y → x = y.
Proof. apply NoDup_map_inj. Qed.

Lemma elem_of_List_filter {A : Type} (f : A → bool) (l : list A) x :
  x ∈ List.filter f l ↔ x ∈ l ∧ f x = true.
Proof. by rewrite !list_elem_of_In, filter_In. Qed.

(** The rows the marking loop collects in [seen_messages]. *)
Lemma seen_messages_elem viewer chat_id now rows n :
  n ∈ map (Message.mark_seen now)
        (List.filter (unseen_by viewer)
           (order_by_created_at
              (List.filter (λ m, Message.chat_id m =? chat_id) rows)))
  ↔ ∃ m, n = Message.mark_seen now m ∧ m ∈ rows
         ∧ Message.chat_id m = chat_id ∧ unseen_by viewer m = true.
Proof.
  rewrite list_elem_of_fmap.
  split; intros (m & -> & Hm); exists m; (split; [done|]).
  - rewrite elem_of_List_filter, order_by_created_at_elem,
      elem_of_List_filter, Z.eqb_eq in Hm. tauto.
  - rewrite elem_of_List_filter, order_by_created_at_elem,
      elem_of_List_filter, Z.eqb_eq. tauto.
Qed.

(** What the commit of [get_messages] writes: every message of the chat that
    the viewer did not send and that is not yet [seen] becomes [seen] with
    [seen_at] stamped; every other row is left as it was. *)
Lemma marking_commit viewer chat_id now rows :
  unique_ids Message.id rows →
  foldr (update_row Message.id) rows
    (map (Message.mark_seen now)
       (List.filter (unseen_by viewer)
          (order_by_created_at
             (List.filter (λ m, Message.chat_id m =? chat_id) rows))))
  = map (seen_by chat_id viewer now) rows.
Proof.
  intros Hnd. rewrite foldr_update_row. apply map_ext_in. intros r Hr.
  apply list_elem_of_In in Hr. unfold seen_by.
  destruct (List.find _ _) as [n|] eqn:Hf; simpl.
  - apply find_some in Hf as [Hn Hk]. apply Z.eqb_eq in Hk.
    apply list_elem_of_In, seen_messages_elem in Hn as (m & -> & Hm & Hc & Hu).
    assert (m = r) as -> by (by apply (unique_ids_inj Message.id rows)).
    rewrite Hu, Hc, Z.eqb_refl. done.
  - destruct ((Message.chat_id r =? chat_id) && unseen_by viewer r) eqn:Hc; [|done].
    apply andb_true_iff in Hc as [Hc Hu]. apply Z.eqb_eq in Hc.
    exfalso.
    assert (In (Message.mark_seen now r)
              (map (Message.mark_seen now)
                 (List.filter (unseen_by viewer)
                    (order_by_created_at
                       (List.filter (λ m, Message.chat_id m =? chat_id) rows))))) as Hin.
    { apply list_elem_of_In, seen_messages_elem. eauto. }
    apply (find_none _ _ Hf) in Hin. simpl in Hin. by rewrite Z.eqb_refl in Hin.
Qed.

(** The loop that builds the responses only reads. *)
Lemma message_response_reads m w : after (message_response m) w = w.
Proof.
  unfold after, message_response. rewrite !bind_query.
  unfold MessageResponse.validate. by destruct (Message.content m).
Qed.

Lemma map_M_message_response_reads ms w : after (map_M message_response ms) w = w.
Proof.
  induction ms as [|m ms IH]; [done|].
  unfold after in *. simpl. unfold bind at 1.
  pose proof (message_response_reads m w) as Hm. unfold after in Hm.
  destruct (message_response m w) as [w1 [r|e]]; simpl in Hm; subst w1; [|done].
  unfold bind. destruct (map_M message_response ms w) as [w2 [rs|e]]; simpl in *; done.
Qed.

(** The transition itself: forward only, [seen_at] stamped on the way into
    [seen] and never again, the viewer's own messages left alone. *)
Lemma seen_by_forward chat_id viewer now m :
  (status_rank (Message.status m)
   ≤ status_rank (Message.status (seen_by chat_id viewer now m)))%nat
  ∧ (Message.status m = "seen"%string → seen_by chat_id viewer now m = m)
  ∧ (Message.sender_id m = viewer → seen_by chat_id viewer now m = m)
  ∧ (Message.chat_id m ≠ chat_id → seen_by chat_id viewer now m = m)
  ∧ (seen_by chat_id viewer now m ≠ m →
       Message.status (seen_by chat_id viewer now m) = "seen"%string
       ∧ Message.seen_at (seen_by chat_id viewer now m) = Some now).
Proof.
  unfold seen_by, unseen_by.
  destruct (Message.chat_id m =? chat_id) eqn:Hc;
    destruct (Message.sender_id m =? viewer) eqn:Hs;
    destruct (String.eqb (Message.status m) "seen") eqn:Hst; simpl;
    try apply Z.eqb_neq in Hc; try apply Z.eqb_eq in Hc;
    try apply Z.eqb_neq in Hs; try apply String.eqb_neq in Hst;
    split_and!; try done; try (intros; congruence).
  unfold status_rank. simpl.
  destruct (String.eqb (Message.status m) "seen"),
    (String.eqb (Message.status m) "delivered"); lia.
Qed.

(** [get_messages] on a chat the viewer takes part in: the marking is
    committed; if anything was marked, the request then fails on the
    undefined [update_message_status], before any frame is sent. *)
Lemma get_messages_marks_then_fails chat_id current_user now w :
  unique_ids Message.id (messages (db w)) →
  participates (User.id current_user) chat_id (db w) →
  db (after (get_messages chat_id current_user now) w)
  = set_messages (map (seen_by chat_id (User.id current_user) now) (messages (db w)))
      (db w)
  ∧ net (after (get_messages chat_id current_user now) w) = net w
  ∧ manager (after (get_messages chat_id current_user now) w) = manager w
  ∧ ((∃ m, m ∈ messages (db w) ∧ Message.chat_id m = chat_id
           ∧ unseen_by (User.id current_user) m = true) →
     outcome (get_messages chat_id current_user now) w
     = Raise (AttributeError "update_message_status")).
Proof.
  intros Hnd (c & Hc & Hid & Hpart).
  unfold after, outcome, get_messages. rewrite bind_query.
  destruct (first _ (chats (db w))) as [c'|] eqn:Hfirst.
  2:{ exfalso. apply list_elem_of_In in Hc.
      apply (find_none _ _ Hfirst) in Hc. simpl in Hc.
      rewrite Hid, Z.eqb_refl in Hc. simpl in Hc.
      destruct Hpart as [H|H]; rewrite H, Z.eqb_refl in Hc; simpl in Hc;
        [done|by rewrite orb_true_r in Hc]. }
  rewrite bind_query. cbv zeta.
  pose proof (marking_commit (User.id current_user) chat_id now _ Hnd) as Hcommit.
  pose proof (seen_messages_elem (User.id current_user) chat_id now (messages (db w)))
    as Helem.
  destruct (map (Message.mark_seen now) _) as [|n dirty] eqn:Hdirty.
  - rewrite bind_ret. simpl in Hcommit.
    pose proof (map_M_message_response_reads
      (map (λ m, if unseen_by (User.id current_user) m
                 then Message.mark_seen now m else m)
         (order_by_created_at
            (List.filter (λ m, Message.chat_id m =? chat_id) (messages (db w))))) w)
      as Hreads.
    unfold after in Hreads. rewrite Hreads, <- Hcommit.
    split_and!; try done.
    + by destruct (db w).
    + intros (m & Hm & Hmc & Hmu). exfalso.
      apply (elem_of_nil (Message.mark_seen now m)), Helem. eauto.
  - unfold bind, commit, write_messages. simpl.
    rewrite <- Hcommit. done.
Qed.

(** C2, the code at the failing input.  User 1, who is online, has sent a
    message that user 2 now fetches.  The message is committed as [seen], and
    the request then fails on the undefined [update_message_status]: user 2
    gets an error instead of the history, and user 1 is sent nothing. *)
Theorem seen_notification_is_never_sent :
  let run := get_messages 7 bob 8 in
  messages (db unseen_world) = [hi_message]
  ∧ is_user_online 1 unseen_world = true
  ∧ outcome run unseen_world = Raise (AttributeError "update_message_status")
  ∧ messages (db (after run unseen_world)) = [Message.mark_seen 8 hi_message]
  ∧ outbox (net (after run unseen_world)) = [].
Proof. vm_compute. done. Qed.

(** ** Creation of a message with attachments (C3) *)


Lemma keeps_db_bind {A B : Type} (c : M A) (k : A → M B) :
  keeps_db c →
  (∀ w w' a, c w = (w', Ok a) → db (after (k a) w') = db w') →
  keeps_db (bind c k).
Proof.
  intros Hc Hk w. specialize (Hc w). unfold after, bind in *.
  destruct (c w) as [w' [a|e]] eqn:Hcw; simpl in *; [|done].
  rewrite <- Hc. by apply (Hk w).
Qed.

Lemma query_keeps_db {A : Type} (q : DB → A) : keeps_db (query q).
Proof. done. Qed.

Lemma participants_of_reads chat_id w : after (participants_of chat_id) w = w.
Proof.
  unfold after, participants_of. rewrite bind_query.
  by destruct (chat_by_id chat_id (db w)).
Qed.

Lemma participants_of_found chat_id c w :
  chat_by_id chat_id (db w) = Some c →
  participants_of chat_id w = (w, Ok [Chat.user1_id c; Chat.user2_id c]).
Proof. intros Hchat. unfold participants_of. by rewrite bind_query, Hchat. Qed.

Lemma participants_of_keeps_db chat_id : keeps_db (participants_of chat_id).
Proof. intros w. by rewrite participants_of_reads. Qed.

Lemma delivery_loop_reads user_id message participants stamped w :
  after (delivery_loop user_id message participants stamped) w = w.
Proof.
  revert stamped. induction participants as [|q rest IH]; intros stamped; [done|].
  unfold after in *. simpl. destruct (q =? user_id); simpl; [apply IH|done].
Qed.

(** Building an attachment reads the dictionary and nothing else. *)
Lemma new_attachment_spec a w :
  new_attachment a w
  = (w, match described a with
        | Some info => Ok info
        | None => Raise (KeyError (missing_key a))
        end).
Proof.
  unfold new_attachment, described, missing_key.
  by destruct a as [[?|] [?|] [?|] [?|]].
Qed.

Lemma described_complete a : is_Some (described a) ↔ complete a = true.
Proof.
  unfold described, complete. destruct a as [[?|] [?|] [?|] [?|]]; simpl;
    split; intros H; try done; try (by eauto); by destruct H.
Qed.

(** The loop over the attachment list: all of them built, or an exception
    and none. *)
Lemma map_M_new_attachment given w :
  if forallb complete given
  then map_M new_attachment given w = (w, Ok (omap described given))
       ∧ length (omap described given) = length given
  else ∃ key, map_M new_attachment given w = (w, Raise (KeyError key)).
Proof.
  induction given as [|a rest IH]; [done|].
  pose proof (described_complete a) as Hd.
  cbn [forallb map_M]. unfold bind. rewrite new_attachment_spec.
  destruct (described a) as [info|] eqn:Ha.
  - rewrite (proj1 Hd) by eauto. cbn [andb].
    destruct (forallb complete rest).
    + destruct IH as [-> Hlen]. cbn. rewrite Ha. cbn. split; [done|].
      f_equal. exact Hlen.
    + destruct IH as [key ->]. eauto.
  - destruct (complete a); [by destruct (proj2 Hd eq_refl)|]. cbn. eauto.
Qed.

Lemma keeps_db_seq {A B : Type} (c : M A) (k : A → M B) :
  keeps_db c → (∀ a, keeps_db (k a)) → keeps_db (bind c k).
Proof. intros Hc Hk. apply keeps_db_bind; [done|]. intros w w' a _. apply Hk. Qed.

(** The push and the delivery loop leave the database as the two commits of
    the first half left it. *)
Lemma announce_message_keeps_db user_id message attachments now :
  keeps_db (announce_message user_id message attachments now).
Proof.
  unfold announce_message.
  apply keeps_db_seq; [apply participants_of_keeps_db|]. intros participants.
  apply keeps_db_seq; [apply query_keeps_db|]. intros reply.
  apply keeps_db_seq; [apply send_to_users_keeps_db|]. intros _.
  apply keeps_db_bind.
  - intros w. by rewrite delivery_loop_reads.
  - intros w w' stamped Hloop.
    apply delivery_loop_returns in Hloop as (_ & -> & _). done.
Qed.




Lemma next_id_fresh {A : Type} (key : A → Z) (rows : list A) r :
  r ∈ rows → key r < next_id key rows.
Proof.
  unfold next_id. induction rows as [|x rows IH]; [by inversion 1|].
  intros [->|Hr]%elem_of_cons; simpl; [lia|]. specialize (IH Hr). lia.
Qed.


Lemma commit_binding_fits bound f w :
  forallb sqlite_integer bound = true →
  commit_binding bound f w = (set_db (f (db w)) w, Ok tt).
Proof. intros Hfits. unfold commit_binding. by rewrite Hfits. Qed.

Lemma commit_binding_overflow bound f w :
  forallb sqlite_integer bound = false →
  commit_binding bound f w = (w, Raise OverflowError).
Proof. intros Hfits. unfold commit_binding. by rewrite Hfits. Qed.

Lemma bindable_bound user_id message_data chat_id :
  MessageFrame.chat_id message_data = Some chat_id →
  forallb sqlite_integer
    (user_id :: chat_id :: option_list (MessageFrame.reply_to_message_id message_data))
  = bindable user_id message_data.
Proof.
  intros Hchat. unfold bindable. rewrite Hchat. cbn.
  destruct (MessageFrame.reply_to_message_id message_data); cbn;
    by rewrite ?andb_true_r, ?andb_assoc.
Qed.

(** The sizes the commit of the attachments binds are those of the frame. *)
Lemma described_sizes given :
  forallb complete given = true →
  forallb sqlite_integer (map AttachmentInfo.file_size (omap described given))
  = forallb writable given.
Proof.
  induction given as [|a rest IH]; [done|].
  cbn [forallb]. intros [Ha Hrest]%andb_true_iff.
  apply described_complete in Ha as [info Ha].
  cbn [omap]. unfold omap in IH |- *. cbn. rewrite Ha. cbn. rewrite IH by done.
  f_equal. unfold described in Ha. unfold writable.
  destruct a as [[?|] [?|] [?|] [?|]]; cbn in *; try done. by injection Ha as <-.
Qed.

(** What the first half of the [message] branch leaves behind.  A frame
    whose ids do not fit is refused at the first commit and leaves nothing.
    Otherwise the message is committed on its own, and then either every
    attachment of the frame or, when one of them cannot be built or
    written, none. *)
Lemma persist_message_spec user_id message_data now content chat_id w :
  MessageFrame.content message_data = Some content →
  MessageFrame.chat_id message_data = Some chat_id →
  let message := new_message user_id message_data content chat_id now (db w) in
  let w1 := set_db (set_messages (messages (db w) ++ [message]) (db w)) w in
  if bindable user_id message_data
  then
    (forallb complete (carried message_data) = true
     ∧ forallb writable (carried message_data) = true
     ∧ persist_message user_id message_data now w
       = (set_db (set_attachments
                    (insert_attachments (Message.id message) now
                       (omap described (carried message_data)) (attachments (db w)))
                    (db w1)) w1,
          Ok (message, omap described (carried message_data))))
    ∨ (forallb complete (carried message_data) = true
       ∧ forallb writable (carried message_data) = false
       ∧ persist_message user_id message_data now w = (w1, Raise OverflowError))
    ∨ (forallb complete (carried message_data) = false
       ∧ ∃ key, persist_message user_id message_data now w
                = (w1, Raise (KeyError key)))
  else persist_message user_id message_data now w = (w, Raise OverflowError).
Proof.
  intros Hcontent Hchat message w1.
  pose proof (bindable_bound user_id message_data chat_id Hchat) as Hbound.
  assert (persist_message user_id message_data now w
          = bind (commit_binding
                    (user_id :: chat_id
                     :: option_list (MessageFrame.reply_to_message_id message_data))
                    (λ d, set_messages (messages d ++ [message]) d))
              (λ _,
                 do attachments <-
                   match MessageFrame.attachments message_data with
                   | Some (a :: more) =>
                       do pending <- map_M new_attachment (a :: more);
                       commit_binding (map AttachmentInfo.file_size pending)
                         (λ d, set_attachments
                                 (insert_attachments (Message.id message) now pending
                                    (attachments d)) d) ;;
                       ret pending
                   | _ => ret []
                   end;
                 ret (message, attachments)) w) as ->.
  { unfold persist_message. rewrite Hcontent, Hchat. cbn [item].
    by rewrite !bind_ret, bind_query. }
  destruct (bindable user_id message_data).
  2:{ apply bind_raise. by apply commit_binding_overflow. }
  rewrite (bind_ok _ _ _ _ _ (commit_binding_fits _ _ _ Hbound)).
  cbn [db]. fold w1. unfold carried.
  destruct (MessageFrame.attachments message_data) as [[|a more]|];
    unfold default, id.
  - left. split_and!; [reflexivity..|]. rewrite !bind_ret. subst w1. cbn.
    by destruct w as [[] ? ?].
  - pose proof (map_M_new_attachment (a :: more) w1) as Hbuild.
    pose proof (described_sizes (a :: more)) as Hsizes.
    destruct (forallb complete (a :: more)).
    + destruct Hbuild as [Hbuild _]. specialize (Hsizes eq_refl).
      destruct (forallb writable (a :: more)).
      * left. split_and!; [done..|].
        unfold bind at 1. unfold bind at 1. rewrite Hbuild.
        unfold bind at 1. by rewrite (commit_binding_fits _ _ _ Hsizes).
      * right. left. split_and!; [done..|].
        unfold bind at 1. unfold bind at 1. rewrite Hbuild.
        unfold bind at 1. by rewrite (commit_binding_overflow _ _ _ Hsizes).
    + right. right. split; [done|]. destruct Hbuild as [key Hbuild]. exists key.
      unfold bind at 1. unfold bind at 1. by rewrite Hbuild.
  - left. split_and!; [reflexivity..|]. rewrite !bind_ret. subst w1. cbn.
    by destruct w as [[] ? ?].
Qed.

(** A frame that fits, with attachments that can all be built and written,
    is stored whole. *)
Lemma persist_message_complete user_id message_data now content chat_id w :
  MessageFrame.content message_data = Some content →
  MessageFrame.chat_id message_data = Some chat_id →
  bindable user_id message_data = true →
  forallb complete (carried message_data) = true →
  forallb writable (carried message_data) = true →
  persist_message user_id message_data now w
  = (set_db (with_message user_id message_data content chat_id now (db w)) w,
     Ok (new_message user_id message_data content chat_id now (db w),
         omap described (carried message_data))).
Proof.
  intros Hcontent Hchat_id Hfits Hall Hsizes.
  pose proof (persist_message_spec user_id message_data now content chat_id w
                Hcontent Hchat_id) as Hspec.
  cbv zeta in Hspec. rewrite Hfits in Hspec.
  destruct Hspec as [(_ & _ & Hrun)|[(_ & Hnot & _)|[Hnot _]]]; [|congruence..].
  rewrite Hrun. by destruct w.
Qed.

(** Every message sent into a chat that has a participant other than the
    sender ends the same way: stored as [sent], pushed, and then the handler
    fails on the undefined [update_message_status]. *)
Lemma on_message_never_delivers user_id message_data now content chat_id c w :
  MessageFrame.content message_data = Some content →
  MessageFrame.chat_id message_data = Some chat_id →
  bindable user_id message_data = true →
  forallb complete (carried message_data) = true →
  forallb writable (carried message_data) = true →
  chat_by_id chat_id (db w) = Some c →
  Chat.user1_id c ≠ user_id ∨ Chat.user2_id c ≠ user_id →
  outcome (on_message user_id message_data now) w
  = Raise (AttributeError "update_message_status")
  ∧ messages (db (after (on_message user_id message_data now) w))
    = messages (db w) ++ [new_message user_id message_data content chat_id now (db w)].
Proof.
  intros Hcontent Hchat_id Hfits Hall Hsizes Hchat Hother.
  pose proof (persist_message_complete user_id message_data now content chat_id w
                Hcontent Hchat_id Hfits Hall Hsizes) as Hrun.
  split.
  - unfold outcome, on_message. rewrite (bind_ok _ _ _ _ _ Hrun). cbn [fst snd].
    unfold announce_message.
    erewrite bind_ok; [|by apply (participants_of_found _ c)].
    rewrite bind_query. unfold bind at 1.
    match goal with
    | |- context [send_to_users ?us ?ev ?w2] =>
        destruct (send_to_users_spec us ev w2) as (w3 & Hsend & _ & _)
    end.
    rewrite Hsend. unfold bind.
    rewrite delivery_loop_raises; [done|].
    destruct Hother as [H|H]; eexists; (split; [|exact H]);
      rewrite !elem_of_cons; tauto.
  - unfold after, on_message. rewrite (bind_ok _ _ _ _ _ Hrun).
    match goal with
    | |- messages (db (fst (announce_message ?u ?m ?a ?t ?w2))) = _ =>
        change (fst (announce_message u m a t w2))
          with (after (announce_message u m a t) w2);
        rewrite (announce_message_keeps_db u m a t w2)
    end.
    reflexivity.
Qed.



(** A complete frame whose second attachment has a size of [2^63]: the
    message is stored, the commit of the attachments is refused, none of
    them is stored and nothing is pushed. *)
Example attachment_size_overflow_is_refused :
  let run := on_message 1 huge_frame 7 in
  forallb complete (carried huge_frame) = true
  ∧ forallb writable (carried huge_frame) = false
  ∧ outcome run bob_online = Raise OverflowError
  ∧ length (messages (db (after run bob_online))) = 1%nat
  ∧ attachments (db (after run bob_online)) = []
  ∧ outbox (net (after run bob_online)) = [].
Proof. vm_compute. done. Qed.

(** A frame whose chat id does not fit is refused whole. *)
Example chat_id_overflow_is_refused :
  let frame := MessageFrame.mk (Some (Some "hi"%string)) (Some (2 ^ 63)) None None None in
  on_message 1 frame 7 bob_online = (bob_online, Raise OverflowError).
Proof. reflexivity. Qed.

(** ** Editing (C7, C10) *)

(** The row a key finds after an UPDATE of the row with the key of [new]. *)
Lemma first_update_row {A : Type} (key : A → Z) (new : A) (rows : list A) k :
  first (λ r, key r =? k) (update_row key new rows)
  = if k =? key new
    then (λ _, new) <$> first (λ r, key r =? k) rows
    else first (λ r, key r =? k) rows.
Proof.
  unfold first, update_row. induction rows as [|r rows IH]; simpl.
  - by destruct (k =? key new).
  - destruct (key r =? key new) eqn:Hrn.
    + apply Z.eqb_eq in Hrn. rewrite Hrn. rewrite (Z.eqb_sym (key new) k).
      destruct (k =? key new) eqn:Hk; [done|]. exact IH.
    + destruct (key r =? k) eqn:Hrk; [|exact IH].
      apply Z.eqb_eq in Hrk. subst k. by rewrite Hrn.
Qed.

Lemma message_by_id_found message_id d m :
  message_by_id message_id d = Some m → Message.id m = message_id ∧ m ∈ messages d.
Proof.
  unfold message_by_id, first. intros [Hin Hid]%find_some.
  apply Z.eqb_eq in Hid. by apply list_elem_of_In in Hin.
Qed.

(** What a commit of one changed message does to the lookups by key. *)
Lemma message_by_id_written new d k :
  message_by_id k (write_messages [new] d)
  = if k =? Message.id new
    then (λ _, new) <$> message_by_id k d
    else message_by_id k d.
Proof. unfold message_by_id, write_messages. simpl. apply first_update_row. Qed.




(** [delete_message] called by the sender leaves the tombstone and the
    deleted flag. *)
Lemma delete_message_by_sender message_id current_user now w message c :
  message_by_id message_id (db w) = Some message →
  Message.sender_id message = User.id current_user →
  chat_by_id (Message.chat_id message) (db w) = Some c →
  outcome (delete_message message_id current_user now) w
  = Ok "Message deleted successfully"%string
  ∧ message_by_id message_id (db (after (delete_message message_id current_user now) w))
    = Some (Message.soft_delete now message).
Proof.
  intros Hfound Hsender Hchat.
  destruct (message_by_id_found _ _ _ Hfound) as [Hid _].
  unfold outcome, after, delete_message.
  rewrite bind_query, Hfound, Hsender, Z.eqb_refl. cbn [negb].
  rewrite (bind_ok _ _ _ _ _ (participants_of_found _ c w Hchat)), bind_commit.
  destruct (send_to_users_spec [Chat.user1_id c; Chat.user2_id c]
              (EvMessageDeleted message_id (Message.chat_id message)
                 (User.id current_user))
              (set_db (write_messages [Message.soft_delete now message] (db w)) w))
    as (w' & Hsend & Hdb & _).
  unfold bind. rewrite Hsend. cbn. rewrite Hdb. split; [done|].
  cbn [db set_db]. rewrite message_by_id_written. cbn.
  by rewrite Hid, Z.eqb_refl, Hfound.
Qed.




(** A deletion repeated changes no column either. *)
Example repeated_delete_keeps_updated_at :
  let twice := after (delete_message 1 alice 12) deleted_world in
  Message.updated_at <$> message_by_id 1 (db deleted_world) = Some 8
  ∧ Message.updated_at <$> message_by_id 1 (db twice) = Some 8.
Proof. vm_compute. done. Qed.

(** An edit repeated with the same content changes no column, so the row
    keeps the update time of the first. *)
Example repeated_edit_keeps_updated_at :
  let once := after (edit_message 1 hello_edit alice 9) unseen_world in
  let twice := after (edit_message 1 hello_edit alice 12) once in
  Message.updated_at <$> message_by_id 1 (db unseen_world) = Some 7
  ∧ Message.updated_at <$> message_by_id 1 (db once) = Some 9
  ∧ Message.updated_at <$> message_by_id 1 (db twice) = Some 9.
Proof. vm_compute. done. Qed.

(** ** Reactions (C6) *)

Lemma NoDup_map_filter {A K : Type} (key : A → K) (p : A → bool) (rows : list A) :
  NoDup (map key rows) → NoDup (map key (List.filter p rows)).
Proof.
  induction rows as [|r rows IH]; [done|].
  simpl. intros [Hr Hnd]%NoDup_cons. destruct (p r); [|by apply IH].
  simpl. apply NoDup_cons. split; [|by apply IH].
  intros (x & Hk & Hx)%list_elem_of_fmap. apply Hr.
  apply list_elem_of_fmap. exists x. split; [done|].
  by apply elem_of_List_filter in Hx as [Hx _].
Qed.

Lemma same_reaction_key message_id user_id emoji r :
  same_reaction message_id user_id emoji r = true
  ↔ reaction_key r = (message_id, user_id, emoji).
Proof.
  unfold same_reaction, reaction_key.
  rewrite !andb_true_iff, !Z.eqb_eq, String.eqb_eq.
  split; [by intros [[-> ->] ->]|by intros [= -> -> ->]].
Qed.


Lemma first_none_elem {A : Type} (p : A → bool) (l : list A) :
  first p l = None ↔ ∀ x, x ∈ l → p x = false.
Proof.
  unfold first. split.
  - intros Hnone x Hx. apply (find_none _ _ Hnone). by apply list_elem_of_In.
  - intros Hall. destruct (List.find p l) as [x|] eqn:Hf; [|done].
    apply find_some in Hf as [Hx Hp]. apply list_elem_of_In in Hx.
    by rewrite (Hall x Hx) in Hp.
Qed.

Lemma first_some_elem {A : Type} (p : A → bool) (l : list A) x :
  first p l = Some x → x ∈ l ∧ p x = true.
Proof. unfold first. intros [Hx Hp]%find_some. by apply list_elem_of_In in Hx. Qed.



(** It keeps the table well keyed. *)
Lemma toggle_reaction_well_keyed message_id user_id emoji now rows :
  reactions_well_keyed rows →
  reactions_well_keyed (toggle_reaction message_id user_id emoji now rows).
Proof.
  intros [Hids Hkeys]. unfold toggle_reaction, reactions_well_keyed, unique_ids.
  destruct (first _ rows) as [r|] eqn:Hfirst.
  - split; by apply NoDup_map_filter.
  - rewrite first_none_elem in Hfirst. rewrite !map_app. simpl. split.
    + apply NoDup_app. split_and!; [done| |apply NoDup_singleton].
      intros k (x & -> & Hx)%list_elem_of_fmap [Hk|[]%elem_of_nil]%elem_of_cons.
      pose proof (next_id_fresh MessageReaction.id rows x Hx). simpl in Hk. lia.
    + apply NoDup_app. split_and!; [done| |apply NoDup_singleton].
      intros k (x & -> & Hx)%list_elem_of_fmap [Hk|[]%elem_of_nil]%elem_of_cons.
      assert (same_reaction message_id user_id emoji x = true) as Hs
        by (by apply same_reaction_key).
      by rewrite (Hfirst x Hx) in Hs.
Qed.

(** *** The aggregation *)

Lemma group_of_append emoji user_id groups e :
  group_of e (group_append emoji user_id groups)
  = if String.eqb emoji e
    then Some (default [] (group_of e groups) ++ [user_id])
    else group_of e groups.
Proof.
  unfold group_of. induction groups as [|[k us] rest IH]; simpl.
  - by destruct (String.eqb emoji e).
  - destruct (String.eqb k emoji) eqn:Hk; simpl.
    + apply String.eqb_eq in Hk. subst k. by destruct (String.eqb emoji e).
    + destruct (String.eqb k e) eqn:Hke; simpl; [|exact IH].
      apply String.eqb_eq in Hke. subst k. by rewrite String.eqb_sym, Hk.
Qed.

Lemma group_append_keys emoji user_id groups k :
  k ∈ map fst (group_append emoji user_id groups) ↔ k = emoji ∨ k ∈ map fst groups.
Proof.
  induction groups as [|[k' us] rest IH]; simpl.
  - rewrite elem_of_cons, elem_of_nil. tauto.
  - destruct (String.eqb k' emoji) eqn:Hk; simpl.
    + apply String.eqb_eq in Hk. subst k'. rewrite elem_of_cons. tauto.
    + rewrite !elem_of_cons, IH. tauto.
Qed.

Lemma group_append_NoDup emoji user_id groups :
  NoDup (map fst groups) → NoDup (map fst (group_append emoji user_id groups)).
Proof.
  induction groups as [|[k us] rest IH]; simpl.
  - intros _. apply NoDup_singleton.
  - intros [Hk Hnd]%NoDup_cons. destruct (String.eqb k emoji) eqn:Hke; simpl.
    + by apply NoDup_cons.
    + apply NoDup_cons. split; [|by apply IH].
      rewrite group_append_keys. intros [->|Hin]; [|done].
      by rewrite String.eqb_refl in Hke.
Qed.

Lemma reaction_groups_NoDup reactions groups :
  NoDup (map fst groups) →
  NoDup (map fst (fold_left
                    (λ g r, group_append (MessageReaction.emoji r)
                              (MessageReaction.user_id r) g)
                    reactions groups)).
Proof.
  revert groups. induction reactions as [|r rest IH]; intros groups Hnd; [done|].
  simpl. by apply IH, group_append_NoDup.
Qed.

(** The group of an emoji after the loop: what was there before, followed by
    the users of the rows walked. *)
Lemma group_of_fold reactions groups e :
  group_of e (fold_left
                (λ g r, group_append (MessageReaction.emoji r)
                          (MessageReaction.user_id r) g)
                reactions groups)
  = match group_of e groups, users_of e reactions with
    | None, [] => None
    | before, us => Some (default [] before ++ us)
    end.
Proof.
  revert groups. induction reactions as [|r rest IH]; intros groups; simpl.
  - unfold users_of. simpl. destruct (group_of e groups); simpl; [|done].
    by rewrite app_nil_r.
  - rewrite IH, group_of_append. unfold users_of. simpl.
    destruct (String.eqb (MessageReaction.emoji r) e); simpl.
    + rewrite <- app_assoc. simpl. by destruct (group_of e groups).
    + done.
Qed.

Lemma group_of_elem groups e us :
  NoDup (map fst groups) → (e, us) ∈ groups → group_of e groups = Some us.
Proof.
  unfold group_of. induction groups as [|[k vs] rest IH]; [by inversion 2|].
  simpl. intros [Hk Hnd]%NoDup_cons [[= <- <-]|Hin]%elem_of_cons.
  - by rewrite String.eqb_refl.
  - destruct (String.eqb k e) eqn:Hke; [|by apply IH].
    apply String.eqb_eq in Hke. subst k. exfalso. apply Hk.
    apply list_elem_of_fmap. by exists (e, us).
Qed.

(** What [formatted_reactions] holds: an entry per emoji that occurs, with
    the users that reacted with it, in row order, and their number. *)
Lemma formatted_reactions_spec reactions e n us :
  MessageReactionSummary.mk e n us ∈ formatted_reactions reactions
  ↔ us = users_of e reactions ∧ us ≠ [] ∧ n = Z.of_nat (length us).
Proof.
  unfold formatted_reactions, reaction_groups.
  pose proof (group_of_fold reactions [] e) as Hfold.
  pose proof (reaction_groups_NoDup reactions [] (NoDup_nil_2)) as Hnd.
  simpl in Hfold, Hnd.
  set (groups := fold_left _ reactions []) in *.
  rewrite list_elem_of_fmap. split.
  - intros ([k vs] & [= Hk Hn Hvs] & Hin). simpl in Hk, Hn, Hvs. subst k n vs.
    rewrite (group_of_elem _ _ _ Hnd Hin) in Hfold.
    destruct (users_of e reactions); [done|]. by injection Hfold as ->.
  - intros (-> & Hne & ->).
    destruct (users_of e reactions) as [|u us] eqn:Hus; [done|].
    unfold group_of in Hfold.
    destruct (List.find _ groups) as [[k vs]|] eqn:Hfind; [|done].
    simpl in Hfold. injection Hfold as ->.
    apply find_some in Hfind as [Hin Hk]. simpl in Hk.
    apply String.eqb_eq in Hk. subst k.
    exists (e, u :: us). split; [done|]. by apply list_elem_of_In.
Qed.

(** *** The handler *)

(** The two branches of [add_reaction], as one step on the table. *)
Lemma toggle_commit {B : Type} message_id user_id emoji now (k : string → M B) w :
  bind (match first (same_reaction message_id user_id emoji)
                (message_reactions (db w)) with
        | Some r =>
            commit (λ d, set_message_reactions
                           (delete_row MessageReaction.id (MessageReaction.id r)
                              (message_reactions d)) d) ;;
            ret "removed"%string
        | None =>
            commit (λ d, set_message_reactions
                           (message_reactions d ++
                            [MessageReaction.mk
                               (next_id MessageReaction.id (message_reactions d))
                               message_id user_id emoji now]) d) ;;
            ret "added"%string
        end) k w
  = k (toggle_action message_id user_id emoji (message_reactions (db w)))
      (set_db (set_message_reactions
                 (toggle_reaction message_id user_id emoji now
                    (message_reactions (db w)))
                 (db w)) w).
Proof.
  unfold toggle_action, toggle_reaction.
  by destruct (first _ (message_reactions (db w))).
Qed.



(** The aggregation the handlers build for a message is that of the rows
    of the reaction table that belong to the message. *)
Lemma users_of_reactions_of e message_id d :
  users_of e (reactions_of message_id d) = reactors message_id e d.
Proof.
  unfold users_of, reactions_of, reactors. f_equal.
  induction (message_reactions d) as [|r rows IH]; [done|].
  cbn [List.filter]. destruct (MessageReaction.message_id r =? message_id); cbn.
  - destruct (String.eqb (MessageReaction.emoji r) e); by rewrite IH.
  - exact IH.
Qed.

Lemma formatted_reactions_summarises message_id d :
  summarises message_id d (formatted_reactions (reactions_of message_id d)).
Proof.
  split.
  - unfold formatted_reactions. rewrite map_map. cbn.
    apply (reaction_groups_NoDup _ []), NoDup_nil_2.
  - intros e n us. rewrite formatted_reactions_spec.
    by rewrite users_of_reactions_of.
Qed.



(** The commit of [add_reaction] stands whatever follows, and keeps the
    table well keyed. *)
Lemma add_reaction_commits message_id reaction_data current_user now w message :
  message_by_id message_id (db w) = Some message →
  db (after (add_reaction message_id reaction_data current_user now) w)
  = set_message_reactions
      (toggle_reaction message_id (User.id current_user)
         (ReactionRequest.emoji reaction_data) now (message_reactions (db w)))
      (db w).
Proof.
  intros Hfound. unfold after, add_reaction.
  rewrite bind_query, Hfound, bind_query, toggle_commit.
  match goal with
  | |- db (fst (bind ?c ?k ?w1)) = _ => change (db (after (bind c k) w1) = db w1)
  end.
  apply keeps_db_seq; [apply participants_of_keeps_db|]. intros participants.
  apply keeps_db_seq; [apply query_keeps_db|]. intros reactions.
  apply keeps_db_seq; [apply send_to_users_keeps_db|]. by intros _ w'.
Qed.

Lemma add_reaction_keeps_well_keyed message_id reaction_data current_user now w :
  reactions_well_keyed (message_reactions (db w)) →
  reactions_well_keyed
    (message_reactions
       (db (after (add_reaction message_id reaction_data current_user now) w))).
Proof.
  intros Hkeyed.
  destruct (message_by_id message_id (db w)) as [message|] eqn:Hfound.
  - rewrite (add_reaction_commits _ _ _ _ _ message Hfound).
    by apply toggle_reaction_well_keyed.
  - unfold after, add_reaction. by rewrite bind_query, Hfound.
Qed.

(** ** Access to a message (C8) *)

(** The part of the claim the code keeps: a message that does not exist is
    answered with 404, and nothing changes. *)
Lemma add_reaction_not_found message_id reaction_data current_user now w :
  message_by_id message_id (db w) = None →
  add_reaction message_id reaction_data current_user now w
  = (w, Raise (HTTPException 404 "Message not found")).
Proof. intros Hnone. unfold add_reaction. by rewrite bind_query, Hnone. Qed.

Lemma edit_message_not_found message_id message_data current_user now w :
  message_by_id message_id (db w) = None →
  edit_message message_id message_data current_user now w
  = (w, Raise (HTTPException 404 "Message not found")).
Proof. intros Hnone. unfold edit_message. by rewrite bind_query, Hnone. Qed.

Lemma delete_message_not_found message_id current_user now w :
  message_by_id message_id (db w) = None →
  delete_message message_id current_user now w
  = (w, Raise (HTTPException 404 "Message not found")).
Proof. intros Hnone. unfold delete_message. by rewrite bind_query, Hnone. Qed.

(** [get_messages] is the handler that asks for participation: a chat that
    does not exist, or that the caller takes no part in, is answered with
    404, and nothing changes. *)
Lemma get_messages_not_found chat_id current_user now w :
  (∀ c, c ∈ chats (db w) → Chat.id c = chat_id →
        Chat.user1_id c ≠ User.id current_user
        ∧ Chat.user2_id c ≠ User.id current_user) →
  get_messages chat_id current_user now w
  = (w, Raise (HTTPException 404 "Chat not found")).
Proof.
  intros Houtside. unfold get_messages. rewrite bind_query.
  destruct (first _ (chats (db w))) as [c|] eqn:Hfirst; [|done].
  apply first_some_elem in Hfirst as [Hc Hmatch].
  apply andb_true_iff in Hmatch as [Hid Hpart]. apply Z.eqb_eq in Hid.
  destruct (Houtside c Hc Hid) as [H1 H2].
  apply orb_true_iff in Hpart as [Hp|Hp]; apply Z.eqb_eq in Hp; done.
Qed.

(** C8, the code at the failing input.  User 3 takes no part in chat 7.
    Fetching its history is refused with 404 and changes nothing; reacting
    to its message is accepted: the reaction is stored, answered with
    [added], and pushed to the participants. *)
Theorem reaction_by_outsider_is_stored :
  let fetch := get_messages 7 carol 9 in
  let react := add_reaction 1 plus_one carol 9 in
  outcome fetch unseen_world = Raise (HTTPException 404 "Chat not found")
  ∧ after fetch unseen_world = unseen_world
  ∧ outcome react unseen_world
    = Ok (ReactionResult.mk "Reaction added successfully" "added"
            [MessageReactionSummary.mk "+1" 1 [3]])
  ∧ message_reactions (db (after react unseen_world))
    = [MessageReaction.mk 1 1 3 "+1" 9]
  ∧ outbox (net (after react unseen_world))
    = [(alice_socket,
        EvReaction "added" 1 7 3 "+1" [MessageReactionSummary.mk "+1" 1 [3]])].
Proof. vm_compute. done. Qed.

(** ** Friendships (C9) *)

(** What [update_friend_request] does to the friendship table: a row is
    added whenever the status submitted is ["accepted"], whatever the status
    of the request was. *)
Lemma update_friend_request_friendships request_id request_update current_user
    now w request :
  first (λ r, (FriendRequest.id r =? request_id)
              && (FriendRequest.receiver_id r =? User.id current_user))
        (friend_requests (db w)) = Some request →
  friendships (db (after (update_friend_request request_id request_update
                            current_user now) w))
  = if String.eqb (FriendRequestUpdate.status request_update) "accepted"
    then friendships (db w)
         ++ [Friendship.mk (next_id Friendship.id (friendships (db w)))
               (FriendRequest.sender_id request) (FriendRequest.receiver_id request)
               now]
    else friendships (db w).
Proof.
  intros Hfound. unfold after, update_friend_request.
  rewrite bind_query, Hfound, bind_commit.
  cbn [FriendRequest.set_status FriendRequest.status FriendRequest.sender_id
       FriendRequest.receiver_id FriendRequest.id FriendRequest.created_at].
  destruct (String.eqb (FriendRequestUpdate.status request_update) "accepted");
    unfold bind at 1; cbn [commit ret]; rewrite !bind_query;
    match goal with
    | |- context [match ?s with Some _ => _ | None => _ end] =>
        destruct s; [match goal with
                     | |- context [match ?r with Some _ => _ | None => _ end] =>
                         destruct r
                     end|]
    end; reflexivity.
Qed.

(** C9, the code at the failing input.  User 2 accepts the pending request
    of user 1, which creates their friendship, and then submits ["accepted"]
    for the same request again: a second friendship row for the same pair
    appears, although the request was accepted already. *)
Theorem accepting_twice_creates_two_friendships :
  let once := after (update_friend_request 1 accept bob 5) pending_world in
  let twice := after (update_friend_request 1 accept bob 6) once in
  map FriendRequest.status (friend_requests (db pending_world)) = ["pending"%string]
  ∧ map FriendRequest.status (friend_requests (db once)) = ["accepted"%string]
  ∧ friendships (db once) = [Friendship.mk 1 1 2 5]
  ∧ map FriendRequest.status (friend_requests (db twice)) = ["accepted"%string]
  ∧ friendships (db twice) = [Friendship.mk 1 1 2 5; Friendship.mk 2 1 2 6].
Proof. vm_compute. done. Qed.

(** The second answer of C9 changes no column of the request, which keeps
    the update time of the first; an answer that changes the status moves
    it. *)
Example repeated_answer_keeps_updated_at :
  let once := after (update_friend_request 1 accept bob 5) pending_world in
  let twice := after (update_friend_request 1 accept bob 6) once in
  map FriendRequest.updated_at (friend_requests (db pending_world)) = [0]
  ∧ map FriendRequest.updated_at (friend_requests (db once)) = [5]
  ∧ map FriendRequest.updated_at (friend_requests (db twice)) = [5].
Proof. vm_compute. done. Qed.

(** * Further properties of the code *)

(** ** websocket_manager.py: pushes and the registry *)

(** X1.  [send_to_user] never raises and never touches the database.  A user
    that is not registered is skipped; a push that succeeds adds one frame and
    leaves the registry alone; a push that fails sends nothing and removes
    that user's entry. *)
Theorem send_to_user_evicts_on_failure (user_id : Z) (ev : Event) (w : World) :
  let w' := after (send_to_user user_id ev) w in
  outcome (send_to_user user_id ev) w = Ok tt
  ∧ db w' = db w
  ∧ broken (net w') = broken (net w)
  ∧ match active_connections (manager w) !! user_id with
    | None => w' = w
    | Some websocket =>
        if bool_decide (websocket ∈ broken (net w))
        then outbox (net w') = outbox (net w)
             ∧ active_connections (manager w')
               = delete user_id (active_connections (manager w))
        else outbox (net w') = outbox (net w) ++ [(websocket, ev)]
             ∧ manager w' = manager w
    end.
Proof.
  unfold after, outcome, send_to_user.
  destruct (active_connections (manager w) !! user_id) as [ws|] eqn:Hu; [|done].
  unfold try_except, send_text. case_bool_decide; cbn; [|done].
  unfold disconnect. by rewrite Hu.
Qed.

Lemma if_bool_decide_ext {A : Type} (P Q : Prop) `{Decision P, Decision Q} (a b : A) :
  (P ↔ Q) → (if bool_decide P then a else b) = (if bool_decide Q then a else b).
Proof. intros HPQ. by rewrite (bool_decide_ext P Q HPQ). Qed.

(** The registry after a round of pushes: a listed user on a broken socket is
    gone, every other entry is as it was. *)
Lemma gather_sends_registry user_ids ev w u :
  active_connections
    (manager (after (gather (map (λ v, send_to_user v ev) user_ids)) w)) !! u
  = match active_connections (manager w) !! u with
    | Some websocket =>
        if bool_decide (u ∈ user_ids ∧ websocket ∈ broken (net w))
        then None else Some websocket
    | None => None
    end.
Proof.
  revert w. induction user_ids as [|v rest IH]; intros w.
  - unfold after. cbn. destruct (active_connections (manager w) !! u); [|done].
    rewrite bool_decide_eq_false_2; [done|]. intros [[]%elem_of_nil _].
  - unfold after in *. cbn [map gather]. rewrite IH.
    change (fst (send_to_user v ev w)) with (after (send_to_user v ev) w).
    rewrite (send_to_user_net v ev w). cbn [broken].
    unfold after, send_to_user.
    destruct (active_connections (manager w) !! v) as [wv|] eqn:Hv.
    + unfold try_except, send_text. case_bool_decide as Hb; cbn.
      * unfold disconnect. rewrite Hv. cbn.
        destruct (decide (u = v)) as [->|Hne].
        -- rewrite lookup_delete_eq, Hv.
           rewrite bool_decide_eq_true_2; [done|]. split; [apply elem_of_cons; by left|done].
        -- rewrite lookup_delete_ne by done.
           destruct (active_connections (manager w) !! u) as [wu|]; [|done].
           apply if_bool_decide_ext. rewrite elem_of_cons. tauto.
      * destruct (active_connections (manager w) !! u) as [wu|] eqn:Hu; [|done].
        apply if_bool_decide_ext. rewrite elem_of_cons.
        split; [tauto|]. intros [[->|Hin] Hbr]; [|done].
        rewrite Hv in Hu. by injection Hu as ->.
    + cbn. destruct (active_connections (manager w) !! u) as [wu|] eqn:Hu; [|done].
      apply if_bool_decide_ext. rewrite elem_of_cons.
      split; [tauto|]. intros [[->|Hin] Hbr]; [|done]. by rewrite Hv in Hu.
Qed.

Lemma send_to_users_registry user_ids ev w u :
  active_connections (manager (after (send_to_users user_ids ev) w)) !! u
  = match active_connections (manager w) !! u with
    | Some websocket =>
        if bool_decide (u ∈ user_ids ∧ websocket ∈ broken (net w))
        then None else Some websocket
    | None => None
    end.
Proof.
  unfold send_to_users.
  change (after (λ w0, gather _ w0) w) with
    (after (gather (map (λ v, send_to_user v ev)
              (List.filter
                 (λ v, bool_decide (is_Some (active_connections (manager w) !! v)))
                 user_ids))) w).
  rewrite gather_sends_registry.
  destruct (active_connections (manager w) !! u) as [wu|] eqn:Hu; [|done].
  apply if_bool_decide_ext. rewrite elem_of_List_filter.
  rewrite bool_decide_eq_true, Hu.
  split; [tauto|]. intros [? ?]. split_and!; eauto.
Qed.

(** X2.  [send_to_users] never raises and never touches the database.  It
    pushes the frame once per listed user that is registered on a working
    socket, in the order of the list, whatever happens to the others: a
    listed user whose push fails is unregistered, and every other registry
    entry stays. *)
Theorem send_to_users_recipients_are_independent
    (user_ids : list Z) (ev : Event) (w : World) :
  let w' := after (send_to_users user_ids ev) w in
  outcome (send_to_users user_ids ev) w = Ok tt
  ∧ db w' = db w
  ∧ broken (net w') = broken (net w)
  ∧ outbox (net w') = outbox (net w) ++ pushes w user_ids ev
  ∧ (∀ u websocket,
       u ∈ user_ids →
       active_connections (manager w) !! u = Some websocket →
       websocket ∉ broken (net w) →
       (websocket, ev) ∈ outbox (net w')
       ∧ active_connections (manager w') !! u = Some websocket)
  ∧ (∀ u websocket,
       u ∈ user_ids →
       active_connections (manager w) !! u = Some websocket →
       websocket ∈ broken (net w) →
       active_connections (manager w') !! u = None)
  ∧ (∀ u, u ∉ user_ids →
       active_connections (manager w') !! u = active_connections (manager w) !! u).
Proof.
  cbn zeta. rewrite send_to_users_returns, send_to_users_keeps_db, send_to_users_net.
  cbn [broken outbox]. split_and!; try done.
  - intros u ws Hin Hu Hb. split.
    + apply elem_of_app. right. by apply (pushes_reach w user_ids ev u).
    + rewrite send_to_users_registry, Hu. rewrite bool_decide_eq_false_2; [done|].
      by intros [_ ?].
  - intros u ws Hin Hu Hb. rewrite send_to_users_registry, Hu.
    by rewrite bool_decide_eq_true_2.
  - intros u Hnot. rewrite send_to_users_registry.
    destruct (active_connections (manager w) !! u); [|done].
    rewrite bool_decide_eq_false_2; [done|]. by intros [? _].
Qed.

Lemma gather_personal_messages ev (entries : list (Z * WebSocket)) w :
  gather (map (λ kv, send_personal_message ev (snd kv)) entries) w
  = (set_net (mkNet (broken (net w))
                (outbox (net w) ++ omap (broadcast_to w ev) entries)) w,
     Ok tt).
Proof.
  revert w. induction entries as [|[u ws] rest IH]; intros w.
  - cbn. rewrite app_nil_r. by destruct w as [? ? []].
  - cbn [map gather snd]. rewrite IH.
    unfold send_personal_message, try_except, send_text, broadcast_to.
    cbn [omap list_omap snd].
    case_bool_decide as Hb; cbn.
    + rewrite (omap_pointwise _ (broadcast_to w ev)); [done|].
      intros kv. unfold broadcast_to. done.
    + rewrite <- app_assoc. cbn.
      rewrite (omap_pointwise _ (broadcast_to w ev)); [done|].
      intros kv. unfold broadcast_to. done.
Qed.

(** X3.  [broadcast] never raises, never touches the database and, unlike
    [send_to_user], never unregisters anybody.  Up to order it pushes one
    frame per registry entry whose socket works: a frame is pushed to a
    socket exactly when the socket works and some user is registered on it. *)
Theorem broadcast_reaches_every_session (ev : Event) (w : World) :
  let w' := after (broadcast ev) w in
  outcome (broadcast ev) w = Ok tt
  ∧ db w' = db w
  ∧ manager w' = manager w
  ∧ broken (net w') = broken (net w)
  ∧ ∃ pushed,
      outbox (net w') = outbox (net w) ++ pushed
      ∧ pushed ≡ₚ omap (broadcast_to w ev)
                    (map_to_list (active_connections (manager w)))
      ∧ ∀ websocket ev',
          (websocket, ev') ∈ pushed
          ↔ ev' = ev ∧ (websocket ∉ broken (net w))
            ∧ ∃ u, active_connections (manager w) !! u = Some websocket.
Proof.
  cbn zeta. unfold after, outcome, broadcast. rewrite gather_personal_messages.
  cbn. split_and!; try done.
  eexists. split; [reflexivity|]. split; [reflexivity|].
  intros ws ev'. rewrite list_elem_of_omap. split.
  - intros ([u ws'] & Hin & Hpush). apply elem_of_map_to_list in Hin.
    unfold broadcast_to in Hpush. cbn in Hpush.
    case_bool_decide; [done|]. injection Hpush as -> ->. eauto.
  - intros (-> & Hworks & u & Hu). exists (u, ws).
    split; [by apply elem_of_map_to_list|].
    unfold broadcast_to. cbn. by rewrite bool_decide_eq_false_2.
Qed.

(** X4.  The views of the registry agree: [get_active_users] lists, without
    repetition, exactly the users [is_user_online] accepts.  [connect] is
    last-connect-wins and silent: the new socket takes the user's entry, the
    other users keep theirs, and nothing is sent, so a displaced socket is
    neither closed nor told. *)
Theorem registry_views_agree (websocket : WebSocket) (user_id : Z) (w : World) :
  (∀ u, u ∈ get_active_users w ↔ is_user_online u w = true)
  ∧ NoDup (get_active_users w)
  ∧ outcome (connect websocket user_id) w = Ok tt
  ∧ active_connections (manager (after (connect websocket user_id) w)) !! user_id
    = Some websocket
  ∧ (∀ u, u ≠ user_id →
       active_connections (manager (after (connect websocket user_id) w)) !! u
       = active_connections (manager w) !! u)
  ∧ net (after (connect websocket user_id) w) = net w
  ∧ db (after (connect websocket user_id) w) = db w.
Proof.
  unfold get_active_users, is_user_online, after, outcome, connect. cbn.
  split_and!; try done.
  - intros u. rewrite bool_decide_eq_true, list_elem_of_fmap. split.
    + intros ([u' ws] & -> & Hin). apply elem_of_map_to_list in Hin. by eexists.
    + intros [ws Hu]. exists (u, ws). split; [done|]. by apply elem_of_map_to_list.
  - apply NoDup_fst_map_to_list.
  - apply lookup_insert_eq.
  - intros u Hne. by apply lookup_insert_ne.
Qed.

(** ** main.py: the [message] branch of the socket handler *)







(** X7.  A frame that lacks a key the handler subscripts is refused before
    anything is stored or sent: ["content"] first, then ["chat_id"] for a
    message, ["chat_id"] for a typing indicator. *)
Theorem frame_without_key_changes_nothing
    (user_id now : Z) (message_data : MessageFrame.t) (is_typing : option bool)
    (w : World) :
  (MessageFrame.content message_data = None →
     on_message user_id message_data now w = (w, Raise (KeyError "content")))
  ∧ (MessageFrame.content message_data ≠ None →
     MessageFrame.chat_id message_data = None →
     on_message user_id message_data now w = (w, Raise (KeyError "chat_id")))
  ∧ on_typing user_id None is_typing w = (w, Raise (KeyError "chat_id")).
Proof.
  split_and!; [intros Hc|intros Hc Hi|done];
    unfold on_message, persist_message.
  - by rewrite Hc.
  - destruct (MessageFrame.content message_data) as [content|]; [|done].
    by rewrite Hi.
Qed.

(** X7, witness: the frame [{"type": "message", "chat_id": 7}]. *)
Lemma frame_without_key_changes_nothing_witness :
  on_message 1 (MessageFrame.mk None (Some 7) None None None) 9 bob_online
  = (bob_online, Raise (KeyError "content")).
Proof.
  exact (proj1 (frame_without_key_changes_nothing 1 9
                  (MessageFrame.mk None (Some 7) None None None) None bob_online)
           eq_refl).
Defined.

(** ** main.py: the rest of the socket handler *)






Lemma send_to_user_run user_id ev w :
  send_to_user user_id ev w = (after (send_to_user user_id ev) w, Ok tt).
Proof.
  unfold after, send_to_user.
  destruct (active_connections (manager w) !! user_id) as [ws|]; [|done].
  unfold try_except, send_text. case_bool_decide; cbn; [|done].
  unfold disconnect. by destruct (active_connections (manager w) !! user_id).
Qed.

(** X10.  A typing indicator is not stored.  It is pushed to one user, the
    participant of the chat that [chat.user2_id if chat.user1_id == user_id
    else chat.user1_id] picks: never the sender in a chat of two different
    users, and the chat's first user when the sender is no participant at
    all, for whom the handler does not check. *)
Theorem typing_goes_to_the_other_participant
    (user_id chat_id : Z) (typing : bool) (c : Chat.t) (w : World) :
  chat_by_id chat_id (db w) = Some c →
  let run := on_typing user_id (Some chat_id) (Some typing) in
  let peer := other_participant user_id c in
  outcome run w = Ok tt
  ∧ db (after run w) = db w
  ∧ outbox (net (after run w))
    = outbox (net w)
      ++ option_list (pushed_to w (EvTyping user_id chat_id typing) peer)
  ∧ (Chat.user1_id c ≠ Chat.user2_id c → peer ≠ user_id)
  ∧ (Chat.user1_id c ≠ user_id → peer = Chat.user1_id c).
Proof.
  intros Hchat run peer.
  assert (run w = (after (send_to_user peer (EvTyping user_id chat_id typing)) w, Ok tt))
    as Hrun.
  { unfold run, on_typing. cbn [item]. rewrite bind_ret, bind_query, Hchat, bind_ret.
    apply send_to_user_run. }
  unfold outcome, after at 1 2. rewrite Hrun. cbn [fst snd].
  rewrite send_to_user_keeps_db, send_to_user_net. cbn [outbox].
  split_and!; try done; unfold peer, other_participant.
  - intros Hdiff. destruct (Chat.user1_id c =? user_id) eqn:H1.
    + apply Z.eqb_eq in H1. congruence.
    + by apply Z.eqb_neq in H1.
  - intros Hne. apply Z.eqb_neq in Hne. by rewrite Hne.
Qed.

(** X10, witness: user 3, who is not in chat 7, "types" into it. *)
Lemma typing_goes_to_the_other_participant_witness :
  chat_by_id 7 (db unseen_world) = Some chat_1_2
  ∧ outbox (net (after (on_typing 3 (Some 7) (Some true)) unseen_world))
    = [(alice_socket, EvTyping 3 7 true)]
  ∧ db (after (on_typing 3 (Some 7) (Some true)) unseen_world) = db unseen_world.
Proof.
  assert (chat_by_id 7 (db unseen_world) = Some chat_1_2) as Hchat by reflexivity.
  pose proof (typing_goes_to_the_other_participant 3 7 true chat_1_2 unseen_world
                Hchat) as (_ & Hdb & Hout & _).
  split_and!; [exact Hchat|exact Hout|exact Hdb].
Defined.

(** ** main.py: [get_messages] *)

(** X11.  What a fetch writes.  For a participant of the chat, on a message
    table with unique keys: every message of that chat that the viewer did
    not send and that is not yet [seen] becomes [seen], stamped with the time
    of the fetch; every other row of the table, whatever its chat, is left as
    it was; the registry and the transport are not touched. *)
Theorem fetch_marks_exactly_the_unseen_messages
    (chat_id : Z) (current_user : User.t) (now : Z) (w : World) :
  unique_ids Message.id (messages (db w)) →
  participates (User.id current_user) chat_id (db w) →
  let w' := after (get_messages chat_id current_user now) w in
  messages (db w')
  = map (λ m, if (Message.chat_id m =? chat_id)
                 && negb (Message.sender_id m =? User.id current_user)
                 && negb (String.eqb (Message.status m) "seen")
              then Message.mark_seen now m else m)
        (messages (db w))
  ∧ unique_ids Message.id (messages (db w'))
  ∧ net w' = net w
  ∧ manager w' = manager w.
Proof.
  intros Hnd Hpart w'.
  destruct (get_messages_marks_then_fails chat_id current_user now w Hnd Hpart)
    as (Hdb & Hnet & Hmgr & _).
  unfold w'. rewrite Hdb, Hnet, Hmgr. cbn [messages set_messages].
  assert (∀ m, seen_by chat_id (User.id current_user) now m
               = if (Message.chat_id m =? chat_id)
                    && negb (Message.sender_id m =? User.id current_user)
                    && negb (String.eqb (Message.status m) "seen")
                 then Message.mark_seen now m else m) as Hseen.
  { intros m. unfold seen_by, unseen_by. by rewrite andb_assoc. }
  split_and!; try done.
  - apply map_ext. intros m. apply Hseen.
  - unfold unique_ids in *. rewrite map_map.
    erewrite map_ext; [exact Hnd|]. intros m. cbn. unfold seen_by.
    by destruct (_ && _).
Qed.

(** X11, witness: user 2 fetches chat 7, which holds one message of user 1. *)
Lemma fetch_marks_exactly_the_unseen_messages_witness :
  unique_ids Message.id (messages (db unseen_world))
  ∧ participates (User.id bob) 7 (db unseen_world)
  ∧ messages (db (after (get_messages 7 bob 9) unseen_world))
    = [Message.mark_seen 9 hi_message].
Proof.
  assert (unique_ids Message.id (messages (db unseen_world))) as Hnd.
  { apply NoDup_singleton. }
  assert (participates (User.id bob) 7 (db unseen_world)) as Hpart.
  { exists chat_1_2. split_and!; [apply elem_of_cons; by left|reflexivity|by right]. }
  split_and!; [exact Hnd|exact Hpart|].
  exact (proj1 (fetch_marks_exactly_the_unseen_messages 7 bob 9 unseen_world
                  Hnd Hpart)).
Defined.

Lemma length_filter_map {A : Type} (p : A → bool) (f : A → A) (l : list A) :
  (∀ x, p (f x) = p x) → length (List.filter p (map f l)) = length (List.filter p l).
Proof.
  intros Hp. induction l as [|x l IH]; [done|].
  cbn. rewrite Hp. destruct (p x); cbn; by rewrite IH.
Qed.

(** X12.  After a participant has fetched a chat, that chat has no unread
    message for them: the count [get_chats] computes is zero, although the
    request itself may have failed; the counts of every other chat, for every
    user, are what they were. *)
Theorem fetch_clears_the_unread_count
    (chat_id : Z) (current_user : User.t) (now : Z) (w : World) :
  unique_ids Message.id (messages (db w)) →
  participates (User.id current_user) chat_id (db w) →
  let w' := after (get_messages chat_id current_user now) w in
  unread_count chat_id (User.id current_user) (db w') = 0
  ∧ ∀ other_chat user_id,
      other_chat ≠ chat_id →
      unread_count other_chat user_id (db w') = unread_count other_chat user_id (db w).
Proof.
  intros Hnd Hpart w'.
  destruct (get_messages_marks_then_fails chat_id current_user now w Hnd Hpart)
    as (Hdb & _).
  unfold w', unread_count. rewrite Hdb. cbn [messages set_messages]. split.
  - rewrite (proj2 (List.length_zero_iff_nil _)); [done|].
    apply elem_of_nil_inv. intros m.
    rewrite elem_of_List_filter, list_elem_of_fmap.
    intros [(m0 & -> & _) Hcount]. revert Hcount. unfold seen_by, unseen_by.
    destruct (Message.chat_id m0 =? chat_id) eqn:Hc;
      destruct (Message.sender_id m0 =? User.id current_user) eqn:Hs;
      destruct (String.eqb (Message.status m0) "seen") eqn:Hst;
      cbn; rewrite ?Hc, ?Hs, ?Hst; cbn; done.
  - intros other_chat user_id Hne. f_equal. apply length_filter_map.
    intros m. unfold seen_by.
    destruct (Message.chat_id m =? chat_id) eqn:Hc; cbn; [|done].
    destruct (unseen_by (User.id current_user) m); [|done].
    cbn. apply Z.eqb_eq in Hc. rewrite Hc.
    apply Z.eqb_neq in Hne. by rewrite Z.eqb_sym, Hne.
Qed.

(** X12, witness: user 2 has one unread message in chat 7 and fetches it. *)
Lemma fetch_clears_the_unread_count_witness :
  unread_count 7 (User.id bob) (db unseen_world) = 1
  ∧ unread_count 7 (User.id bob) (db (after (get_messages 7 bob 9) unseen_world)) = 0.
Proof.
  assert (unique_ids Message.id (messages (db unseen_world))) as Hnd.
  { apply NoDup_singleton. }
  assert (participates (User.id bob) 7 (db unseen_world)) as Hpart.
  { exists chat_1_2. split_and!; [apply elem_of_cons; by left|reflexivity|by right]. }
  split; [reflexivity|].
  exact (proj1 (fetch_clears_the_unread_count 7 bob 9 unseen_world Hnd Hpart)).
Defined.

(** Building one response reads the tables and fails only on a null content. *)
Lemma message_response_spec m w :
  message_response m w
  = (w, match rendered (db w) m with
        | Some r => Ok r
        | None => Raise (ValidationError "content")
        end).
Proof.
  unfold message_response, rendered. rewrite !bind_query.
  unfold MessageResponse.validate. by destruct (Message.content m).
Qed.

Lemma map_M_message_response_ok ms w :
  (∀ m, m ∈ ms → Message.content m ≠ None) →
  ∃ rs, map_M message_response ms w = (w, Ok rs)
        ∧ Forall2 (λ m r, rendered (db w) m = Some r) ms rs.
Proof.
  induction ms as [|m ms IH]; intros Hc.
  - exists []. split; [done|constructor].
  - destruct IH as (rs & Hrs & Hall).
    { intros m' Hm'. apply Hc, elem_of_cons. by right. }
    assert (Message.content m ≠ None) as Hm by (apply Hc, elem_of_cons; by left).
    destruct (rendered (db w) m) as [r|] eqn:Hr.
    2:{ unfold rendered in Hr. by destruct (Message.content m). }
    exists (r :: rs). split; [|by constructor].
    cbn [map_M]. unfold bind at 1. rewrite message_response_spec, Hr.
    unfold bind at 1. by rewrite Hrs.
Qed.

Lemma map_M_message_response_raises ms w :
  (∃ m, m ∈ ms ∧ Message.content m = None) →
  map_M message_response ms w = (w, Raise (ValidationError "content")).
Proof.
  induction ms as [|m ms IH]; intros (m' & Hm' & Hnone).
  - by apply elem_of_nil in Hm'.
  - cbn [map_M]. unfold bind at 1. rewrite message_response_spec.
    destruct (rendered (db w) m) as [r|] eqn:Hr; [|done].
    apply elem_of_cons in Hm' as [->|Hm'].
    { unfold rendered in Hr. by rewrite Hnone in Hr. }
    unfold bind at 1. rewrite IH; [done|eauto].
Qed.

Lemma insert_by_created_at_perm m l : insert_by_created_at m l ≡ₚ m :: l.
Proof.
  induction l as [|x l IH]; [done|]. cbn.
  destruct (_ <=? _); [done|]. rewrite IH. apply Permutation_swap.
Qed.

Lemma order_by_created_at_perm rows : order_by_created_at rows ≡ₚ rows.
Proof.
  induction rows as [|m rows IH]; [done|].
  cbn. rewrite insert_by_created_at_perm. by rewrite IH.
Qed.

Lemma insert_by_created_at_sorted m l :
  StronglySorted (λ a b, Message.created_at a ≤ Message.created_at b) l →
  StronglySorted (λ a b, Message.created_at a ≤ Message.created_at b)
    (insert_by_created_at m l).
Proof.
  induction 1 as [|x l Hl IH Hx]; cbn.
  - repeat constructor.
  - destruct (Message.created_at m <=? Message.created_at x) eqn:Hle.
    + apply Z.leb_le in Hle. constructor; [by constructor|].
      constructor; [done|]. eapply Forall_impl; [exact Hx|]. cbn. intros; lia.
    + apply Z.leb_gt in Hle. constructor; [done|].
      rewrite insert_by_created_at_perm. constructor; [lia|done].
Qed.

Lemma order_by_created_at_sorted rows :
  StronglySorted (λ a b, Message.created_at a ≤ Message.created_at b)
    (order_by_created_at rows).
Proof.
  induction rows as [|m rows IH]; [constructor|].
  by apply insert_by_created_at_sorted.
Qed.

Lemma get_messages_nothing_to_mark chat_id current_user now w :
  participates (User.id current_user) chat_id (db w) →
  (∀ m, m ∈ messages (db w) → Message.chat_id m = chat_id →
        unseen_by (User.id current_user) m = false) →
  get_messages chat_id current_user now w
  = map_M message_response (order_by_created_at (messages_of chat_id (db w))) w.
Proof.
  intros (c & Hc & Hid & Hpart) Hseen.
  unfold get_messages. rewrite bind_query.
  destruct (first _ (chats (db w))) as [c'|] eqn:Hfirst.
  2:{ exfalso. apply list_elem_of_In in Hc.
      apply (find_none _ _ Hfirst) in Hc. simpl in Hc.
      rewrite Hid, Z.eqb_refl in Hc. simpl in Hc.
      destruct Hpart as [H|H]; rewrite H, Z.eqb_refl in Hc; simpl in Hc;
        [done|by rewrite orb_true_r in Hc]. }
  rewrite bind_query. cbv zeta. fold (messages_of chat_id (db w)).
  assert (∀ m, m ∈ order_by_created_at (messages_of chat_id (db w)) →
               unseen_by (User.id current_user) m = false) as Hrows.
  { intros m. rewrite order_by_created_at_perm. unfold messages_of.
    rewrite elem_of_List_filter. intros [Hm Hchat].
    apply Hseen; [done|by apply Z.eqb_eq]. }
  assert (List.filter (unseen_by (User.id current_user))
            (order_by_created_at (messages_of chat_id (db w))) = []) as ->.
  { apply elem_of_nil_inv. intros m. rewrite elem_of_List_filter.
    intros [Hm Hu]. apply Hrows in Hm. congruence. }
  cbn [map]. rewrite bind_ret. f_equal.
  rewrite <- (map_id (order_by_created_at _)) at 2.
  apply map_ext_in. intros m Hm. apply list_elem_of_In in Hm.
  by rewrite (Hrows m Hm).
Qed.

Lemma rendered_sorted d rows history :
  Forall2 (λ m r, rendered d m = Some r) rows history →
  StronglySorted (λ a b, Message.created_at a ≤ Message.created_at b) rows →
  StronglySorted
    (λ a b, MessageResponse.created_at a ≤ MessageResponse.created_at b) history.
Proof.
  induction 1 as [|m r ms rs Hr Hall IH]; [constructor|].
  intros Hs. apply StronglySorted_inv in Hs as [Hs Hm].
  constructor; [by apply IH|].
  clear IH Hs. induction Hall as [|m' r' ms' rs' Hr' Hall' IH']; [constructor|].
  apply Forall_cons in Hm as [Hle Hm]. constructor; [|by apply IH'].
  unfold rendered in Hr, Hr'.
  destruct (Message.content m); [|done]. destruct (Message.content m'); [|done].
  injection Hr as <-. injection Hr' as <-. done.
Qed.

(** A response the loop of [get_messages] builds shows its row. *)
Lemma rendered_shows d m r : rendered d m = Some r → shows d m r.
Proof.
  unfold rendered, shows. destruct (Message.content m) as [text|]; [|done].
  intros [= <-]. cbn.
  split_and!; try reflexivity;
    first [ apply formatted_reactions_summarises
          | unfold reply_preview;
            destruct (Message.reply_to_message_id m) as [replied|]; [|reflexivity];
            destruct (replied =? 0); [reflexivity|];
            by destruct (message_by_id replied d) ].
Qed.

(** X13.  The history.  When the viewer takes part in the chat, has nothing
    left to mark in it and every message of the chat has a text, the fetch
    changes nothing and returns one response per message of the chat and no
    other, in ascending order of creation time.  Each response shows its
    row: the columns of the message, the attachments stored for that
    message and no other, a preview of the message it replies to when that
    message is stored, and the aggregation of the reactions to that message
    and no other. *)
Theorem history_is_complete_and_ordered
    (chat_id : Z) (current_user : User.t) (now : Z) (w : World) :
  participates (User.id current_user) chat_id (db w) →
  (∀ m, m ∈ messages (db w) → Message.chat_id m = chat_id →
        unseen_by (User.id current_user) m = false) →
  (∀ m, m ∈ messages (db w) → Message.chat_id m = chat_id →
        Message.content m ≠ None) →
  ∃ rows history,
    get_messages chat_id current_user now w = (w, Ok history)
    ∧ rows ≡ₚ List.filter (λ m, Message.chat_id m =? chat_id) (messages (db w))
    ∧ Forall2 (shows (db w)) rows history
    ∧ StronglySorted
        (λ a b, MessageResponse.created_at a ≤ MessageResponse.created_at b)
        history.
Proof.
  intros Hpart Hseen Htext.
  destruct (map_M_message_response_ok
              (order_by_created_at (messages_of chat_id (db w))) w)
    as (history & Hrun & Hall).
  { intros m. rewrite order_by_created_at_perm. unfold messages_of.
    rewrite elem_of_List_filter. intros [Hm Hchat].
    apply Htext; [done|by apply Z.eqb_eq]. }
  exists (order_by_created_at (messages_of chat_id (db w))), history.
  split_and!.
  - by rewrite get_messages_nothing_to_mark.
  - apply order_by_created_at_perm.
  - eapply Forall2_impl; [exact Hall|]. intros m r. apply rendered_shows.
  - eapply rendered_sorted; [exact Hall|apply order_by_created_at_sorted].
Qed.

(** X13, witness: user 1 fetches chat 7, which holds their message and the
    answer of user 2, with its attachment, and reactions to both. *)
Lemma history_is_complete_and_ordered_witness :
  participates (User.id alice) 7 (db thread_world)
  ∧ ∃ rows history,
      get_messages 7 alice 9 thread_world = (thread_world, Ok history)
      ∧ rows ≡ₚ [hi_message; reply_message]
      ∧ Forall2 (shows (db thread_world)) rows history
      ∧ StronglySorted
          (λ a b, MessageResponse.created_at a ≤ MessageResponse.created_at b)
          history.
Proof.
  assert (participates (User.id alice) 7 (db thread_world)) as Hpart.
  { exists chat_1_2. split_and!; [apply elem_of_cons; by left|reflexivity|by left]. }
  assert (∀ m, m ∈ messages (db thread_world) → Message.chat_id m = 7 →
               unseen_by (User.id alice) m = false) as Hseen.
  { intros m Hm _. apply elem_of_cons in Hm as [->|Hm]; [reflexivity|].
    apply list_elem_of_singleton in Hm as ->. reflexivity. }
  assert (∀ m, m ∈ messages (db thread_world) → Message.chat_id m = 7 →
               Message.content m ≠ None) as Htext.
  { intros m Hm _. apply elem_of_cons in Hm as [->|Hm]; [discriminate|].
    apply list_elem_of_singleton in Hm as ->. discriminate. }
  split; [exact Hpart|].
  exact (history_is_complete_and_ordered 7 alice 9 thread_world Hpart Hseen Htext).
Defined.

(** The history of that chat, as it is returned: the answer of user 2 comes
    with its attachment, the preview of the message it answers and its own
    two reactions; the reaction to the first message stays with the first
    message. *)
Example thread_history :
  outcome (get_messages 7 alice 9) thread_world
  = Ok [MessageResponse.mk 1 "hi" 1 7 "text" false false "sent" None None []
          [MessageReactionSummary.mk "heart" 1 [2]];
        MessageResponse.mk 2 "yo" 2 8 "text" false false "seen" (Some 1)
          (Some (ReplyPreview.mk 1 (Some "hi"%string) 1 7 "text" false))
          [AttachmentInfo.mk (Some 1) "a.png" "/uploads/a.png" "image/png" 100]
          [MessageReactionSummary.mk "+1" 2 [1; 2]]].
Proof. reflexivity. Qed.

(** The answer to a reaction aggregates the reactions to that message only. *)
Example reaction_summary_is_per_message :
  ReactionResult.reactions
  <$> match outcome (add_reaction 1 plus_one alice 10) thread_world with
      | Ok result => Some result
      | Raise _ => None
      end
  = Some [MessageReactionSummary.mk "heart" 1 [2]; MessageReactionSummary.mk "+1" 1 [1]].
Proof. reflexivity. Qed.

(** X14.  A chat that holds a message without text cannot be listed: once
    the viewer has nothing left to mark, the fetch fails on the validation
    of [MessageResponse.content] and returns no message at all, whatever
    else the chat holds.  Nothing is written. *)
Theorem history_fails_on_a_message_without_text
    (chat_id : Z) (current_user : User.t) (now : Z) (w : World) (m : Message.t) :
  participates (User.id current_user) chat_id (db w) →
  (∀ m, m ∈ messages (db w) → Message.chat_id m = chat_id →
        unseen_by (User.id current_user) m = false) →
  m ∈ messages (db w) →
  Message.chat_id m = chat_id →
  Message.content m = None →
  get_messages chat_id current_user now w = (w, Raise (ValidationError "content")).
Proof.
  intros Hpart Hseen Hm Hchat Hnone.
  rewrite get_messages_nothing_to_mark by done.
  apply map_M_message_response_raises. exists m. split; [|done].
  rewrite order_by_created_at_perm. unfold messages_of.
  apply elem_of_List_filter. split; [done|by apply Z.eqb_eq].
Qed.

(** X14, witness: chat 7 holds a text and an image without text, both sent
    by user 1, who fetches the chat. *)
Lemma history_fails_on_a_message_without_text_witness :
  image_message ∈ messages (db image_world)
  ∧ Message.content hi_message = Some "hi"%string
  ∧ get_messages 7 alice 9 image_world
    = (image_world, Raise (ValidationError "content")).
Proof.
  assert (participates (User.id alice) 7 (db image_world)) as Hpart.
  { exists chat_1_2. split_and!; [apply elem_of_cons; by left|reflexivity|by left]. }
  assert (∀ m, m ∈ messages (db image_world) → Message.chat_id m = 7 →
               unseen_by (User.id alice) m = false) as Hseen.
  { intros m Hm _. apply elem_of_cons in Hm as [->|Hm]; [reflexivity|].
    apply list_elem_of_singleton in Hm as ->. reflexivity. }
  assert (image_message ∈ messages (db image_world)) as Hm.
  { apply elem_of_cons. right. apply elem_of_cons. by left. }
  split_and!; [exact Hm|reflexivity|].
  exact (history_fails_on_a_message_without_text 7 alice 9 image_world image_message
           Hpart Hseen Hm eq_refl eq_refl).
Defined.

(** ** main.py: [delete_message] and [edit_message] *)

(** X15.  Deleting a stored message whose chat exists.  By the sender: the
    request succeeds, the row stays in the table with the deleted flag and
    the tombstone text in place of its content, no other message changes,
    the attachments and the reactions of the message are kept as they are,
    and one [message_deleted] frame is pushed to the two participants.  By
    anybody else: 403, and nothing changes at all. *)
Theorem delete_is_reserved_to_the_sender
    (message_id : Z) (current_user : User.t) (now : Z) (w : World)
    (message : Message.t) (c : Chat.t) :
  message_by_id message_id (db w) = Some message →
  chat_by_id (Message.chat_id message) (db w) = Some c →
  let run := delete_message message_id current_user now in
  let frame :=
    EvMessageDeleted message_id (Message.chat_id message) (User.id current_user) in
  (Message.sender_id message = User.id current_user →
     outcome run w = Ok "Message deleted successfully"%string
     ∧ (∃ stored,
          message_by_id message_id (db (after run w)) = Some stored
          ∧ Message.is_deleted stored = true
          ∧ Message.content stored = Some "This message was deleted"%string
          ∧ Message.sender_id stored = Message.sender_id message
          ∧ Message.chat_id stored = Message.chat_id message
          ∧ Message.status stored = Message.status message
          ∧ Message.is_edited stored = Message.is_edited message
          ∧ Message.created_at stored = Message.created_at message)
     ∧ (∀ other, other ≠ message_id →
          message_by_id other (db (after run w)) = message_by_id other (db w))
     ∧ attachments (db (after run w)) = attachments (db w)
     ∧ message_reactions (db (after run w)) = message_reactions (db w)
     ∧ outbox (net (after run w))
       = outbox (net w) ++ pushes w [Chat.user1_id c; Chat.user2_id c] frame)
  ∧ (Message.sender_id message ≠ User.id current_user →
       run w = (w, Raise (HTTPException 403 "You can only delete your own messages"))).
Proof.
  intros Hfound Hchat run frame. split.
  - intros Hsender.
    destruct (message_by_id_found _ _ _ Hfound) as [Hid _].
    unfold run, outcome, after, delete_message.
    rewrite bind_query, Hfound, Hsender, Z.eqb_refl. cbn [negb].
    rewrite (bind_ok _ _ _ _ _ (participants_of_found _ c w Hchat)), bind_commit.
    destruct (send_to_users_spec [Chat.user1_id c; Chat.user2_id c] frame
                (set_db (write_messages [Message.soft_delete now message] (db w)) w))
      as (w' & Hsend & Hdb & Hnet).
    unfold bind. fold frame. rewrite Hsend. cbn. rewrite Hdb, Hnet.
    cbn [db set_db outbox].
    split_and!; try done.
    + exists (Message.soft_delete now message). split; [|done].
      rewrite message_by_id_written. cbn. by rewrite Hid, Z.eqb_refl, Hfound.
    + intros other Hother. rewrite message_by_id_written. cbn. rewrite Hid.
      apply Z.eqb_neq in Hother. by rewrite Hother.
  - intros Hother. apply Z.eqb_neq in Hother.
    unfold run, delete_message.
    by rewrite bind_query, Hfound, Hother.
Qed.

(** X15, witness: user 1 deletes their message of the sample chat. *)
Lemma delete_is_reserved_to_the_sender_witness :
  message_by_id 1 (db unseen_world) = Some hi_message
  ∧ chat_by_id (Message.chat_id hi_message) (db unseen_world) = Some chat_1_2
  ∧ Message.sender_id hi_message = User.id alice
  ∧ outcome (delete_message 1 alice 9) unseen_world
    = Ok "Message deleted successfully"%string.
Proof.
  split_and!; [reflexivity..|].
  exact (proj1 (proj1 (delete_is_reserved_to_the_sender 1 alice 9
                         unseen_world hi_message chat_1_2 eq_refl eq_refl)
                  eq_refl)).
Defined.



(** ** main.py: [add_reaction] and the aggregation of reactions *)

Lemma at_most_one_row_per_key {A K : Type} (key : A → K) (p : A → bool) (k : K)
    (rows : list A) :
  (∀ x, p x = true → key x = k) →
  NoDup (map key rows) →
  (length (List.filter p rows) ≤ 1)%nat.
Proof.
  intros Hp. induction rows as [|r rows IH]; [cbn; lia|].
  cbn [map]. intros [Hr Hnd]%NoDup_cons. cbn [List.filter].
  destruct (p r) eqn:Hpr; [|by apply IH].
  assert (List.filter p rows = []) as ->; [|cbn; lia].
  apply elem_of_nil_inv. intros x [Hx Hpx]%elem_of_List_filter.
  apply Hr, list_elem_of_fmap. exists x. split; [|done].
  by rewrite (Hp r Hpr), (Hp x Hpx).
Qed.

(** X17.  One reaction per user, emoji and message.  If the reaction table
    has unique keys and no triple twice, it still has after any sequence of
    reaction requests, whoever sends them, for whatever message and emoji,
    and whether they succeed or fail; so no user ever holds two reactions
    with the same emoji on one message. *)
Theorem reactions_stay_well_keyed (calls : list ReactionCall) (w : World) :
  reactions_well_keyed (message_reactions (db w)) →
  reactions_well_keyed (message_reactions (db (add_reactions calls w)))
  ∧ ∀ message_id user_id emoji,
      (length (List.filter (same_reaction message_id user_id emoji)
                 (message_reactions (db (add_reactions calls w)))) ≤ 1)%nat.
Proof.
  intros Hkeyed.
  assert (reactions_well_keyed (message_reactions (db (add_reactions calls w))))
    as Hafter.
  { unfold add_reactions. revert w Hkeyed.
    induction calls as [|c calls IH]; intros w Hkeyed; [done|].
    cbn [fold_left]. by apply IH, add_reaction_keeps_well_keyed. }
  split; [done|]. intros message_id user_id emoji.
  apply (at_most_one_row_per_key reaction_key _ (message_id, user_id, emoji)).
  - intros x. apply same_reaction_key.
  - apply Hafter.
Qed.

(** X17, witness: users 1 and 2 react to message 1, user 1 twice and once to
    a message that does not exist. *)
Lemma reactions_stay_well_keyed_witness :
  reactions_well_keyed (message_reactions (db unseen_world))
  ∧ reactions_well_keyed
      (message_reactions
         (db (add_reactions
                [mkReactionCall 1 "+1" alice 8; mkReactionCall 1 "+1" bob 9;
                 mkReactionCall 5 "+1" alice 10; mkReactionCall 1 "+1" alice 11]
                unseen_world))).
Proof.
  assert (reactions_well_keyed (message_reactions (db unseen_world))) as Hkeyed.
  { split; apply NoDup_nil_2. }
  split; [exact Hkeyed|].
  exact (proj1 (reactions_stay_well_keyed _ unseen_world Hkeyed)).
Defined.

Lemma total_count_group_append emoji user_id groups :
  foldr (λ g n, Z.of_nat (length (snd g)) + n) 0 (group_append emoji user_id groups)
  = 1 + foldr (λ g n, Z.of_nat (length (snd g)) + n) 0 groups.
Proof.
  induction groups as [|[k us] rest IH]; [done|].
  cbn [group_append]. destruct (String.eqb k emoji); cbn [foldr snd].
  - rewrite length_app. cbn. lia.
  - rewrite IH. lia.
Qed.

Lemma total_count_fold reactions groups :
  foldr (λ g n, Z.of_nat (length (snd g)) + n) 0
    (fold_left (λ g r, group_append (MessageReaction.emoji r)
                         (MessageReaction.user_id r) g)
               reactions groups)
  = foldr (λ g n, Z.of_nat (length (snd g)) + n) 0 groups
    + Z.of_nat (length reactions).
Proof.
  revert groups. induction reactions as [|r rest IH]; intros groups.
  - cbn. lia.
  - cbn [fold_left]. rewrite IH, total_count_group_append. cbn [length]. lia.
Qed.

(** X18.  The aggregation of reactions loses and invents nothing: the
    summary has one entry per emoji, no emoji twice; every entry counts at
    least one user, and exactly the users it lists; and the counts add up to
    the number of reaction rows. *)
Theorem reaction_summary_accounts_for_every_row (reactions : list MessageReaction.t) :
  let summary := formatted_reactions reactions in
  NoDup (map MessageReactionSummary.emoji summary)
  ∧ (∀ s, s ∈ summary →
       0 < MessageReactionSummary.count s
       ∧ MessageReactionSummary.count s
         = Z.of_nat (length (MessageReactionSummary.users s))
       ∧ MessageReactionSummary.users s
         = users_of (MessageReactionSummary.emoji s) reactions)
  ∧ total_count summary = Z.of_nat (length reactions).
Proof.
  intros summary. split_and!.
  - unfold summary, formatted_reactions. rewrite map_map. cbn.
    apply (reaction_groups_NoDup reactions []), NoDup_nil_2.
  - intros [e n us] Hs. apply formatted_reactions_spec in Hs as (-> & Hne & ->).
    cbn. split_and!; [|done..].
    destruct (users_of e reactions); [done|cbn; lia].
  - unfold summary, total_count, formatted_reactions, reaction_groups.
    pose proof (total_count_fold reactions []) as Htotal.
    cbn [foldr] in Htotal. rewrite Z.add_0_l in Htotal.
    rewrite <- Htotal. generalize (fold_left
      (λ g r, group_append (MessageReaction.emoji r) (MessageReaction.user_id r) g)
      reactions []) as groups.
    induction groups as [|g groups IH]; [done|]. cbn. by rewrite IH.
Qed.



(** ** main.py: [update_friend_request] and [get_friends] *)



(** What [update_friend_request] commits, whatever it answers. *)
Lemma update_friend_request_db request_id request_update current_user now w request :
  first (λ r, (FriendRequest.id r =? request_id)
              && (FriendRequest.receiver_id r =? User.id current_user))
        (friend_requests (db w)) = Some request →
  db (after (update_friend_request request_id request_update current_user now) w)
  = set_friendships
      (if String.eqb (FriendRequestUpdate.status request_update) "accepted"
       then friendships (db w)
            ++ [new_friendship (FriendRequest.sender_id request)
                  (FriendRequest.receiver_id request) now (friendships (db w))]
       else friendships (db w))
      (set_friend_requests
         (update_row FriendRequest.id
            (FriendRequest.set_status (FriendRequestUpdate.status request_update)
               now request)
            (friend_requests (db w)))
         (db w)).
Proof.
  intros Hfound. unfold after, update_friend_request.
  rewrite bind_query, Hfound, bind_commit.
  cbn [FriendRequest.set_status FriendRequest.status FriendRequest.sender_id
       FriendRequest.receiver_id FriendRequest.id FriendRequest.created_at].
  destruct (String.eqb (FriendRequestUpdate.status request_update) "accepted");
    unfold bind at 1; cbn [commit ret]; rewrite !bind_query;
    match goal with
    | |- context [match ?s with Some _ => _ | None => _ end] =>
        destruct s; [match goal with
                     | |- context [match ?r with Some _ => _ | None => _ end] =>
                         destruct r
                     end|]
    end; cbn; by destruct (db w).
Qed.



Lemma map_M_reads {A B : Type} (f : A → M B) (g : DB → A → result B) :
  (∀ x w, f x w = (w, g (db w) x)) →
  ∀ xs w, map_M f xs w = (w, collect (g (db w)) xs).
Proof.
  intros Hf xs w. induction xs as [|x xs IH]; [done|].
  cbn [map_M collect]. unfold bind at 1. rewrite Hf.
  destruct (g (db w) x) as [y|e]; [|done].
  unfold bind at 1. rewrite IH. by destruct (collect (g (db w)) xs).
Qed.

Lemma collect_snoc {A B : Type} (g : A → result B) xs x ys y :
  collect g xs = Ok ys → g x = Ok y → collect g (xs ++ [x]) = Ok (ys ++ [y]).
Proof.
  revert ys. induction xs as [|x' xs IH]; intros ys Hxs Hx; cbn in *.
  - injection Hxs as <-. by rewrite Hx.
  - destruct (g x') as [y'|]; [|done].
    destruct (collect g xs) as [ys'|] eqn:Hrest; [|done].
    injection Hxs as <-. by rewrite (IH ys' eq_refl Hx).
Qed.

Lemma collect_ext {A B : Type} (g g' : A → result B) xs :
  (∀ x, g x = g' x) → collect g xs = collect g' xs.
Proof.
  intros Hg. induction xs as [|x xs IH]; [done|]. cbn. by rewrite Hg, IH.
Qed.

Lemma get_friends_reads user w :
  get_friends user w
  = (w, collect (friend_entry (User.id user) (db w))
          (friendships_of (User.id user) (db w))).
Proof.
  unfold get_friends. rewrite bind_query.
  apply (map_M_reads _ (friend_entry (User.id user))).
  intros f w0. unfold friendship_response, friend_entry.
  rewrite bind_query. by destruct (user_by_id _ (db w0)).
Qed.

(** X22.  An accepted request makes the two users friends of each other.
    When the receiver of a request between two different users answers
    ["accepted"], the friend list of either of the two, if it could be
    served before, is served afterwards with one more entry at its end: the
    other user, under the id of the new friendship and with the time of the
    answer. *)
Theorem accepted_request_shows_in_both_friend_lists
    (request_id : Z) (request_update : FriendRequestUpdate.t)
    (current_user user friend : User.t) (now : Z) (w : World)
    (request : FriendRequest.t) (before : list FriendshipResponse.t) :
  request_for request_id (User.id current_user) (db w) = Some request →
  FriendRequestUpdate.status request_update = "accepted"%string →
  FriendRequest.sender_id request ≠ FriendRequest.receiver_id request →
  User.id user = FriendRequest.sender_id request
  ∨ User.id user = FriendRequest.receiver_id request →
  user_by_id (if User.id user =? FriendRequest.sender_id request
              then FriendRequest.receiver_id request
              else FriendRequest.sender_id request) (db w) = Some friend →
  outcome (get_friends user) w = Ok before →
  let w' := after (update_friend_request request_id request_update current_user now) w in
  outcome (get_friends user) w'
  = Ok (before
        ++ [FriendshipResponse.mk (next_id Friendship.id (friendships (db w)))
              (UserResponse.of_user friend) now]).
Proof.
  intros Hfound Haccepted Hdistinct Hside Hfriend Hbefore w'.
  unfold outcome in *. rewrite get_friends_reads in *. cbn [snd] in *.
  unfold w'. rewrite (update_friend_request_db _ _ _ _ _ request Hfound).
  rewrite Haccepted. cbn [String.eqb Ascii.eqb Bool.eqb andb].
  set (new := new_friendship _ _ _ _).
  set (d' := set_friendships _ _).
  assert (friendships_of (User.id user) d'
          = friendships_of (User.id user) (db w) ++ [new]) as ->.
  { unfold friendships_of, d'. cbn [friendships set_friendships].
    rewrite List.filter_app. f_equal. cbn.
    destruct Hside as [-> | ->]; rewrite Z.eqb_refl; [done|by rewrite orb_true_r]. }
  assert (friend_entry (User.id user) d' new
          = Ok (FriendshipResponse.mk (next_id Friendship.id (friendships (db w)))
                  (UserResponse.of_user friend) now)) as Hnew.
  { unfold friend_entry, friend_of, user_by_id, d'. cbn.
    unfold user_by_id, first in Hfriend.
    rewrite (Z.eqb_sym (User.id user)) in Hfriend. by rewrite Hfriend. }
  apply collect_snoc; [|done].
  rewrite <- Hbefore. apply collect_ext. intros f. by unfold friend_entry, user_by_id.
Qed.

(** X22, witness: user 2 accepts the request of user 1; the friend list of
    user 1, empty before, then shows user 2. *)
Lemma accepted_request_shows_in_both_friend_lists_witness :
  outcome (get_friends alice) pending_world = Ok []
  ∧ outcome (get_friends alice)
      (after (update_friend_request 1 accept bob 5) pending_world)
    = Ok [FriendshipResponse.mk 1 (UserResponse.of_user bob) 5].
Proof.
  assert (outcome (get_friends alice) pending_world = Ok []) as Hbefore.
  { reflexivity. }
  assert (FriendRequest.sender_id pending_request
          ≠ FriendRequest.receiver_id pending_request) as Hdistinct.
  { discriminate. }
  split; [exact Hbefore|].
  exact (accepted_request_shows_in_both_friend_lists 1 accept bob alice bob 5
           pending_world pending_request [] eq_refl eq_refl Hdistinct
           (or_introl eq_refl) eq_refl Hbefore).
Defined.

(** ** main.py: [create_chat] and [get_chats] *)

Lemma create_chat_runs chat_data current_user now w :
  create_chat chat_data current_user now w
  = (set_db (set_chats
               (match first (chat_between (User.id current_user)
                               (ChatCreate.user_id chat_data)) (chats (db w)) with
                | Some _ => chats (db w)
                | None =>
                    chats (db w)
                    ++ [Chat.mk (next_id Chat.id (chats (db w))) (User.id current_user)
                          (ChatCreate.user_id chat_data) now now]
                end)
               (db w)) w,
     Raise (match user_by_id (ChatCreate.user_id chat_data) (db w) with
            | Some _ => ValidationError "unread_count"
            | None => AttributeError "id"
            end)).
Proof.
  unfold create_chat. rewrite bind_query.
  destruct (first _ (chats (db w))) as [existing|].
  - rewrite bind_query.
    destruct (user_by_id _ (db w)); cbn; by destruct w as [[] ? ?].
  - rewrite bind_query, bind_commit, bind_query.
    change (user_by_id (ChatCreate.user_id chat_data) (db (set_db _ w)))
      with (user_by_id (ChatCreate.user_id chat_data) (db w)).
    by destruct (user_by_id _ (db w)).
Qed.

Lemma first_app {A : Type} (p : A → bool) (l1 l2 : list A) :
  first p (l1 ++ l2)
  = match first p l1 with Some x => Some x | None => first p l2 end.
Proof.
  unfold first. induction l1 as [|x l1 IH]; [done|]. cbn. by destruct (p x).
Qed.

Lemma first_ext {A : Type} (p q : A → bool) (l : list A) :
  (∀ x, p x = q x) → first p l = first q l.
Proof.
  intros Hpq. unfold first. induction l as [|x l IH]; [done|].
  cbn. by rewrite Hpq, IH.
Qed.

Lemma the_pair_has_a_chat_after_create_chat chat_data current_user now w :
  is_Some (first (chat_between (User.id current_user) (ChatCreate.user_id chat_data))
             (chats (db (after (create_chat chat_data current_user now) w)))).
Proof.
  unfold after. rewrite create_chat_runs.
  cbn [fst db set_db chats set_chats].
  destruct (first _ (chats (db w))) as [c|] eqn:Hfirst.
  - by rewrite Hfirst.
  - rewrite first_app, Hfirst. cbn. unfold chat_between. cbn.
    by rewrite !Z.eqb_refl.
Qed.


Lemma chat_between_sym a b c : chat_between a b c = chat_between b a c.
Proof. unfold chat_between. apply orb_comm. Qed.

Lemma chat_between_same_pair a b a' b' c :
  chat_between a b (Chat.mk (Chat.id c) a' b' (Chat.created_at c) (Chat.updated_at c))
  = true →
  ∀ x, chat_between a b x = chat_between a' b' x.
Proof.
  unfold chat_between. cbn. intros H x.
  apply orb_true_iff in H as [H|H]; apply andb_true_iff in H as [H1 H2];
    apply Z.eqb_eq in H1, H2; subst; [done|apply orb_comm].
Qed.

(** X24.  At most one chat per pair of users.  If no two chats join the
    same two users, none do after [create_chat], whoever calls it and for
    whatever user; chat ids stay unique; and a second call for the same
    pair, from either side, changes nothing more. *)
Theorem create_chat_keeps_one_chat_per_pair
    (chat_data : ChatCreate.t) (current_user : User.t) (now : Z) (w : World) :
  one_chat_per_pair (chats (db w)) →
  unique_ids Chat.id (chats (db w)) →
  let w' := after (create_chat chat_data current_user now) w in
  one_chat_per_pair (chats (db w'))
  ∧ unique_ids Chat.id (chats (db w'))
  ∧ (∀ again caller later,
       (User.id caller = User.id current_user
        ∧ ChatCreate.user_id again = ChatCreate.user_id chat_data)
       ∨ (User.id caller = ChatCreate.user_id chat_data
          ∧ ChatCreate.user_id again = User.id current_user) →
       after (create_chat again caller later) w' = w').
Proof.
  intros Hpair Hids w'.
  assert (is_Some (first (chat_between (User.id current_user)
                            (ChatCreate.user_id chat_data)) (chats (db w'))))
    as Hexists.
  { apply (the_pair_has_a_chat_after_create_chat chat_data current_user now w). }
  unfold w' in *. unfold after in *. rewrite create_chat_runs in *.
  cbn [fst db set_db chats set_chats] in *.
  destruct (first _ (chats (db w))) as [existing|] eqn:Hfirst.
  - split_and!; [done..|].
    intros again caller later Hsame. rewrite create_chat_runs. cbn [fst].
    assert (first (chat_between (User.id caller) (ChatCreate.user_id again))
              (chats (db w)) = Some existing) as Hagain.
    { destruct Hsame as [[-> ->]|[-> ->]]; [done|].
      rewrite <- Hfirst. apply first_ext. intros c.
      apply chat_between_sym. }
    cbn [db set_db chats set_chats].
    rewrite Hagain. by destruct w as [[] ? ?].
  - rewrite first_none_elem in Hfirst. split_and!.
    + intros a b. rewrite List.filter_app, length_app. cbn [List.filter].
      destruct (chat_between a b _) eqn:Hnew; [|specialize (Hpair a b); cbn; lia].
      assert (List.filter (chat_between a b) (chats (db w)) = []) as ->; [|cbn; lia].
      apply elem_of_nil_inv. intros c [Hc Hab]%elem_of_List_filter.
      rewrite (chat_between_same_pair a b (User.id current_user)
                 (ChatCreate.user_id chat_data)
                 (Chat.mk (next_id Chat.id (chats (db w))) 0 0 now now) Hnew) in Hab.
      by rewrite (Hfirst c Hc) in Hab.
    + unfold unique_ids in *. rewrite map_app. apply NoDup_app. split_and!; [done| |].
      * intros k (c & -> & Hc)%list_elem_of_fmap Hk. cbn in Hk.
        apply list_elem_of_singleton in Hk.
        pose proof (next_id_fresh Chat.id _ c Hc). lia.
      * apply NoDup_singleton.
    + intros again caller later Hsame. rewrite create_chat_runs. cbn [fst].
      cbn [db set_db chats set_chats].
      destruct Hexists as [c Hc].
      assert (first (chat_between (User.id caller) (ChatCreate.user_id again))
                (chats (db w)
                 ++ [Chat.mk (next_id Chat.id (chats (db w))) (User.id current_user)
                       (ChatCreate.user_id chat_data) now now]) = Some c) as ->.
      { destruct Hsame as [[-> ->]|[-> ->]]; [done|].
        rewrite <- Hc. apply first_ext. intros x.
        apply chat_between_sym. }
      by destruct w as [[] ? ?].
Qed.

(** X24, witness: user 1 asks for a chat with user 3 in the sample world. *)
Lemma create_chat_keeps_one_chat_per_pair_witness :
  one_chat_per_pair (chats (db sample_world))
  ∧ chats (db (after (create_chat (ChatCreate.mk 3) alice 5) sample_world))
    = [chat_1_2; Chat.mk 8 1 3 5 5]
  ∧ one_chat_per_pair
      (chats (db (after (create_chat (ChatCreate.mk 3) alice 5) sample_world))).
Proof.
  assert (one_chat_per_pair (chats (db sample_world))) as Hpair.
  { intros a b. cbn. destruct (chat_between a b chat_1_2); cbn; lia. }
  assert (unique_ids Chat.id (chats (db sample_world))) as Hids.
  { apply NoDup_singleton. }
  split_and!; [exact Hpair|reflexivity|].
  exact (proj1 (create_chat_keeps_one_chat_per_pair (ChatCreate.mk 3) alice 5
                  sample_world Hpair Hids)).
Defined.

Lemma chat_response_reads user_id chat w :
  chat_response user_id chat w = (w, chat_entry user_id (db w) chat).
Proof.
  unfold chat_response, chat_entry. rewrite !bind_query.
  destruct (user_by_id _ (db w)) as [other|]; [|done].
  cbn [user_response]. rewrite bind_ret.
  destruct (last_message_of _ (db w)) as [m|]; [|done].
  unfold last_message_response, MessageResponse.validate.
  by destruct (Message.content m).
Qed.

Lemma collect_ok {A B : Type} (g : A → result B) xs :
  (∀ x, x ∈ xs → ∃ y, g x = Ok y) →
  ∃ ys, collect g xs = Ok ys
        ∧ length ys = length xs
        ∧ ∀ y, y ∈ ys ↔ ∃ x, x ∈ xs ∧ g x = Ok y.
Proof.
  induction xs as [|x xs IH]; intros Hg.
  - exists []. split_and!; [done..|]. intros y. split.
    + by intros ?%elem_of_nil.
    + by intros (x & ?%elem_of_nil & _).
  - destruct (Hg x) as [y Hy]; [apply elem_of_cons; by left|].
    destruct IH as (ys & Hys & Hlen & Helem).
    { intros x' Hx'. apply Hg, elem_of_cons. by right. }
    exists (y :: ys). cbn. rewrite Hy, Hys, Hlen. split_and!; [done..|].
    intros y'. rewrite elem_of_cons, Helem. split.
    + intros [->|(x' & Hx' & Hy')].
      * exists x. split; [apply elem_of_cons; by left|done].
      * exists x'. split; [apply elem_of_cons; by right|done].
    + intros (x' & [->|Hx']%elem_of_cons & Hy').
      * left. congruence.
      * right. eauto.
Qed.

Lemma insert_by_key_desc_perm r l : insert_by_key_desc r l ≡ₚ r :: l.
Proof.
  induction l as [|x l IH]; [done|]. cbn.
  destruct (_ <=? _); [done|]. rewrite IH. apply Permutation_swap.
Qed.

Lemma sorted_latest_first_perm rs : sorted_latest_first rs ≡ₚ rs.
Proof.
  induction rs as [|r rs IH]; [done|].
  cbn. rewrite insert_by_key_desc_perm. by rewrite IH.
Qed.

Lemma insert_by_key_desc_sorted r l :
  StronglySorted (λ a b, chat_sort_key b ≤ chat_sort_key a) l →
  StronglySorted (λ a b, chat_sort_key b ≤ chat_sort_key a) (insert_by_key_desc r l).
Proof.
  induction 1 as [|x l Hl IH Hx]; cbn.
  - repeat constructor.
  - destruct (chat_sort_key x <=? chat_sort_key r) eqn:Hle.
    + apply Z.leb_le in Hle. constructor; [by constructor|].
      constructor; [done|]. eapply Forall_impl; [exact Hx|]. cbn. intros; lia.
    + apply Z.leb_gt in Hle. constructor; [done|].
      rewrite insert_by_key_desc_perm. constructor; [lia|done].
Qed.

Lemma sorted_latest_first_sorted rs :
  StronglySorted (λ a b, chat_sort_key b ≤ chat_sort_key a) (sorted_latest_first rs).
Proof.
  induction rs as [|r rs IH]; [constructor|].
  by apply insert_by_key_desc_sorted.
Qed.

(** X25.  The chat list.  When the other user of each chat of the caller
    has a row and the last message of each of these chats has a text, the
    request changes nothing and lists exactly the chats the caller takes
    part in, one entry per chat: each entry names the other participant,
    carries the chat's latest message and the number of messages of the
    chat that the caller did not send and that are not [seen]; the entries
    come latest activity first. *)
Theorem chat_list_is_complete_and_ordered (current_user : User.t) (w : World) :
  let user_id := User.id current_user in
  (∀ c, c ∈ chats_of user_id (db w) →
        is_Some (user_by_id (other_participant user_id c) (db w))) →
  (∀ c m, c ∈ chats_of user_id (db w) →
          last_message_of (Chat.id c) (db w) = Some m → Message.content m ≠ None) →
  ∃ listing,
    get_chats current_user w = (w, Ok listing)
    ∧ length listing = length (chats_of user_id (db w))
    ∧ (∀ r, r ∈ listing
            ↔ ∃ c, c ∈ chats_of user_id (db w) ∧ chat_entry user_id (db w) c = Ok r)
    ∧ (∀ r, r ∈ listing →
         ChatResponse.unread_count r
         = unread_count (ChatResponse.id r) user_id (db w))
    ∧ StronglySorted (λ a b, chat_sort_key b ≤ chat_sort_key a) listing.
Proof.
  intros user_id Hother Htext.
  destruct (collect_ok (chat_entry user_id (db w)) (chats_of user_id (db w)))
    as (entries & Hentries & Hlen & Helem).
  { intros c Hc. destruct (Hother c Hc) as [other Ho].
    unfold chat_entry. rewrite Ho.
    destruct (last_message_of (Chat.id c) (db w)) as [m|] eqn:Hlast; [|eauto].
    specialize (Htext c m Hc Hlast).
    destruct (Message.content m); [eauto|done]. }
  exists (sorted_latest_first entries). split_and!.
  - unfold get_chats. rewrite bind_query. fold user_id.
    fold (chats_of user_id (db w)). unfold bind.
    rewrite (map_M_reads _ (chat_entry user_id)
               (chat_response_reads user_id)), Hentries. done.
  - by rewrite sorted_latest_first_perm.
  - intros r. by rewrite sorted_latest_first_perm.
  - intros r. rewrite sorted_latest_first_perm, Helem.
    intros (c & _ & Hr). unfold chat_entry in Hr.
    destruct (user_by_id _ (db w)); [|done].
    destruct (last_message_of _ (db w)) as [m|].
    + destruct (Message.content m); [|done]. by injection Hr as <-.
    + by injection Hr as <-.
  - apply sorted_latest_first_sorted.
Qed.

(** X25, witness: the chat list of user 2, who has one chat with one unread
    message. *)
Lemma chat_list_is_complete_and_ordered_witness :
  chats_of (User.id bob) (db unseen_world) = [chat_1_2]
  ∧ ∃ listing,
      get_chats bob unseen_world = (unseen_world, Ok listing)
      ∧ length listing = 1%nat
      ∧ ∀ r, r ∈ listing →
             ChatResponse.unread_count r
             = unread_count (ChatResponse.id r) (User.id bob) (db unseen_world).
Proof.
  assert (∀ c, c ∈ chats_of (User.id bob) (db unseen_world) →
               is_Some (user_by_id (other_participant (User.id bob) c)
                          (db unseen_world))) as Hother.
  { intros c Hc. change (c ∈ [chat_1_2]) in Hc.
    apply list_elem_of_singleton in Hc as ->. by exists alice. }
  assert (∀ c m, c ∈ chats_of (User.id bob) (db unseen_world) →
                 last_message_of (Chat.id c) (db unseen_world) = Some m →
                 Message.content m ≠ None) as Htext.
  { intros c m Hc. change (c ∈ [chat_1_2]) in Hc.
    apply list_elem_of_singleton in Hc as ->.
    change (Some hi_message = Some m → Message.content m ≠ None).
    by intros [= <-]. }
  split; [reflexivity|].
  destruct (chat_list_is_complete_and_ordered bob unseen_world Hother Htext)
    as (listing & Hrun & Hlen & _ & Hunread & _).
  exists listing. split_and!; [exact Hrun|exact Hlen|exact Hunread].
Defined.

(** ** main.py: [register], [login], [update_current_user], [search_users] *)

Section AccountProperties.

Variable get_password_hash : string → string → string.
Variable verify_password : string → string → bool.
Variable create_access_token : Z → Z → string.
Variable ilike : string → string → bool.



Lemma login_runs user_data now w :
  login verify_password create_access_token user_data now w
  = match user_by_email (UserLogin.email user_data) (db w) with
    | Some u =>
        if verify_password (UserLogin.password user_data) (User.password u)
        then (set_db (set_users
                        (map (λ x, if User.id x =? User.id u
                                   then User.set_presence true now x else x)
                             (users (db w)))
                        (db w)) w,
              Ok (UserResponse.mk (User.id u) (User.name u) (User.email u)
                    (User.avatar u) true None
                    (Some (create_access_token (User.id u) now))))
        else (w, Raise (HTTPException 400 "Invalid email or password"))
    | None => (w, Raise (HTTPException 400 "Invalid email or password"))
    end.
Proof.
  unfold login, user_by_email. rewrite bind_query.
  destruct (first _ (users (db w))) as [u|]; [|done].
  by destruct (verify_password _ _).
Qed.


(** X28.  A login succeeds only for a stored address whose stored hash the
    password check accepts, and then answers with that user's id.  In every
    other case the answer is the same 400, whether the address is unknown or
    the password wrong, and nothing changes. *)
Theorem login_needs_a_verified_password (user_data : UserLogin.t) (now : Z) (w : World) :
  let run := login verify_password create_access_token user_data now in
  (∃ u response,
     user_by_email (UserLogin.email user_data) (db w) = Some u
     ∧ u ∈ users (db w)
     ∧ User.email u = UserLogin.email user_data
     ∧ verify_password (UserLogin.password user_data) (User.password u) = true
     ∧ outcome run w = Ok response
     ∧ UserResponse.id response = User.id u
     ∧ net (after run w) = net w
     ∧ manager (after run w) = manager w)
  ∨ run w = (w, Raise (HTTPException 400 "Invalid email or password")).
Proof.
  intros run. unfold run, outcome, after. rewrite login_runs.
  destruct (user_by_email _ (db w)) as [u|] eqn:Hfound; [|by right].
  destruct (verify_password _ _) eqn:Hverify; [|by right].
  left. exists u. eexists. cbn [fst snd].
  apply first_some_elem in Hfound as Hu. destruct Hu as [Hin Heq].
  apply String.eqb_eq in Heq. split_and!; done.
Qed.

Lemma updated_profile_id user_data now u :
  User.id (updated_profile user_data now u) = User.id u.
Proof. done. Qed.

Lemma update_current_user_runs user_data current_user now w :
  update_current_user user_data current_user now w
  = let committed :=
      (set_db (set_users
                 (map (λ u, if User.id u =? User.id current_user
                            then updated_profile user_data now u else u)
                      (users (db w)))
                 (db w)) w,
       Ok (UserResponse.of_user (updated_profile user_data now current_user))) in
    match truthy (UserUpdate.email user_data) with
    | Some email =>
        match first (λ u, String.eqb (User.email u) email
                          && negb (User.id u =? User.id current_user))
                    (users (db w)) with
        | Some _ => (w, Raise (HTTPException 400 "Email already registered"))
        | None => committed
        end
    | None => committed
    end.
Proof.
  unfold update_current_user.
  destruct (truthy (UserUpdate.email user_data)) as [email|]; [|done].
  unfold bind at 1. rewrite bind_query.
  by destruct (first _ (users (db w))).
Qed.

Lemma truthy_some s e : s = Some e → e ≠ EmptyString → truthy s = Some e.
Proof. intros -> He. by destruct e. Qed.

(** The rows after an update of the address to [email], none of the other
    rows holding it. *)
Lemma updated_emails_NoDup user_data now user_id email rows :
  truthy (UserUpdate.email user_data) = Some email →
  NoDup (map User.email rows) →
  unique_ids User.id rows →
  (∀ u, u ∈ rows →
        String.eqb (User.email u) email && negb (User.id u =? user_id) = false) →
  NoDup (map User.email
           (map (λ u, if User.id u =? user_id
                      then updated_profile user_data now u else u) rows)).
Proof.
  intros Htruthy. unfold unique_ids.
  assert (∀ u, User.email (updated_profile user_data now u) = email) as Hnew.
  { intros u. unfold updated_profile. cbn. by rewrite Htruthy. }
  induction rows as [|x rows IH]; [done|].
  cbn [map]. intros [Hx Hemails]%NoDup_cons [Hxid Hids]%NoDup_cons Hfree.
  apply NoDup_cons. split.
  2:{ apply IH; [done..|]. intros u Hu. apply Hfree, elem_of_cons. by right. }
  intros (y' & Hy' & (y & -> & Hy)%list_elem_of_fmap)%list_elem_of_fmap.
  assert (String.eqb (User.email x) email && negb (User.id x =? user_id) = false)
    as Hxfree by (apply Hfree, elem_of_cons; by left).
  assert (String.eqb (User.email y) email && negb (User.id y =? user_id) = false)
    as Hyfree by (apply Hfree, elem_of_cons; by right).
  destruct (User.id x =? user_id) eqn:Hxu; destruct (User.id y =? user_id) eqn:Hyu.
  - apply Z.eqb_eq in Hxu, Hyu. apply Hxid, list_elem_of_fmap.
    exists y. split; [congruence|done].
  - rewrite Hnew in Hy'. rewrite <- Hy', String.eqb_refl in Hyfree. done.
  - rewrite Hnew in Hy'. rewrite Hy', String.eqb_refl in Hxfree. done.
  - apply Hx, list_elem_of_fmap. by exists y.
Qed.

(** X29.  A profile update keeps addresses and ids unique.  If no two
    users share an address or an id, none do after [update_current_user],
    whatever is submitted; an update to an address that another user holds
    is refused with 400 and changes nothing, the name included; and no row
    but the caller's is ever changed. *)
Theorem profile_update_keeps_emails_unique
    (user_data : UserUpdate.t) (current_user : User.t) (now : Z) (w : World) :
  NoDup (map User.email (users (db w))) →
  unique_ids User.id (users (db w)) →
  let run := update_current_user user_data current_user now in
  NoDup (map User.email (users (db (after run w))))
  ∧ unique_ids User.id (users (db (after run w)))
  ∧ (∀ u email, u ∈ users (db w) →
        UserUpdate.email user_data = Some email → email ≠ EmptyString →
        User.email u = email → User.id u ≠ User.id current_user →
        run w = (w, Raise (HTTPException 400 "Email already registered")))
  ∧ (∀ u, u ∈ users (db w) → User.id u ≠ User.id current_user →
          u ∈ users (db (after run w))).
Proof.
  intros Hemails Hids run.
  assert (unique_ids User.id
            (map (λ u, if User.id u =? User.id current_user
                       then updated_profile user_data now u else u)
               (users (db w)))) as Hids'.
  { unfold unique_ids in *. rewrite map_map.
    erewrite map_ext; [exact Hids|]. intros u. cbn.
    by destruct (User.id u =? User.id current_user). }
  assert (∀ u, u ∈ users (db w) → User.id u ≠ User.id current_user →
               u ∈ map (λ u, if User.id u =? User.id current_user
                             then updated_profile user_data now u else u)
                       (users (db w))) as Hkept.
  { intros u Hu Hid. apply list_elem_of_fmap. exists u. split; [|done].
    apply Z.eqb_neq in Hid. by rewrite Hid. }
  unfold run, after. rewrite update_current_user_runs. cbv zeta.
  destruct (truthy (UserUpdate.email user_data)) as [email|] eqn:Htruthy.
  - destruct (first _ (users (db w))) as [other|] eqn:Hfirst.
    + cbn [fst]. split_and!; done.
    + rewrite first_none_elem in Hfirst.
      cbn [fst db set_db users set_users]. split_and!; [|done| |done].
      * by apply (updated_emails_NoDup _ _ _ email).
      * intros u e Hu He Hne Heq Hid. exfalso.
        rewrite (truthy_some _ e He Hne) in Htruthy. injection Htruthy as <-.
        specialize (Hfirst u Hu). rewrite Heq, String.eqb_refl in Hfirst.
        apply Z.eqb_neq in Hid. by rewrite Hid in Hfirst.
  - cbn [fst db set_db users set_users]. split_and!; [|done| |done].
    + rewrite map_map. erewrite map_ext; [exact Hemails|]. intros u. cbn.
      destruct (User.id u =? User.id current_user); [|done].
      unfold updated_profile. cbn. by rewrite Htruthy.
    + intros u e Hu He Hne. by rewrite (truthy_some _ e He Hne) in Htruthy.
Qed.

End AccountProperties.

Lemma sample_users_distinct :
  NoDup (map User.email (users (db sample_world)))
  ∧ unique_ids User.id (users (db sample_world)).
Proof. split; apply (bool_decide_unpack _); vm_compute; exact I. Qed.




(** X29, witness: user 1 asks for the address of user 2. *)
Lemma profile_update_keeps_emails_unique_witness :
  NoDup (map User.email (users (db sample_world)))
  ∧ unique_ids User.id (users (db sample_world))
  ∧ update_current_user take_bobs_email alice 5 sample_world
    = (sample_world, Raise (HTTPException 400 "Email already registered")).
Proof.
  destruct sample_users_distinct as [Hemails Hids].
  assert (bob ∈ users (db sample_world)) as Hbob.
  { apply elem_of_cons. right. apply elem_of_cons. by left. }
  assert (User.id bob ≠ User.id alice) as Hother by discriminate.
  assert ("bob@example.org"%string ≠ EmptyString) as Hne by discriminate.
  split_and!; [exact Hemails|exact Hids|].
  destruct (profile_update_keeps_emails_unique take_bobs_email alice 5 sample_world
              Hemails Hids) as (_ & _ & Hrefused & _).
  exact (Hrefused bob "bob@example.org"%string Hbob eq_refl Hne eq_refl Hother).
Defined.

Lemma elem_of_firstn {A : Type} (n : nat) (l : list A) x : x ∈ firstn n l → x ∈ l.
Proof.
  revert n. induction l as [|y l IH]; intros [|n]; cbn; try by intros ?%elem_of_nil.
  intros [->|Hx]%elem_of_cons; apply elem_of_cons; [by left|right; eauto].
Qed.

Lemma exclude_ids_spec user_id d k :
  k ∉ exclude_ids user_id d →
  k ≠ user_id ∧ ¬ friends user_id k d ∧ ¬ pending_between user_id k d.
Proof.
  unfold exclude_ids. rewrite !elem_of_app, list_elem_of_singleton.
  intros Hnot.
  assert (k ≠ user_id) as Hself by tauto.
  split_and!; [done| |].
  - intros (f & Hf & Hjoin). apply Hnot. left.
    apply list_elem_of_fmap. exists f. split.
    + unfold friend_of. destruct Hjoin as [[H1 H2]|[H1 H2]].
      * by rewrite H1, Z.eqb_refl.
      * rewrite H1. apply Z.eqb_neq in Hself. by rewrite Hself.
    + unfold friendships_of. apply elem_of_List_filter. split; [done|].
      destruct Hjoin as [[H1 H2]|[H1 H2]].
      * by rewrite H1, Z.eqb_refl.
      * by rewrite H2, Z.eqb_refl, orb_true_r.
  - intros (r & Hr & Hstatus & Hjoin). apply Hnot. right. left.
    apply list_elem_of_fmap. exists r. split.
    + destruct Hjoin as [[H1 H2]|[H1 H2]].
      * by rewrite H1, Z.eqb_refl.
      * rewrite H1. apply Z.eqb_neq in Hself. by rewrite Hself.
    + apply elem_of_List_filter. split; [done|].
      rewrite Hstatus. cbn [String.eqb]. rewrite andb_true_r.
      destruct Hjoin as [[H1 H2]|[H1 H2]].
      * by rewrite H1, Z.eqb_refl.
      * by rewrite H2, Z.eqb_refl, orb_true_r.
Qed.

(** X30.  What a search never suggests.  Whatever the query and whatever
    the pattern matching decides, the search changes nothing and answers
    with at most twenty entries, each of them a stored user who is not the
    caller, not a friend of the caller, and not joined to the caller by a
    pending request in either direction. *)
Theorem search_never_suggests_a_known_user
    (ilike : string → string → bool) (q : string) (current_user : User.t) (w : World) :
  ∃ found,
    search_users ilike q current_user w = (w, Ok found)
    ∧ (length found ≤ 20)%nat
    ∧ ∀ r, r ∈ found →
        ∃ u, u ∈ users (db w)
             ∧ r = UserResponse.of_user u
             ∧ User.id u ≠ User.id current_user
             ∧ ¬ friends (User.id current_user) (User.id u) (db w)
             ∧ ¬ pending_between (User.id current_user) (User.id u) (db w).
Proof.
  unfold search_users. rewrite bind_query. cbv zeta.
  eexists. split; [reflexivity|]. split.
  - rewrite length_map, length_firstn. lia.
  - intros r (u & -> & Hu)%list_elem_of_fmap. apply elem_of_firstn in Hu.
    assert (u ∈ List.filter
                  (λ u, negb (bool_decide
                                (User.id u ∈ exclude_ids (User.id current_user) (db w))))
                  (users (db w))) as Hcandidate.
    { destruct q; [done|]. by apply elem_of_List_filter in Hu as [Hu _]. }
    apply elem_of_List_filter in Hcandidate as [Hin Hnot].
    apply negb_true_iff, bool_decide_eq_false in Hnot.
    exists u. split; [done|]. split; [done|].
    by apply exclude_ids_spec.
Qed.
